(** * Studuino:bit mode of the Mu editor: device session layer

    A shallow embedding of the device communication code of
    [mu/modes/base.py], [mu/modes/studuinobit.py] and
    [mu/interface/dialogs.py]: device discovery, the serial session, the
    reboot handshake, the flash sequence, the file manager and the
    arbitration between REPL, plotter and file system; then the presence
    poll and [run] of the mode, the Wi-Fi and library page of the admin
    dialog, and the package status dialog with its event loop.

    Python [bytes] and [str] values are [string]s (one [ascii] per byte),
    exceptions are values of [exn], and a method that touches the serial
    port, the view or the editor is a function of the monad [M], which
    threads the object's attributes, the outside world and a log of the
    calls made to the outside world. *)

From Stdlib Require Import List String Ascii ZArith Bool Lia.
Import ListNotations.
Local Open Scope string_scope.
Local Open Scope Z_scope.

Set Implicit Arguments.

(** ** Python values shared by all modules *)

Module Py.

(** The exception classes the modelled code raises or catches, each
    raised with one string argument ([NameError] with the message built
    from the name). [NoArgs] is an exception raised without any argument,
    such as [raise IOError()]: its [args] is the empty tuple, and [io]
    tells whether its class is [IOError] or derives from it. *)
Inductive exn : Type :=
| TimeoutError (msg : string)
| IOError (msg : string)
| NameError (name : string)
| NotImplementedError (msg : string)
| TypeError (msg : string)
| AttributeError (msg : string)
| Exception (msg : string)
| IndexError (msg : string)
| NoArgs (io : bool).

Inductive result (A : Type) : Type :=
| Ok (a : A)
| Raise (e : exn).

Arguments Ok {A} a.
Arguments Raise {A} e.

(** [token in buff] on [bytes]: is [token] a contiguous slice of [buff]. *)
Fixpoint bytes_in (token buff : string) : bool :=
  if String.prefix token buff then true
  else match buff with
       | EmptyString => false
       | String _ rest => bytes_in token rest
       end.

(** [p.rfind(c)]: index of the last occurrence of [c], or [-1]. *)
Fixpoint rfind (c : ascii) (p : string) : Z :=
  match p with
  | EmptyString => -1
  | String a rest =>
      let r := rfind c rest in
      if 0 <=? r then r + 1
      else if Ascii.eqb a c then 0 else -1
  end.

(** [p[i:]] for [0 <= i]. *)
Fixpoint slice_from (i : nat) (p : string) : string :=
  match i, p with
  | O, _ => p
  | S _, EmptyString => EmptyString
  | S j, String _ rest => slice_from j rest
  end.

(** [posixpath.basename]: [i = p.rfind('/') + 1; return p[i:]]. *)
Definition basename (p : string) : string :=
  let i := rfind "/"%char p + 1 in
  slice_from (Z.to_nat i) p.

(** One turn of the loop of [posixpath.join(a, *p)] for the part [b]. *)
Definition join2 (a b : string) : string :=
  if String.prefix "/" b then b
  else if orb (String.eqb a "") (String.eqb (slice_from (Nat.pred (String.length a)) a) "/")
       then a ++ b
       else a ++ "/" ++ b.

(** [posixpath.join(a, *ps)]. *)
Definition join (a : string) (ps : list string) : string :=
  fold_left join2 ps a.

(** The one-character string holding a double quote. *)
Definition dquote : string := String "034"%char EmptyString.

(** Carriage return, line feed. *)
Definition CRLF : string := String "013"%char (String "010"%char EmptyString).

(** A line feed. *)
Definition LF : string := String "010"%char EmptyString.

(** [s.startswith(pre)]. *)
Definition startswith (s pre : string) : bool := String.prefix pre s.

(** [str(e)] of an exception; the empty string when it has no argument. *)
Definition exn_str (e : exn) : string :=
  match e with
  | TimeoutError m | IOError m | NotImplementedError m | TypeError m
  | AttributeError m | Exception m | IndexError m => m
  | NameError n => "name '" ++ n ++ "' is not defined"
  | NoArgs _ => ""
  end.

(** [e.args[0]]: [None] stands for the [IndexError] that the subscript
    raises on the empty tuple. *)
Definition args0 (e : exn) : option string :=
  match e with
  | NoArgs _ => None
  | _ => Some (exn_str e)
  end.

(** The [IndexError] of [e.args[0]] on an exception without arguments. *)
Definition no_args_error : exn := IndexError "tuple index out of range".

(** [str.lower] on a code point below 256. *)
Definition lower_char (c : ascii) : ascii :=
  let n := nat_of_ascii c in
  if ((65 <=? n) && (n <=? 90) || (192 <=? n) && (n <=? 214)
      || (216 <=? n) && (n <=? 222))%nat
  then ascii_of_nat (n + 32)
  else c.

Fixpoint map_chars (f : ascii -> ascii) (s : string) : string :=
  match s with
  | EmptyString => EmptyString
  | String c rest => String (f c) (map_chars f rest)
  end.

(** [s.lower()]. *)
Definition lower (s : string) : string := map_chars lower_char s.

(** *** [os.path] of a Windows host ([ntpath], as of Python 3.11) *)

(** [c in seps], where [seps] is a backslash and a slash. *)
Definition is_sep (c : ascii) : bool :=
  Ascii.eqb c "\"%char || Ascii.eqb c "/"%char.

(** [p[:i]]. *)
Fixpoint slice_to (i : nat) (p : string) : string :=
  match i, p with
  | O, _ => EmptyString
  | S _, EmptyString => EmptyString
  | S j, String c rest => String c (slice_to j rest)
  end.

(** [s.find(c, start)] for a character [c]: the index of the first
    occurrence at or after [start], [None] for [-1]. *)
Fixpoint find_from (c : ascii) (start : nat) (s : string) : option nat :=
  match s with
  | EmptyString => None
  | String a rest =>
      match start with
      | O => if Ascii.eqb a c then Some O
             else option_map S (find_from c O rest)
      | S k => option_map S (find_from c k rest)
      end
  end.

(** [p.replace(altsep, sep)]. *)
Definition nt_norm (p : string) : string :=
  map_chars (fun c => if Ascii.eqb c "/"%char then "\"%char else c) p.

(** [c.upper() == t] for one character [t] that is not a lower-case
    letter: [c] is [t], or [t] is a capital ASCII letter and [c] its
    lower-case form. *)
Definition upper_is (c t : ascii) : bool :=
  Ascii.eqb c t
  || (let n := nat_of_ascii c in
      (97 <=? n) && (n <=? 122) && (n - 32 =? nat_of_ascii t))%nat.

(** [s.upper() == t] for such a [t], character by character. *)
Fixpoint upper_equals (s t : string) : bool :=
  match s, t with
  | EmptyString, EmptyString => true
  | String a s', String b t' => upper_is a b && upper_equals s' t'
  | _, _ => false
  end.

(** [unc_prefix] of [splitdrive]: two backslashes, a question mark, a
    backslash, [UNC] and a backslash. *)
Definition unc_prefix : string := "\\?\UNC\".

(** [ntpath.splitdrive(p)] as the length of the drive: the function
    returns [(p[:k], p[k:])] for this [k]. *)
Definition nt_drive_length (p : string) : nat :=
  if (2 <=? String.length p)%nat then
    let normp := nt_norm p in
    if String.eqb (slice_to 2 normp) "\\" then
      let start :=
        if upper_equals (slice_to 8 normp) unc_prefix then 8%nat else 2%nat in
      match find_from "\"%char start normp with
      | None => String.length p
      | Some index =>
          match find_from "\"%char (index + 1) normp with
          | None => String.length p
          | Some index2 => index2
          end
      end
    else if String.eqb (slice_to 1 (slice_from 1 normp)) ":" then 2%nat
    else 0%nat
  else 0%nat.

Definition nt_splitdrive (p : string) : string * string :=
  (slice_to (nt_drive_length p) p, slice_from (nt_drive_length p) p).

(** The tail that [ntpath.split] finds, [p[i:]] for the index [i] beyond
    the last separator of [p]; [tail] is what has been read since the
    last separator. *)
Fixpoint after_last_sep (p tail : string) : string :=
  match p with
  | EmptyString => tail
  | String c rest =>
      if is_sep c then after_last_sep rest EmptyString
      else after_last_sep rest (tail ++ String c EmptyString)
  end.

(** [ntpath.basename(p)], which is [split(p)[1]]. *)
Definition nt_basename (p : string) : string :=
  after_last_sep (snd (nt_splitdrive p)) EmptyString.

(** [s[0] in seps] and [s[-1] in seps], false on the empty string. *)
Definition starts_with_sep (s : string) : bool :=
  match s with
  | EmptyString => false
  | String c _ => is_sep c
  end.

Fixpoint ends_with_sep (s : string) : bool :=
  match s with
  | EmptyString => false
  | String c EmptyString => is_sep c
  | String _ rest => ends_with_sep rest
  end.

(** [s[-1:] == ":"]. *)
Fixpoint ends_with_colon (s : string) : bool :=
  match s with
  | EmptyString => false
  | String c EmptyString => Ascii.eqb c ":"%char
  | String _ rest => ends_with_colon rest
  end.

Definition nonempty (s : string) : bool := negb (String.eqb s "").

(** One turn of the loop of [ntpath.join] over [paths]: the state is
    [(result_drive, result_path)]. *)
Definition nt_join_step (state : string * string) (p : string)
    : string * string :=
  let '(result_drive, result_path) := state in
  let '(p_drive, p_path) := nt_splitdrive p in
  if starts_with_sep p_path then
    ((if nonempty p_drive || negb (nonempty result_drive) then p_drive
      else result_drive),
     p_path)
  else if nonempty p_drive && negb (String.eqb p_drive result_drive)
          && negb (String.eqb (lower p_drive) (lower result_drive)) then
    (p_drive, p_path)
  else
    ((if nonempty p_drive && negb (String.eqb p_drive result_drive)
      then p_drive else result_drive),
     (if nonempty result_path && negb (ends_with_sep result_path)
      then result_path ++ "\" else result_path) ++ p_path).

(** [ntpath.join(path, *paths)]. *)
Definition nt_join (path : string) (paths : list string) : string :=
  let '(result_drive, result_path) :=
    fold_left nt_join_step paths (nt_splitdrive path) in
  if nonempty result_path && negb (starts_with_sep result_path)
     && nonempty result_drive && negb (ends_with_colon result_drive)
  then result_drive ++ "\" ++ result_path
  else result_drive ++ result_path.

(** *** [os.path] of the host: [ntpath] where [os.name] is [nt],
    [posixpath] elsewhere *)

Definition os_path_basename (os : string) (p : string) : string :=
  if String.eqb os "nt" then nt_basename p else basename p.

Definition os_path_join (os : string) (path : string) (paths : list string)
    : string :=
  if String.eqb os "nt" then nt_join path paths else join path paths.

End Py.

Import Py.

Arguments os_path_join : simpl never.
Arguments os_path_basename : simpl never.

(** ** Device locator ([MicroPythonMode.find_device], [port_path]) *)

Module Locator.

(** What the code reads from a [QSerialPortInfo]. *)
Record port_info : Type := {
  vendorIdentifier : Z;
  productIdentifier : Z;
  portName : string;
  serialNumber : string
}.

(** An entry of a board table: [(vid, pid)], where [pid] may be [None]. *)
Definition board : Type := (Z * option Z)%type.

Definition board_eqb (a b : board) : bool :=
  Z.eqb (fst a) (fst b) &&
  match snd a, snd b with
  | Some x, Some y => Z.eqb x y
  | None, None => true
  | _, _ => false
  end.

(** [x in table] for a list or set of tuples. *)
Definition board_in (x : board) (table : list board) : bool :=
  existsb (board_eqb x) table.

(** [BOARD_IDS] of base.py. *)
Definition BOARD_IDS : list board :=
  [ (0x0D28, Some 0x0204); (0x239A, Some 0x800B); (0x239A, Some 0x8016);
    (0x239A, Some 0x8014); (0x239A, Some 0x8019); (0x239A, Some 0x8015);
    (0x239A, Some 0x801B) ].

(** [StuduinoBitMode.valid_boards]. *)
Definition valid_boards : list board := [ (0x20A0, Some 0x4269) ].

(** [port_path]: [os] is the value of [os.name]. *)
Definition port_path (os : string) (port_name : string) : result string :=
  if String.eqb os "posix" then Ok ("/dev/" ++ port_name)
  else if String.eqb os "nt" then Ok port_name
  else Raise (NotImplementedError ("OS " ++ dquote ++ os ++ dquote ++ " not supported.")).

(** The test of the loop body of [find_device]. *)
Definition port_matches (boards : list board) (p : port_info) : bool :=
  board_in (vendorIdentifier p, Some (productIdentifier p)) boards
  || board_in (vendorIdentifier p, None) boards.

(** [find_device]: the [for] loop over [availablePorts()], returning at
    the first match; [(None, None)] after the loop. *)
Fixpoint find_device (os : string) (boards : list board)
    (available_ports : list port_info)
    : result (option string * option string) :=
  match available_ports with
  | [] => Ok (None, None)
  | port :: rest =>
      if port_matches boards port then
        match port_path os (portName port) with
        | Ok path => Ok (Some path, Some (serialNumber port))
        | Raise e => Raise e
        end
      else find_device os boards rest
  end.

(** A port matches a table when its pair, or its vendor with [None], is
    an element of the table. *)
Definition Matches (boards : list board) (p : port_info) : Prop :=
  In (vendorIdentifier p, Some (productIdentifier p)) boards
  \/ In (vendorIdentifier p, None) boards.

End Locator.

(** ** The mode object and the world around it *)

Module World.

Import Locator.

(** Calls made to the serial port, the view and the editor, in the order
    they are made. [logger] calls are left out. *)
Inductive event : Type :=
| EvSetPortName (port : string)
| EvOpen (ok : bool)
| EvSetDTR
| EvIsDTR (ready : bool)
| EvSetBaudRate (rate : Z)
| EvClose
| EvPyserialOpen (port : string)
| EvPyserialDTR
| EvPyserialClose
| EvWrite (data : string)
| EvWait (timeout : Z) (ready : bool)
| EvReadAll (data : string)
| EvSleep
| EvDialog (choice : option string)
| EvSave (text path newline : string)
| EvPut (local remote : string)
| EvExecute (commands : list string)
| EvShowMessage (title information : string)
| EvCritical (title text : string)
| EvStatus (message : string)
| EvSetButtons (buttons : list (string * bool))
| EvTimerStart (msec : Z)
| EvTimerStop
| EvAddRepl (port : string)
| EvRemoveRepl
| EvAddPlotter (port : string)
| EvRemovePlotter
| EvAddFilesystem (port : string)
| EvRemoveFilesystem
| EvSendCmd (commands : list string).

(** The value of [self.serial]: not yet assigned, [None], or a
    [QSerialPort] that is open or not. *)
Inductive serial_attr : Type :=
| Unbound
| NoneValue
| QPort (is_open : bool).

(** What the device sends: one entry per call of [waitForReadyRead],
    [Some data] when data arrived before the timeout of that call, [None]
    when the call timed out. Once the list is used up the device stays
    silent. [rx] of the world below is the receive buffer of the port:
    what has arrived and has not been read. *)
Definition script : Type := list (option string).

(** The attributes of the mode object that the modelled methods use.
    [repl] and [plotter] are [None], [True] or [False]; [fs] is [None] or
    the file system pane, kept as the port it was opened on. *)
Record attrs : Type := {
  repl : option bool;
  plotter : option bool;
  fs : option string;
  serial : serial_attr;
  timer_active : bool
}.

(** The host, the view and the helper modules that are not part of the
    modelled files, as the outcomes of the calls made to them. *)
Record host : Type := {
  os_name : string;
  available_ports : list port_info;
  port_opens : bool;
  port_reopens : bool;
  dtr_effective : bool;
  pyserial_opens : bool;
  HOME_DIRECTORY : string;
  WORKSPACE_NAME : string;
  dialog_choice : option string;
  current_tab : option (string * string);
  save_and_encode : string -> string -> string -> result unit;
  sbfs_put : string -> string -> script -> result unit * script;
  sbfs_execute : list string -> script -> result unit * script;
  sbfs_send_cmd : list string -> script -> result (string * string) * script;
  view_add_repl : string -> result unit;
  view_add_plotter : string -> result unit;
  plotter_data_saved : result unit
}.

Record world : Type := {
  self : attrs;
  env : host;
  incoming : script;
  rx : string;
  log : list event
}.

Definition idle : attrs :=
  {| repl := None; plotter := None; fs := None; serial := Unbound;
     timer_active := false |}.

(** State and exceptions: a raised exception keeps the changes made
    before it. *)
Definition M (A : Type) : Type := world -> result A * world.

Definition ret {A} (a : A) : M A := fun w => (Ok a, w).

Definition raise {A} (e : exn) : M A := fun w => (Raise e, w).

Definition bind {A B} (m : M A) (k : A -> M B) : M B :=
  fun w => match m w with
           | (Ok a, w') => k a w'
           | (Raise e, w') => (Raise e, w')
           end.

(** [try: body except Exception as e: handler e]. *)
Definition try_except {A} (body : M A) (handler : exn -> M A) : M A :=
  fun w => match body w with
           | (Ok a, w') => (Ok a, w')
           | (Raise e, w') => handler e w'
           end.

(** In Python 3 [IOError] is [OSError], and [TimeoutError] derives from it. *)
Definition is_IOError (e : exn) : bool :=
  match e with
  | IOError _ | TimeoutError _ => true
  | NoArgs io => io
  | _ => false
  end.

(** [try: body except IOError as e: handler e]. *)
Definition try_except_IOError {A} (body : M A) (handler : exn -> M A) : M A :=
  try_except body (fun e => if is_IOError e then handler e else raise e).

Definition lift {A} (r : result A) : M A := fun w => (r, w).

Definition emit (e : event) : M unit :=
  fun w => (Ok tt, {| self := self w; env := env w; incoming := incoming w;
                      rx := rx w; log := log w ++ [e] |}).

Definition attr {A} (f : attrs -> A) : M A := fun w => (Ok (f (self w)), w).

Definition ask {A} (f : host -> A) : M A := fun w => (Ok (f (env w)), w).

Definition set_self (a : attrs) : M unit :=
  fun w => (Ok tt, {| self := a; env := env w; incoming := incoming w;
                      rx := rx w; log := log w |}).

Definition set_incoming (s : script) : M unit :=
  fun w => (Ok tt, {| self := self w; env := env w; incoming := s;
                      rx := rx w; log := log w |}).

Definition set_rx (b : string) : M unit :=
  fun w => (Ok tt, {| self := self w; env := env w; incoming := incoming w;
                      rx := b; log := log w |}).

Definition get_incoming : M script := fun w => (Ok (incoming w), w).

Definition get_rx : M string := fun w => (Ok (rx w), w).

Definition with_repl (v : option bool) (a : attrs) : attrs :=
  {| repl := v; plotter := plotter a; fs := fs a; serial := serial a;
     timer_active := timer_active a |}.

Definition with_plotter (v : option bool) (a : attrs) : attrs :=
  {| repl := repl a; plotter := v; fs := fs a; serial := serial a;
     timer_active := timer_active a |}.

Definition with_fs (v : option string) (a : attrs) : attrs :=
  {| repl := repl a; plotter := plotter a; fs := v; serial := serial a;
     timer_active := timer_active a |}.

Definition with_serial (v : serial_attr) (a : attrs) : attrs :=
  {| repl := repl a; plotter := plotter a; fs := fs a; serial := v;
     timer_active := timer_active a |}.

Definition with_timer (v : bool) (a : attrs) : attrs :=
  {| repl := repl a; plotter := plotter a; fs := fs a; serial := serial a;
     timer_active := v |}.

(** [self.x = v]. *)
Definition assign (f : attrs -> attrs) : M unit :=
  fun w => set_self (f (self w)) w.

(** Truth value of [self.repl] and [self.plotter]. *)
Definition truthy (v : option bool) : bool :=
  match v with
  | Some true => true
  | _ => false
  end.

(** Truth value of a port path or [None]. *)
Definition truthy_str (v : option string) : bool :=
  match v with
  | Some s => negb (String.eqb s "")
  | None => false
  end.

End World.

Import World.

Notation "x <- m ;; k" := (bind m (fun x => k))
  (at level 61, m at next level, right associativity).
Notation "m ;; k" := (bind m (fun _ => k))
  (at level 61, right associativity).

(** ** Serial session and reboot handshake ([StuduinoBitMode]) *)

Module Session.

(** The value [read_until] hands back: it ends with [break] and has no
    [return] statement. *)
Inductive pyval : Type :=
| PyNone
| PyBytes (b : string).

(** Names bound at module level in studuinobit.py: its imports, [logger]
    and its two classes. *)
Definition studuinobit_globals : list string :=
  [ "logging"; "os"; "time"; "MicroPythonMode"; "StuduinoBitFileManager";
    "STUDUINOBIT_APIS"; "SHARED_APIS"; "CHARTS"; "QIODevice"; "QThread";
    "QTimer"; "QDialog"; "QGridLayout"; "QPushButton"; "QHBoxLayout";
    "QGroupBox"; "QLabel"; "QMessageBox"; "sbfs"; "HOME_DIRECTORY";
    "WORKSPACE_NAME"; "save_and_encode"; "Serial"; "QSerialPort"; "logger";
    "StuduinoBitMode"; "RegisterWindow" ].

(** Names bound at module level in dialogs.py. *)
Definition dialogs_globals : list string :=
  [ "os"; "sys"; "logging"; "csv"; "shutil"; "re"; "QtCore"; "QSize";
    "QProcess"; "QTimer"; "Qt"; "QIODevice"; "QSerialPort"; "QHBoxLayout";
    "QVBoxLayout"; "QGridLayout"; "QListWidget"; "QLabel";
    "QListWidgetItem"; "QDialog"; "QDialogButtonBox"; "QPlainTextEdit";
    "QTabWidget"; "QWidget"; "QCheckBox"; "QLineEdit"; "QPushButton";
    "QFileDialog"; "QGroupBox"; "QComboBox"; "QMessageBox"; "QTextCursor";
    "load_icon"; "Process"; "MODULE_DIR"; "sbfs"; "logger"; "ModeItem";
    "ModeSelector"; "LogWidget"; "EnvironmentVariablesWidget";
    "MicrobitSettingsWidget"; "PackagesWidget"; "SBFirmwareFlasherWidget";
    "ESP32PackagesWidget"; "AdminDialog"; "FindReplaceDialog";
    "PackageDialog" ].

(** Evaluating a name that is not a local of the function: found among
    the module's globals, or [NameError]. *)
Definition load_global (globals : list string) (name : string) : M unit :=
  if existsb (String.eqb name) globals then ret tt
  else raise (NameError name).

(** [self.serial.setPortName(port)]: PyQt takes [None] for the null
    [QString], which leaves the port without a name. *)
Definition setPortName (port : option string) : M unit :=
  emit (EvSetPortName (match port with Some p => p | None => "" end)).

(** ["{}".format(port)]. *)
Definition format_port (port : option string) : string :=
  match port with
  | Some p => p
  | None => "None"
  end.

(** [self.serial.open(QIODevice.ReadWrite)]: a port without a name does
    not open; [first] tells the first open of the port from the one
    after the pyserial detour. *)
Definition qserial_open (port : option string) (first : bool) : M bool :=
  ok <- ask (fun h =>
               match port with
               | Some _ => if first then port_opens h else port_reopens h
               | None => false
               end) ;;
  emit (EvOpen ok) ;;
  assign (with_serial (QPort ok)) ;;
  ret ok.

(** [self.serial.close()] on a [QSerialPort]. *)
Definition qserial_close : M unit :=
  emit EvClose ;; assign (with_serial (QPort false)).

Definition setDataTerminalReady : M unit := emit EvSetDTR.

Definition isDataTerminalReady : M bool :=
  ok <- ask dtr_effective ;; emit (EvIsDTR ok) ;; ret ok.

(** [serial.Serial(port)] of pyserial, [pyser.dtr = True], [pyser.close()]. *)
Definition pyserial_set_dtr (port : string) : M unit :=
  ok <- ask pyserial_opens ;;
  if ok then emit (EvPyserialOpen port) ;; emit EvPyserialDTR ;; emit EvPyserialClose
  else raise (IOError ("could not open port " ++ port)).

(** [open_serial_link], the same text in studuinobit.py (lines 173-194)
    and in dialogs.py (lines 506-527); [globals] is the namespace of the
    module it stands in. *)
Definition open_serial_link (globals : list string) (port : option string) : M unit :=
  assign (with_serial (QPort false)) ;;
  setPortName port ;;
  opened <- qserial_open port true ;;
  if opened then
    setDataTerminalReady ;;
    ready <- isDataTerminalReady ;;
    (if negb ready then
       qserial_close ;;
       load_global globals "serial" ;;
       pyserial_set_dtr (format_port port) ;;
       _ <- qserial_open port false ;;
       ret tt
     else ret tt) ;;
    emit (EvSetBaudRate 115200)
  else
    raise (IOError ("Cannot connect to device on port " ++ format_port port)).

(** [close_serial_link]. *)
Definition close_serial_link : M unit :=
  s <- attr serial ;;
  match s with
  | Unbound => raise (AttributeError "serial")
  | NoneValue => ret tt
  | QPort _ => emit EvClose ;; assign (with_serial NoneValue)
  end.

(** [serial.write(data)]; the callers pass [self.serial] as [serial]. *)
Definition write (data : string) : M unit :=
  s <- attr serial ;;
  match s with
  | QPort _ => emit (EvWrite data)
  | _ => raise (AttributeError "write")
  end.

(** [self.serial.waitForReadyRead(timeout)]. *)
Definition waitForReadyRead (timeout : Z) : M bool :=
  s <- attr serial ;;
  match s with
  | QPort true =>
      inc <- get_incoming ;;
      match inc with
      | Some data :: rest =>
          buf <- get_rx ;;
          set_rx (buf ++ data) ;; set_incoming rest ;;
          emit (EvWait timeout true) ;; ret true
      | None :: rest =>
          set_incoming rest ;; emit (EvWait timeout false) ;; ret false
      | [] => emit (EvWait timeout false) ;; ret false
      end
  | QPort false => emit (EvWait timeout false) ;; ret false
  | _ => raise (AttributeError "waitForReadyRead")
  end.

(** [bytes(self.serial.readAll())]. *)
Definition readAll : M string :=
  buf <- get_rx ;; set_rx "" ;; emit (EvReadAll buf) ;; ret buf.

(** The [while True] loop of [read_until]; [buff] is the local
    [bytearray]. Every turn either ends the loop or takes one entry of
    the device script, so [fuel] above its length is never used up. *)
Fixpoint read_until_loop (fuel : nat) (token : string) (timeout : Z)
    (buff : string) : M pyval :=
  match fuel with
  | O => raise (Exception "out of fuel")
  | S fuel' =>
      ready <- waitForReadyRead timeout ;;
      if negb ready then
        raise (TimeoutError "waitForReadyRead method timeout")
      else
        data <- readAll ;;
        let buff := buff ++ data in
        if bytes_in token buff then ret PyNone
        else read_until_loop fuel' token timeout buff
  end.

(** [read_until(token, timeout)]. *)
Definition read_until (token : string) (timeout : Z) : M pyval :=
  inc <- get_incoming ;;
  read_until_loop (S (List.length inc)) token timeout "".

(** The default of the [timeout] parameter. *)
Definition default_timeout : Z := 5000.

Definition prompt : string := ">>> ".

Definition ready_marker : string := "Execute last selected script.".

Definition ctrl_A : string := String "001"%char EmptyString.
Definition ctrl_C : string := String "003"%char EmptyString.
Definition ctrl_D : string := String "004"%char EmptyString.

(** [reboot]. *)
Definition reboot : M unit :=
  write ctrl_C ;;
  _ <- read_until prompt default_timeout ;;
  write ctrl_A ;;
  write ("import machine" ++ CRLF) ;;
  emit EvSleep ;;
  write ("machine.reset()" ++ CRLF) ;;
  emit EvSleep ;;
  write ctrl_D ;;
  _ <- read_until ready_marker default_timeout ;;
  ret tt.

(** [reboot_and_prompt]. *)
Definition reboot_and_prompt : M unit :=
  reboot ;;
  write ctrl_C ;;
  _ <- read_until prompt default_timeout ;;
  ret tt.

End Session.

(** ** The mode: flash sequence and arbitration of the serial port *)

Module Mode.

Import Locator Session.

(** [StuduinoBitMode.message] and [.information]; [_] is taken as the
    identity. *)
Definition message : string := "Could not find an attached device.".

Definition information : string :=
  "Please make sure the device is plugged into this computer." ++ LF ++ LF ++
  "It must have a version of MicroPython (or CircuitPython) flashed onto it before the REPL will work." ++ LF ++ LF ++
  "Finally, press the device's reset button and wait a few seconds before trying again.".

Definition plotter_information : string :=
  "Please make sure the device is plugged into this computer." ++ LF ++ LF ++
  "It must have a version of MicroPython (or CircuitPython) flashed onto it before the Plotter will work." ++ LF ++ LF ++
  "Finally, press the device's reset button and wait a few seconds before trying again.".

Definition reset_information : string :=
  "Click on the device's reset button, wait a few seconds and then try again.".

Definition show_message (title info : string) : M unit :=
  emit (EvShowMessage title info).

Definition critical (title text : string) : M unit :=
  emit (EvCritical title text).

(** [self.find_device()] of a [StuduinoBitMode]. *)
Definition self_find_device : M (option string * option string) :=
  os <- ask os_name ;;
  ports <- ask available_ports ;;
  lift (Locator.find_device os valid_boards ports).

(** [sbfs.put(local, remote, serial)]. *)
Definition sbfs_put_call (local remote : string) : M unit :=
  f <- ask sbfs_put ;;
  inc <- get_incoming ;;
  emit (EvPut local remote) ;;
  set_incoming (snd (f local remote inc)) ;;
  lift (fst (f local remote inc)).

(** [sbfs.execute(commands, serial)]. *)
Definition sbfs_execute_call (commands : list string) : M unit :=
  f <- ask sbfs_execute ;;
  inc <- get_incoming ;;
  emit (EvExecute commands) ;;
  set_incoming (snd (f commands inc)) ;;
  lift (fst (f commands inc)).

(** The local [save] of [toggle_flash]: [None] stands for
    [(None, None)]. *)
Definition save : M (option (string * string)) :=
  choice <- ask dialog_choice ;;
  emit (EvDialog choice) ;;
  match choice with
  | None => ret None
  | Some reg_num =>
      tab <- ask current_tab ;;
      os <- ask os_name ;;
      home <- ask HOME_DIRECTORY ;;
      ws <- ask WORKSPACE_NAME ;;
      let usr_file :=
        os_path_join os home [ws; "studuinobit"; "usr" ++ reg_num ++ ".py"] in
      match tab with
      | None => raise (AttributeError "'NoneType' object has no attribute 'text'")
      | Some (text, newline) =>
          f <- ask save_and_encode ;;
          emit (EvSave text usr_file newline) ;;
          lift (f text usr_file newline) ;;
          ret (Some (reg_num, usr_file))
      end
  end.

(** The local [upload] of [toggle_flash]. *)
Definition upload (usr_file : string) : M unit :=
  os <- ask os_name ;;
  let filename := os_path_basename os usr_file in
  sbfs_put_call usr_file ("usr/" ++ filename).

(** The command list [set_start_index] of [restart]. *)
Definition set_start_index (reg_num : string) : list string :=
  [ "import machine";
    "machine.nvs_setint(" ++ dquote ++ "lastSelected" ++ dquote ++ ", "
      ++ reg_num ++ ")" ].

(** The local [restart] of [toggle_flash]. *)
Definition restart (reg_num : string) : M unit :=
  sbfs_execute_call (set_start_index reg_num) ;;
  reboot.

(** The [try] blocks of [toggle_flash], in the order of the text. Each
    answers whether the method goes on ([true], or [Some] of what the
    block produced) or has returned. *)

(** Lines 270-275: find the device and open the serial port. *)
Definition flash_open : M bool :=
  try_except
    (found <- self_find_device ;;
     open_serial_link studuinobit_globals (fst found) ;;
     ret true)
    (fun _ => show_message message information ;; ret false).

(** Lines 280-289: select a slot and save the buffer. *)
Definition flash_save : M (option (string * string)) :=
  try_except
    (r <- save ;;
     match r with
     | None => close_serial_link ;; ret None
     | Some x => ret (Some x)
     end)
    (fun _ =>
       critical "File Save Error." "Failed to save the file." ;;
       close_serial_link ;; ret None).

(** Lines 292-299: reboot and wait for the prompt. *)
Definition flash_reboot : M bool :=
  try_except
    (reboot_and_prompt ;; ret true)
    (fun _ =>
       critical "Reboot Error" "Please connect the USB cable again." ;;
       close_serial_link ;; ret false).

(** Lines 302-311: send the saved file. *)
Definition flash_upload (usr_file : string) : M bool :=
  try_except
    (upload usr_file ;; ret true)
    (fun _ =>
       critical "Uploade Error" "Please connect the USB cable again." ;;
       close_serial_link ;; ret false).

(** Lines 314-327: record the slot and reboot. *)
Definition flash_restart (reg_num : string) : M bool :=
  try_except
    (restart reg_num ;; ret true)
    (fun _ =>
       critical "Restart Error"
         ("Since the transfer is completed, it will work" ++ LF ++
          " if you reconnect the USB cable.") ;;
       close_serial_link ;; ret false).

(** [toggle_flash]. *)
Definition toggle_flash : M unit :=
  opened <- flash_open ;;
  if negb opened then ret tt else
  saved <- flash_save ;;
  match saved with
  | None => ret tt
  | Some (reg_num, usr_file) =>
      rebooted <- flash_reboot ;;
      if negb rebooted then ret tt else
      uploaded <- flash_upload usr_file ;;
      if negb uploaded then ret tt else
      restarted <- flash_restart reg_num ;;
      if negb restarted then ret tt else
      emit (EvStatus "Transfer success") ;;
      close_serial_link
  end.

(** [set_buttons], given its keyword arguments in order. *)
Definition set_buttons (kwargs : list (string * bool)) : M unit :=
  emit (EvSetButtons kwargs).

(** [self.timer.start(1000)] and [self.timer.stop()] with their
    [isActive()] guards. *)
Definition timer_start_if_idle : M unit :=
  active <- attr timer_active ;;
  if negb active then emit (EvTimerStart 1000) ;; assign (with_timer true)
  else ret tt.

Definition timer_stop_if_active : M unit :=
  active <- attr timer_active ;;
  if active then emit EvTimerStop ;; assign (with_timer false)
  else ret tt.

(** [MicroPythonMode.remove_repl]. *)
Definition remove_repl : M unit :=
  emit EvRemoveRepl ;; assign (with_repl (Some false)).

(** [StuduinoBitMode.add_repl]. *)
Definition add_repl : M unit :=
  found <- self_find_device ;;
  if truthy_str (fst found) then
    let device_port := match fst found with Some p => p | None => "" end in
    try_except
      (f <- ask view_add_repl ;;
       emit (EvAddRepl device_port) ;;
       lift (f device_port) ;;
       assign (with_repl (Some true)))
      (fun ex =>
         if is_IOError ex then
           assign (with_repl (Some false)) ;;
           show_message (exn_str ex) reset_information
         else ret tt)
  else show_message message information.

(** [MicroPythonMode.toggle_repl], reached through [super()]; [add_repl]
    is the override of [StuduinoBitMode]. *)
Definition base_toggle_repl : M unit :=
  r <- attr repl ;;
  if truthy r then remove_repl else add_repl.

(** [StuduinoBitMode.toggle_repl]. *)
Definition toggle_repl : M unit :=
  f <- attr fs ;;
  match f with
  | None =>
      r <- attr repl ;;
      if truthy r then
        base_toggle_repl ;;
        r <- attr repl ;;
        p <- attr plotter ;;
        if negb (truthy r || truthy p) then
          set_buttons [("files_sb", true); ("flash_sb", true)] ;;
          timer_stop_if_active
        else ret tt
      else
        base_toggle_repl ;;
        r <- attr repl ;;
        if truthy r then
          set_buttons [("files_sb", false); ("flash_sb", false)] ;;
          timer_start_if_idle
        else ret tt
  | Some _ =>
      show_message "REPL and file system cannot work at the same time."
        ("The REPL and file system both use the same USB " ++
         "serial connection. Only one can be active " ++
         "at any time. Toggle the file system off and " ++
         "try again.")
  end.

(** [BaseMode.remove_plotter]: the captured data is written to a CSV
    file first, which may fail. *)
Definition remove_plotter : M unit :=
  saved <- ask plotter_data_saved ;;
  lift saved ;;
  emit EvRemovePlotter ;;
  assign (with_plotter None).

(** [MicroPythonMode.add_plotter]. *)
Definition add_plotter : M unit :=
  found <- self_find_device ;;
  if truthy_str (fst found) then
    let device_port := match fst found with Some p => p | None => "" end in
    try_except
      (f <- ask view_add_plotter ;;
       emit (EvAddPlotter device_port) ;;
       lift (f device_port) ;;
       assign (with_plotter (Some true)))
      (fun ex =>
         if is_IOError ex then
           assign (with_plotter (Some false)) ;;
           show_message (exn_str ex) reset_information
         else ret tt)
  else show_message message plotter_information.

(** [MicroPythonMode.toggle_plotter]. *)
Definition base_toggle_plotter : M unit :=
  p <- attr plotter ;;
  if truthy p then remove_plotter else add_plotter.

(** [StuduinoBitMode.toggle_plotter]. *)
Definition toggle_plotter : M unit :=
  f <- attr fs ;;
  match f with
  | None =>
      base_toggle_plotter ;;
      r <- attr repl ;;
      p <- attr plotter ;;
      if truthy p then
        set_buttons [("files_sb", false); ("flash_sb", false)] ;;
        timer_start_if_idle
      else if negb (truthy r || truthy p) then
        set_buttons [("files_sb", true); ("flash_sb", true)] ;;
        timer_stop_if_active
      else ret tt
  | Some _ =>
      show_message "The plotter and file system cannot work at the same time."
        ("The plotter and file system both use the same " ++
         "USB serial connection. Only one can be active " ++
         "at any time. Toggle the file system off and " ++
         "try again.")
  end.

(** [add_fs]. *)
Definition add_fs : M unit :=
  found <- self_find_device ;;
  if negb (truthy_str (fst found)) then show_message message information
  else
    let device_port := match fst found with Some p => p | None => "" end in
    emit (EvAddFilesystem device_port) ;;
    assign (with_fs (Some device_port)).

(** [remove_fs]. *)
Definition remove_fs : M unit :=
  emit EvRemoveFilesystem ;; assign (with_fs None).

(** [toggle_files]. *)
Definition toggle_files : M unit :=
  r <- attr repl ;;
  if truthy r then
    show_message "File system cannot work at the same time as the REPL or plotter."
      ("The file system and the REPL and plotter " ++
       "use the same USB serial connection. Toggle the " ++
       "REPL and plotter off and try again.")
  else
    f <- attr fs ;;
    match f with
    | None =>
        add_fs ;;
        f <- attr fs ;;
        match f with
        | Some _ =>
            set_buttons [("run", false); ("repl", false); ("plotter", false);
                         ("flash_sb", false)]
        | None => ret tt
        end
    | Some _ =>
        remove_fs ;;
        set_buttons [("run", true); ("repl", true); ("plotter", true);
                     ("flash_sb", true)]
    end.

End Mode.

(** ** File manager ([FileManager], [StuduinoBitFileManager]) *)

Module Files.

(** The signals of [FileManager] with the value each emission carries. *)
Inductive signal : Type :=
| on_list_files (files : list string)
| on_get_file (name : string)
| on_put_file (name : string)
| on_delete_file (name : string)
| on_list_fail
| on_get_fail (name : string)
| on_put_fail (name : string)
| on_delete_fail (name : string).

(** [pyserial] and [mu.contrib.microfs], which are not part of the
    modelled files, as the outcomes of the calls made to them, and
    [os.name] of the host, which selects [os.path]. The second argument
    of [microfs_put] is [target]. *)
Record device : Type := {
  host_os : string;
  Serial : string -> result unit;
  microfs_ls : result (list string);
  microfs_tree : result (list string);
  microfs_get : string -> string -> result unit;
  microfs_put : string -> option string -> result unit;
  microfs_rm : string -> result unit
}.

(** The file manager object: its port, and whether [self.serial] has been
    assigned. *)
Record manager : Type := {
  port : string;
  serial_bound : bool
}.

(** Evaluating [self.serial]. *)
Definition self_serial (fm : manager) : result unit :=
  if serial_bound fm then Ok tt else Raise (AttributeError "serial").

Definition and_then {A B} (r : result A) (k : A -> result B) : result B :=
  match r with
  | Ok a => k a
  | Raise e => Raise e
  end.

(** [try: value = body; success.emit(...) except Exception: fail.emit(...)]:
    the signals emitted. *)
Definition try_emit {A} (body : result A) (success : A -> signal)
    (failure : signal) : list signal :=
  match body with
  | Ok a => [success a]
  | Raise _ => [failure]
  end.

(** [FileManager.ls]. *)
Definition ls (d : device) (fm : manager) : list signal :=
  try_emit (and_then (self_serial fm) (fun _ => microfs_ls d))
    on_list_files on_list_fail.

(** [StuduinoBitFileManager.tree]. *)
Definition tree (d : device) (fm : manager) : list signal :=
  try_emit (and_then (self_serial fm) (fun _ => microfs_tree d))
    on_list_files on_list_fail.

(** [FileManager.on_start]: the manager afterwards, and the signals. *)
Definition on_start (d : device) (fm : manager) : manager * list signal :=
  match Serial d (port fm) with
  | Ok _ =>
      let fm' := {| port := port fm; serial_bound := true |} in
      (fm', ls d fm')
  | Raise _ => (fm, [on_list_fail])
  end.

(** [StuduinoBitFileManager.on_start]. *)
Definition sb_on_start (d : device) (fm : manager) : manager * list signal :=
  match Serial d (port fm) with
  | Ok _ =>
      let fm' := {| port := port fm; serial_bound := true |} in
      (fm', tree d fm')
  | Raise _ => (fm, [on_list_fail])
  end.

(** [FileManager.get]. *)
Definition get (d : device) (fm : manager)
    (device_filename local_filename : string) : list signal :=
  try_emit
    (and_then (self_serial fm)
       (fun _ => microfs_get d device_filename local_filename))
    (fun _ => on_get_file device_filename)
    (on_get_fail device_filename).

(** [FileManager.put]. *)
Definition put (d : device) (fm : manager) (local_filename : string)
    : list signal :=
  try_emit
    (and_then (self_serial fm) (fun _ => microfs_put d local_filename None))
    (fun _ => on_put_file (os_path_basename (host_os d) local_filename))
    (on_put_fail local_filename).

(** [StuduinoBitFileManager.put]. *)
Definition sb_put (d : device) (fm : manager) (local_filename dist : string)
    : list signal :=
  let filename := os_path_basename (host_os d) local_filename in
  try_emit
    (and_then (self_serial fm)
       (fun _ => microfs_put d local_filename (Some (dist ++ "/" ++ filename))))
    (fun _ => on_put_file filename)
    (on_put_fail local_filename).

(** [FileManager.delete]. *)
Definition delete (d : device) (fm : manager) (device_filename : string)
    : list signal :=
  try_emit
    (and_then (self_serial fm) (fun _ => microfs_rm d device_filename))
    (fun _ => on_delete_file device_filename)
    (on_delete_fail device_filename).

(** One call of a file-manager operation. *)
Inductive call : Type :=
| CallOnStart
| CallLs
| CallGet (device_filename local_filename : string)
| CallPut (local_filename : string)
| CallDelete (device_filename : string)
| CallSbOnStart
| CallTree
| CallSbPut (local_filename dist : string).

Definition emitted (d : device) (fm : manager) (c : call) : list signal :=
  match c with
  | CallOnStart => snd (on_start d fm)
  | CallLs => ls d fm
  | CallGet dev loc => get d fm dev loc
  | CallPut loc => put d fm loc
  | CallDelete dev => delete d fm dev
  | CallSbOnStart => snd (sb_on_start d fm)
  | CallTree => tree d fm
  | CallSbPut loc dist => sb_put d fm loc dist
  end.

Definition is_success (s : signal) : bool :=
  match s with
  | on_list_files _ | on_get_file _ | on_put_file _ | on_delete_file _ => true
  | _ => false
  end.

Definition is_failure (s : signal) : bool :=
  match s with
  | on_list_fail | on_get_fail _ | on_put_fail _ | on_delete_fail _ => true
  | _ => false
  end.

(** A device that holds the files [names]: [microfs.get] and [microfs.rm]
    fail for any other name. *)
Definition device_with (names : list string) : device :=
  {| host_os := "posix";
     Serial := fun _ => Ok tt;
     microfs_ls := Ok names;
     microfs_tree := Ok names;
     microfs_get := fun dev _ =>
       if existsb (String.eqb dev) names then Ok tt
       else Raise (IOError "No such file.");
     microfs_put := fun _ _ => Ok tt;
     microfs_rm := fun dev =>
       if existsb (String.eqb dev) names then Ok tt
       else Raise (IOError "No such file.") |}.

(** The device [d] seen from a host where [os.name] is [os]. *)
Definition on_host (os : string) (d : device) : device :=
  {| host_os := os;
     Serial := Serial d;
     microfs_ls := microfs_ls d;
     microfs_tree := microfs_tree d;
     microfs_get := microfs_get d;
     microfs_put := microfs_put d;
     microfs_rm := microfs_rm d |}.

(** A device whose port cannot be opened and whose operations all fail. *)
Definition unplugged : device :=
  {| host_os := "posix";
     Serial := fun _ => Raise (IOError "could not open port");
     microfs_ls := Raise (IOError "no device");
     microfs_tree := Raise (IOError "no device");
     microfs_get := fun _ _ => Raise (IOError "no device");
     microfs_put := fun _ _ => Raise (IOError "no device");
     microfs_rm := fun _ => Raise (IOError "no device") |}.

End Files.

(** ** Library installation ([ESP32PackagesWidget.install]) *)

Module Install.

Import Locator Session Mode.

(** [text.split(sep)] for a one-character separator; [cur] is the piece
    being read. *)
Fixpoint split_on (sep : ascii) (cur : string) (text : string) : list string :=
  match text with
  | EmptyString => [cur]
  | String c rest =>
      if Ascii.eqb c sep then cur :: split_on sep EmptyString rest
      else split_on sep (cur ++ String c EmptyString) rest
  end.

(** The value an output is recorded with (lines 713-716); [str_out] is
    [str(out)]. *)
Definition install_entry (out str_out : string) : string :=
  if bytes_in "Error" out then "NG" ++ LF ++ str_out ++ LF
  else "OK" ++ LF ++ str_out ++ LF.

(** [result.update({lib: value})] on a [dict], which keeps the place of
    a key it already has. *)
Fixpoint dict_update (key value : string) (d : list (string * string))
    : list (string * string) :=
  match d with
  | [] => [(key, value)]
  | (k, v) :: rest =>
      if String.eqb k key then (k, value) :: rest
      else (k, v) :: dict_update key value rest
  end.

(** The loop over [result.keys()] that builds [information]. *)
Definition information_of (d : list (string * string)) : string :=
  fold_left (fun acc kv => acc ++ "[" ++ fst kv ++ "]" ++ LF ++ snd kv ++ LF)
    d "".

(** [sbfs.send_cmd(command, self.serial)]. *)
Definition send_cmd (commands : list string) : M (string * string) :=
  f <- ask sbfs_send_cmd ;;
  inc <- get_incoming ;;
  emit (EvSendCmd commands) ;;
  set_incoming (snd (f commands inc)) ;;
  lift (fst (f commands inc)).

(** The [for lib in libs] loop of [install]; [None] when the method has
    returned from inside the loop. [py_str] is [str] on [bytes]. *)
Fixpoint install_loop (py_str : string -> string) (libs : list string)
    (result : list (string * string)) : M (option (list (string * string))) :=
  match libs with
  | [] => ret (Some result)
  | lib :: rest =>
      let pip_command := "upip.install('" ++ lib ++ "')" in
      let command := ["import upip"; pip_command] in
      r <- try_except_IOError
             (o <- send_cmd command ;; ret (Some o))
             (fun e =>
                critical "Wi-Fi Connect Error" (exn_str e) ;;
                close_serial_link ;;
                emit (EvSetButtons [("button_conn", true)]) ;;
                ret None) ;;
      match r with
      | None => ret None
      | Some (out, _) =>
          install_loop py_str rest
            (dict_update lib (install_entry out (py_str out)) result)
      end
  end.

(** [install]; [text] is [self.text_area.toPlainText()], [self.target]
    is the Studuino:bit mode, and the serial link of the widget is kept
    in the [serial] attribute of the world. *)
Definition install (py_str : string -> string) (text : string) : M unit :=
  let libs := filter (fun l => negb (String.eqb l ""))
                (split_on "010"%char EmptyString text) in
  opened <- try_except
              (found <- self_find_device ;;
               open_serial_link dialogs_globals (fst found) ;;
               ret true)
              (fun e =>
                 critical "Open Serial Error" (exn_str e) ;;
                 emit (EvSetButtons [("button_conn", true)]) ;;
                 ret false) ;;
  if negb opened then ret tt else
  r <- install_loop py_str libs [] ;;
  match r with
  | None => ret tt
  | Some result =>
      show_message "UPIP Result" (information_of result) ;;
      close_serial_link
  end.

(** An entry reads as failed when it starts with [NG], as passed when it
    starts with [OK]. *)
Definition flagged_failed (entry : string) : bool := startswith entry ("NG" ++ LF).


End Install.

(** ** Vocabulary of the properties *)

Module Props.

Import Locator Session Mode.

(** [token] is a contiguous slice of [buff]. *)
Definition Substring (token buff : string) : Prop :=
  exists pre post, buff = pre ++ token ++ post.

(** The local path holds a separator of [os.path]: a slash, or on a
    host where [os.name] is [nt] a slash or a backslash. *)
Definition has_directory (os local : string) : Prop :=
  Substring "/" local \/ (os = "nt" /\ Substring "\" local).

(** Some character of [s] is a separator of [ntpath]. *)
Fixpoint has_sep (s : string) : bool :=
  match s with
  | EmptyString => false
  | String c rest => is_sep c || has_sep rest
  end.

(** [result_path] of [ntpath.join] as a relative part is added to it. *)
Definition nt_glue (x : string) : string :=
  if nonempty x && negb (ends_with_sep x) then x ++ "\" else x.

(** The bytes held after the chunks [chunks] were appended to [buff]. *)
Definition accumulated (buff : string) (chunks : list string) : string :=
  buff ++ fold_right String.append "" chunks.

(** The calls [read_until] makes while the chunks [chunks] arrive, the
    receive buffer holding [pending] at the start. *)
Fixpoint read_events (timeout : Z) (pending : string) (chunks : list string)
    : list event :=
  match chunks with
  | [] => []
  | d :: rest =>
      EvWait timeout true :: EvReadAll (pending ++ d)
        :: read_events timeout "" rest
  end.

(** [token] is in the buffer after the last of [chunks] has been
    appended to [buff], and not before. *)
Fixpoint completes (token buff : string) (chunks : list string) : bool :=
  match chunks with
  | [] => false
  | d :: rest =>
      match rest with
      | [] => bytes_in token (buff ++ d)
      | _ => negb (bytes_in token (buff ++ d)) && completes token (buff ++ d) rest
      end
  end.

(** The world [w] after events [tr], with its script and receive buffer
    replaced. *)
Definition advanced (w : world) (inc : script) (pending : string)
    (tr : list event) : world :=
  {| self := self w; env := env w; incoming := inc; rx := pending;
     log := log w ++ tr |}.

(** The world [w] after its session was closed, with [inc] still to
    come from the device, [pending] in the receive buffer and the calls
    [tr] made. *)
Definition closed_after (w : world) (inc : script) (pending : string)
    (tr : list event) : world :=
  {| self := with_serial NoneValue (self w); env := env w; incoming := inc;
     rx := pending; log := log w ++ tr |}.

(** The world [w] with the port in the state [s] after the calls [tr]. *)
Definition port_after (w : world) (s : serial_attr) (tr : list event) : world :=
  {| self := with_serial s (self w); env := env w; incoming := incoming w;
     rx := rx w; log := log w ++ tr |}.

(** The world [w] with its session open, [inc] still to come from the
    device, [pending] in the receive buffer and the calls [tr] made. *)
Definition session (w : world) (inc : script) (pending : string)
    (tr : list event) : world :=
  {| self := with_serial (QPort true) (self w); env := env w; incoming := inc;
     rx := pending; log := log w ++ tr |}.

(** [toggle_flash] from its second [try] block on, from its third, from
    its fourth and from its last. *)
Definition after_upload (reg_num : string) : M unit :=
  restarted <- flash_restart reg_num ;;
  if negb restarted then ret tt else
  emit (EvStatus "Transfer success") ;;
  close_serial_link.

Definition after_reboot (reg_num usr_file : string) : M unit :=
  uploaded <- flash_upload usr_file ;;
  if negb uploaded then ret tt else after_upload reg_num.

Definition after_save (reg_num usr_file : string) : M unit :=
  rebooted <- flash_reboot ;;
  if negb rebooted then ret tt else after_reboot reg_num usr_file.

Definition after_open : M unit :=
  saved <- flash_save ;;
  match saved with
  | None => ret tt
  | Some (reg_num, usr_file) => after_save reg_num usr_file
  end.

(** The calls of [open_serial_link] on a port that opens and takes DTR. *)
Definition open_events (port : string) : list event :=
  [EvSetPortName port; EvOpen true; EvSetDTR; EvIsDTR true;
   EvSetBaudRate 115200].

(** What [toggle_flash] shows when a step fails: one message box for
    each [try] block. *)
Definition not_found_report : event := EvShowMessage message information.

Definition save_report : event :=
  EvCritical "File Save Error." "Failed to save the file.".

Definition reboot_report : event :=
  EvCritical "Reboot Error" "Please connect the USB cable again.".

Definition upload_report : event :=
  EvCritical "Uploade Error" "Please connect the USB cable again.".

Definition restart_report : event :=
  EvCritical "Restart Error"
    ("Since the transfer is completed, it will work" ++ LF ++
     " if you reconnect the USB cable.").

(** The writes of [reboot] between its two reads. *)
Definition paste_reset : list event :=
  [ EvWrite ctrl_A; EvWrite ("import machine" ++ CRLF); EvSleep;
    EvWrite ("machine.reset()" ++ CRLF); EvSleep; EvWrite ctrl_D ].

(** The calls of one run of [reboot] during which the prompt arrives
    with the chunks [c1] and the ready marker with the chunks [c2]. *)
Definition handshake_events (c1 c2 : list string) : list event :=
  ([EvWrite ctrl_C] ++ read_events default_timeout "" c1 ++ paste_reset
   ++ read_events default_timeout "" c2)%list.

(** The calls of the handshake of [flash_reboot] when the prompt comes
    with the chunks [c1], the ready marker with [c2] and the prompt
    again with [c3]. *)
Definition prompt_events (c1 c2 c3 : list string) : list event :=
  (handshake_events c1 c2 ++ [EvWrite ctrl_C]
   ++ read_events default_timeout "" c3)%list.


(** Events of the handshake: writes, waits, reads and pauses. *)
Definition is_handshake (e : event) : bool :=
  match e with
  | EvWrite _ | EvWait _ _ | EvReadAll _ | EvSleep => true
  | _ => false
  end.

(** Events of opening the serial link. *)
Definition is_opening (e : event) : bool :=
  match e with
  | EvSetPortName _ | EvOpen _ | EvSetDTR | EvIsDTR _ | EvSetBaudRate _
  | EvClose | EvPyserialOpen _ | EvPyserialDTR | EvPyserialClose => true
  | _ => false
  end.

(** Where a run of [toggle_flash] stands. *)
Inductive phase : Type :=
| PStart
| POpen
| PSelect
| PPersist
| PHandshake
| PUpload
| PRecord
| PReboot
| PReported
| PClosed
| PNotOpened.

(** The order in which [toggle_flash] may call the outside world: open
    the link, select a slot, persist the buffer, run the handshake,
    upload, record the slot, reboot, report success; a failure is
    reported with the title of the step that failed, after which only
    the link is closed. A failure to open is reported and ends the run
    with no close. *)
Definition flash_step (p : phase) (e : event) : option phase :=
  match p, e with
  | PStart, EvShowMessage _ _ => Some PNotOpened
  | PStart, _ => if is_opening e then Some POpen else None
  | POpen, EvShowMessage _ _ => Some PNotOpened
  | POpen, EvDialog _ => Some PSelect
  | POpen, _ => if is_opening e then Some POpen else None
  | PSelect, EvSave _ _ _ => Some PPersist
  | PSelect, EvClose => Some PClosed
  | PSelect, EvCritical "File Save Error." _ => Some PReported
  | PPersist, EvCritical "File Save Error." _ => Some PReported
  | PPersist, _ => if is_handshake e then Some PHandshake else None
  | PHandshake, EvPut _ _ => Some PUpload
  | PHandshake, EvCritical "Reboot Error" _ => Some PReported
  | PHandshake, _ => if is_handshake e then Some PHandshake else None
  | PUpload, EvExecute _ => Some PRecord
  | PUpload, EvCritical "Uploade Error" _ => Some PReported
  | PRecord, EvCritical "Restart Error" _ => Some PReported
  | PRecord, _ => if is_handshake e then Some PReboot else None
  | PReboot, EvCritical "Restart Error" _ => Some PReported
  | PReboot, EvStatus "Transfer success" => Some PReported
  | PReboot, _ => if is_handshake e then Some PReboot else None
  | PReported, EvClose => Some PClosed
  | _, _ => None
  end.

Fixpoint flash_run (p : phase) (tr : list event) : option phase :=
  match tr with
  | [] => Some p
  | e :: rest =>
      match flash_step p e with
      | Some q => flash_run q rest
      | None => None
      end
  end.

(** The steps of the flash operation as the events that show them. *)
Inductive step : Type :=
| SSelect
| SPersist
| SOpenSession
| SHandshake
| SUpload
| SRecord.

Definition step_of (e : event) : option step :=
  match e with
  | EvDialog _ => Some SSelect
  | EvSave _ _ _ => Some SPersist
  | EvOpen _ => Some SOpenSession
  | EvWrite _ => Some SHandshake
  | EvPut _ _ => Some SUpload
  | EvExecute _ => Some SRecord
  | _ => None
  end.

Definition step_eqb (a b : step) : bool :=
  match a, b with
  | SSelect, SSelect | SPersist, SPersist | SOpenSession, SOpenSession
  | SHandshake, SHandshake | SUpload, SUpload | SRecord, SRecord => true
  | _, _ => false
  end.

(** Position of the first event of step [s] in [tr]. *)
Fixpoint first_at (s : step) (tr : list event) : option nat :=
  match tr with
  | [] => None
  | e :: rest =>
      match step_of e with
      | Some s' =>
          if step_eqb s s' then Some O else option_map S (first_at s rest)
      | None => option_map S (first_at s rest)
      end
  end.

(** Step [a] begins before step [b] in [tr]. *)
Definition begins_before (a b : step) (tr : list event) : Prop :=
  match first_at a tr, first_at b tr with
  | Some i, Some j => (i < j)%nat
  | _, _ => False
  end.

(** [w'] is [w] after the calls [tr]: the host is the same and the log
    has grown by [tr]. *)
Definition follows (w w' : world) (tr : list event) : Prop :=
  env w' = env w /\ log w' = (log w ++ tr)%list.

(** [m] only writes to, waits for and reads from the port. *)
Definition handshake_only {A} (m : M A) : Prop :=
  forall w, exists r inc pending tr,
    m w = (r, advanced w inc pending tr)
    /\ forallb is_handshake tr = true.

(** The staging file of slot [slot]. *)
Definition staging_file (h : host) (slot : string) : string :=
  os_path_join (os_name h) (HOME_DIRECTORY h)
    [WORKSPACE_NAME h; "studuinobit"; "usr" ++ slot ++ ".py"].

(** The calls of [save] for the slot [slot] and a tab that holds [text]. *)
Definition save_events (h : host) (slot text newline : string) : list event :=
  [EvDialog (Some slot); EvSave text (staging_file h slot) newline].

(** The name [upload] gives the staging file on the device. *)
Definition upload_target (h : host) (slot : string) : string :=
  "usr/" ++ os_path_basename (os_name h) (staging_file h slot).

(** The call of [upload] for the slot [slot]. *)
Definition put_event (h : host) (slot : string) : event :=
  EvPut (staging_file h slot) (upload_target h slot).

(** The last character of [s], as a string; empty for the empty string. *)
Definition last_char (s : string) : string :=
  slice_from (Nat.pred (String.length s)) s.

(** The events logged by [m] run in [w]. *)
Definition trace_of {A} (m : M A) (w : world) : list event :=
  skipn (List.length (log w)) (log (snd (m w))).

(** The Studuino:bit as the port scan shows it. *)
Definition studuino_port : port_info :=
  {| vendorIdentifier := 0x20A0; productIdentifier := 0x4269;
     portName := "ttyACM0"; serialNumber := "SB0001" |}.

(** A POSIX host with the board attached, where every call succeeds. *)
Definition good_host : host :=
  {| os_name := "posix";
     available_ports := [studuino_port];
     port_opens := true;
     port_reopens := true;
     dtr_effective := true;
     pyserial_opens := true;
     HOME_DIRECTORY := "/home/user";
     WORKSPACE_NAME := "mu_code";
     dialog_choice := Some "3";
     current_tab := Some ("print(1)", LF);
     save_and_encode := fun _ _ _ => Ok tt;
     sbfs_put := fun _ _ s => (Ok tt, s);
     sbfs_execute := fun _ s => (Ok tt, s);
     sbfs_send_cmd := fun _ s => (Ok ("ok", ""), s);
     view_add_repl := fun _ => Ok tt;
     view_add_plotter := fun _ => Ok tt;
     plotter_data_saved := Ok tt |}.

(** The same host on which [isDataTerminalReady()] answers [False]. *)
Definition dtr_quirk_host : host :=
  {| os_name := "nt";
     available_ports :=
       [ {| vendorIdentifier := 0x20A0; productIdentifier := 0x4269;
            portName := "COM3"; serialNumber := "SB0001" |} ];
     port_opens := true;
     port_reopens := true;
     dtr_effective := false;
     pyserial_opens := true;
     HOME_DIRECTORY := "C:/Users/user";
     WORKSPACE_NAME := "mu_code";
     dialog_choice := Some "3";
     current_tab := Some ("print(1)", LF);
     save_and_encode := fun _ _ _ => Ok tt;
     sbfs_put := fun _ _ s => (Ok tt, s);
     sbfs_execute := fun _ s => (Ok tt, s);
     sbfs_send_cmd := fun _ s => (Ok ("ok", ""), s);
     view_add_repl := fun _ => Ok tt;
     view_add_plotter := fun _ => Ok tt;
     plotter_data_saved := Ok tt |}.

(** The good host on which [sbfs.put] fails. *)
Definition put_breaks_host : host :=
  {| os_name := "posix";
     available_ports := [studuino_port];
     port_opens := true;
     port_reopens := true;
     dtr_effective := true;
     pyserial_opens := true;
     HOME_DIRECTORY := "/home/user";
     WORKSPACE_NAME := "mu_code";
     dialog_choice := Some "3";
     current_tab := Some ("print(1)", LF);
     save_and_encode := fun _ _ _ => Ok tt;
     sbfs_put := fun _ _ s => (Raise (IOError "Could not enter raw REPL."), s);
     sbfs_execute := fun _ s => (Ok tt, s);
     sbfs_send_cmd := fun _ s => (Ok ("ok", ""), s);
     view_add_repl := fun _ => Ok tt;
     view_add_plotter := fun _ => Ok tt;
     plotter_data_saved := Ok tt |}.

(** A host with no port at all. *)
Definition bare_host : host :=
  {| os_name := "posix";
     available_ports := [];
     port_opens := true;
     port_reopens := true;
     dtr_effective := true;
     pyserial_opens := true;
     HOME_DIRECTORY := "/home/user";
     WORKSPACE_NAME := "mu_code";
     dialog_choice := Some "3";
     current_tab := Some ("print(1)", LF);
     save_and_encode := fun _ _ _ => Ok tt;
     sbfs_put := fun _ _ s => (Ok tt, s);
     sbfs_execute := fun _ s => (Ok tt, s);
     sbfs_send_cmd := fun _ s => (Ok ("ok", ""), s);
     view_add_repl := fun _ => Ok tt;
     view_add_plotter := fun _ => Ok tt;
     plotter_data_saved := Ok tt |}.

Definition world_of (a : attrs) (h : host) (inc : script) : world :=
  {| self := a; env := h; incoming := inc; rx := ""; log := [] |}.

(** A mode in which the plotter runs: what [toggle_plotter] leaves when
    it starts the plotter from [idle]. *)
Definition plotting : attrs :=
  with_timer true (with_plotter (Some true) idle).

(** The three notifications that refuse to share the serial port. *)
Definition files_refused : event :=
  EvShowMessage
    "File system cannot work at the same time as the REPL or plotter."
    ("The file system and the REPL and plotter " ++
     "use the same USB serial connection. Toggle the " ++
     "REPL and plotter off and try again.").

Definition repl_refused : event :=
  EvShowMessage "REPL and file system cannot work at the same time."
    ("The REPL and file system both use the same USB " ++
     "serial connection. Only one can be active " ++
     "at any time. Toggle the file system off and " ++
     "try again.").

Definition plotter_refused : event :=
  EvShowMessage "The plotter and file system cannot work at the same time."
    ("The plotter and file system both use the same " ++
     "USB serial connection. Only one can be active " ++
     "at any time. Toggle the file system off and " ++
     "try again.").

(** [e] is one of the notifications that refuse to share the port. *)
Definition is_refusal (e : event) : bool :=
  match e with
  | EvShowMessage title _ =>
      String.eqb title "File system cannot work at the same time as the REPL or plotter."
      || String.eqb title "REPL and file system cannot work at the same time."
      || String.eqb title "The plotter and file system cannot work at the same time."
  | _ => false
  end.

(** A mode whose serial link is open. *)
Definition linked : attrs := with_serial (QPort true) idle.

(** A device that answers the whole flash sequence. *)
Definition flash_script : script :=
  [ Some prompt; Some ready_marker; Some prompt;
    Some prompt; Some ready_marker ].

End Props.

(** ** The rest of the mode: presence poll, data flood, run *)

Module Runner.

Import Locator Session Mode Install Props.

(** [StuduinoBitMode.is_connecting], the slot of the one-second timer.
    [self.timer.stop()] is called without asking [isActive()]. *)
Definition is_connecting : M unit :=
  found <- self_find_device ;;
  if truthy_str (fst found) then ret tt
  else
    emit EvTimerStop ;; assign (with_timer false) ;;
    r <- attr repl ;;
    (if truthy r then toggle_repl else ret tt) ;;
    p <- attr plotter ;;
    (if truthy p then toggle_plotter else ret tt) ;;
    show_message message information.

(** [BaseMode.on_data_flood]. *)
Definition base_on_data_flood : M unit :=
  emit EvRemovePlotter ;;
  assign (with_plotter None) ;;
  show_message "Data Flood Detected!"
    ("The plotter is flooded with data which will make Mu " ++
     "unresponsive and freeze. As a safeguard, the plotter has " ++
     "been stopped." ++ LF ++ LF ++
     "Flooding is when chunks of data of more than 1024 bytes are " ++
     "repeatedly sent to the plotter." ++ LF ++ LF ++
     "To fix this, make sure your code prints small tuples of " ++
     "data between calls to 'sleep' for a very short period of " ++
     "time.").

(** [MicroPythonMode.on_data_flood]. *)
Definition micropython_on_data_flood : M unit :=
  remove_repl ;; base_on_data_flood.

(** [StuduinoBitMode.on_data_flood]. *)
Definition on_data_flood : M unit :=
  set_buttons [("files_sb", true)] ;; micropython_on_data_flood.

(** The command list [command] of [initialize]. *)
Definition reset_slot_command : list string :=
  [ "import machine";
    "machine.nvs_setint(" ++ dquote ++ "lastSelected" ++ dquote ++ ", 99)" ].

(** [StuduinoBitMode.initialize]. The [RuntimeError]s it raises are kept
    as [Exception] with their message: the handlers of [run] look at the
    message only. *)
Definition initialize : M bool :=
  try_except
    (found <- self_find_device ;;
     open_serial_link studuinobit_globals (fst found))
    (fun _ => raise (Exception "Open Serial Error")) ;;
  try_except
    (reboot_and_prompt)
    (fun _ => close_serial_link ;; raise (Exception "Reboot Error")) ;;
  try_except_IOError
    (sbfs_execute_call reset_slot_command)
    (fun _ => close_serial_link ;; raise (Exception "Reset Error")) ;;
  close_serial_link ;;
  ret true.

(** [s.replace("\r\n", "\n")]. *)
Fixpoint replace_crlf (s : string) : string :=
  match s with
  | EmptyString => EmptyString
  | String c rest =>
      match rest with
      | String d rest' =>
          if Ascii.eqb c "013"%char && Ascii.eqb d "010"%char
          then String "010"%char (replace_crlf rest')
          else String c (replace_crlf rest)
      | EmptyString => String c EmptyString
      end
  end.

(** The lines [run] hands to the REPL:
    [tab.text().replace("\r\n", "\n").split("\n")]. *)
Definition script_lines (text : string) : list string :=
  split_on "010"%char EmptyString (replace_crlf text).

(** The handler of [run] for a failed [initialize] (lines 411-414): it
    evaluates [e.args[0]], which raises [IndexError] on an exception
    without arguments. *)
Definition report_initialize (e : exn) : M unit :=
  match args0 e with
  | None => raise no_args_error
  | Some arg =>
      if String.eqb arg "Open Serial Error"
      then show_message message information
      else show_message arg "Please connect the USB cable again."
  end.


(** The one-second poll runs exactly while the REPL or the plotter is
    shown. *)
Definition poll_matches (a : attrs) : Prop :=
  timer_active a = (truthy (repl a) || truthy (plotter a)).

(** The file system pane and the REPL are not shown together. *)
Definition exclusive (a : attrs) : Prop :=
  fs a <> None -> truthy (repl a) = false.

(** [m] leaves the host and every attribute but [serial] as they were. *)
Definition touches_serial_only {A} (m : M A) : Prop :=
  forall w, env (snd (m w)) = env w
            /\ repl (self (snd (m w))) = repl (self w)
            /\ plotter (self (snd (m w))) = plotter (self w)
            /\ fs (self (snd (m w))) = fs (self w)
            /\ timer_active (self (snd (m w))) = timer_active (self w).


(** The libraries [install] asks for: the lines of [text] that are not
    empty. *)
Definition wanted_libs (text : string) : list string :=
  filter (fun l => negb (String.eqb l ""))
    (split_on "010"%char EmptyString text).

(** The first occurrence of each element, in order. *)
Fixpoint first_occurrences (l : list string) (seen : list string)
    : list string :=
  match l with
  | [] => []
  | x :: rest =>
      if existsb (String.eqb x) seen then first_occurrences rest seen
      else x :: first_occurrences rest (seen ++ [x])
  end.

(** The command list [install] sends for a library. *)
Definition upip_command (lib : string) : list string :=
  ["import upip"; "upip.install('" ++ lib ++ "')"].

(** A carriage return. *)
Definition CR : string := String "013"%char EmptyString.

(** The command lists handed to [sbfs.send_cmd] in a run. *)
Definition sent_commands (tr : list event) : list (list string) :=
  flat_map (fun e => match e with EvSendCmd c => [c] | _ => [] end) tr.

(** [m] only adds to the log, and hands nothing to [sbfs.send_cmd]. *)
Definition quiet {A} (m : M A) : Prop :=
  forall w, exists tr,
    log (snd (m w)) = (log w ++ tr)%list /\ sent_commands tr = [].

(** The guarded call of [sbfs.send_cmd] in the loop of [install]. *)
Definition send_guarded (lib : string) : M (option (string * string)) :=
  try_except_IOError
    (o <- send_cmd (upip_command lib) ;; ret (Some o))
    (fun e =>
       critical "Wi-Fi Connect Error" (exn_str e) ;;
       close_serial_link ;;
       emit (EvSetButtons [("button_conn", true)]) ;;
       ret None).

(** The outputs the loop of [install] captures: the first component of
    what [sbfs.send_cmd] hands back for each library of [libs] in turn,
    with the library, up to the first call that raises. [inc] is what
    the device has still to send. *)
Fixpoint captured (h : host) (libs : list string) (inc : script)
    : list (string * string) :=
  match libs with
  | [] => []
  | lib :: rest =>
      match sbfs_send_cmd h (upip_command lib) inc with
      | (Ok (out, _), inc') => (lib, out) :: captured h rest inc'
      | (Raise _, _) => []
      end
  end.




(** The good host with a board on which the first installation ends in
    an error and the next one passes; the board is taken to have one
    message to send before the first. *)
Definition retry_host : host :=
  {| os_name := "posix";
     available_ports := [studuino_port];
     port_opens := true;
     port_reopens := true;
     dtr_effective := true;
     pyserial_opens := true;
     HOME_DIRECTORY := "/home/user";
     WORKSPACE_NAME := "mu_code";
     dialog_choice := Some "3";
     current_tab := Some ("print(1)", LF);
     save_and_encode := fun _ _ _ => Ok tt;
     sbfs_put := fun _ _ s => (Ok tt, s);
     sbfs_execute := fun _ s => (Ok tt, s);
     sbfs_send_cmd := fun _ s =>
       match s with
       | _ :: rest => (Ok ("OSError: [Errno 113] EHOSTUNREACH", ""), rest)
       | [] => (Ok ("Installing numpy", ""), [])
       end;
     view_add_repl := fun _ => Ok tt;
     view_add_plotter := fun _ => Ok tt;
     plotter_data_saved := Ok tt |}.

(** [str(out)] for [bytes] of printable ASCII characters without quote
    and backslash. *)
Definition bytes_repr (out : string) : string := "b'" ++ out ++ "'".

(** A POSIX host with no board attached; every other call succeeds. *)
Definition unplugged_host : host :=
  {| os_name := "posix";
     available_ports := [];
     port_opens := true;
     port_reopens := true;
     dtr_effective := true;
     pyserial_opens := true;
     HOME_DIRECTORY := "/home/user";
     WORKSPACE_NAME := "mu_code";
     dialog_choice := Some "3";
     current_tab := Some ("print(1)", LF);
     save_and_encode := fun _ _ _ => Ok tt;
     sbfs_put := fun _ _ s => (Ok tt, s);
     sbfs_execute := fun _ s => (Ok tt, s);
     sbfs_send_cmd := fun _ s => (Ok ("ok", ""), s);
     view_add_repl := fun _ => Ok tt;
     view_add_plotter := fun _ => Ok tt;
     plotter_data_saved := Ok tt |}.

(** The good host, but [sbfs.execute] fails with an error that is not an
    [IOError]. *)
Definition execute_breaks_host : host :=
  {| os_name := "posix";
     available_ports := [studuino_port];
     port_opens := true;
     port_reopens := true;
     dtr_effective := true;
     pyserial_opens := true;
     HOME_DIRECTORY := "/home/user";
     WORKSPACE_NAME := "mu_code";
     dialog_choice := Some "3";
     current_tab := Some ("print(1)", LF);
     save_and_encode := fun _ _ _ => Ok tt;
     sbfs_put := fun _ _ s => (Ok tt, s);
     sbfs_execute := fun _ s => (Raise (TypeError "bad reply"), s);
     sbfs_send_cmd := fun _ s => (Ok ("ok", ""), s);
     view_add_repl := fun _ => Ok tt;
     view_add_plotter := fun _ => Ok tt;
     plotter_data_saved := Ok tt |}.


(** A mode in which the REPL and the plotter are shown. *)
Definition streaming : attrs :=
  with_timer true (with_plotter (Some true) (with_repl (Some true) idle)).

End Runner.

(** ** The Wi-Fi and library page of the admin dialog ([ESP32PackagesWidget]) *)

Module Wifi.

Import Locator Session Mode Install Props Runner.

(** What the methods of the widget write: its own [serial] attribute
    (the mode object [self.target] has another), the items of the
    [list_ssid] combo box, the label of [button_conn] and the enabled
    state of its controls. A string is a sequence of code points below
    256. *)
Record widget : Type := {
  own_serial : serial_attr;
  list_ssid_items : list string;
  list_ssid_enabled : bool;
  line_pwd_enabled : bool;
  button_scan_enabled : bool;
  button_conn_enabled : bool;
  button_conn_text : string;
  groupbox_install_enabled : bool;
  button_inst_enabled : bool
}.

(** The widget as [setup] leaves it. *)
Definition fresh : widget :=
  {| own_serial := Unbound;
     list_ssid_items := [];
     list_ssid_enabled := true;
     line_pwd_enabled := true;
     button_scan_enabled := true;
     button_conn_enabled := false;
     button_conn_text := "Connect";
     groupbox_install_enabled := false;
     button_inst_enabled := false |}.

Definition with_own_serial (v : serial_attr) (u : widget) : widget :=
  {| own_serial := v;
     list_ssid_items := list_ssid_items u;
     list_ssid_enabled := list_ssid_enabled u;
     line_pwd_enabled := line_pwd_enabled u;
     button_scan_enabled := button_scan_enabled u;
     button_conn_enabled := button_conn_enabled u;
     button_conn_text := button_conn_text u;
     groupbox_install_enabled := groupbox_install_enabled u;
     button_inst_enabled := button_inst_enabled u |}.

Definition with_items (v : list string) (u : widget) : widget :=
  {| own_serial := own_serial u;
     list_ssid_items := v;
     list_ssid_enabled := list_ssid_enabled u;
     line_pwd_enabled := line_pwd_enabled u;
     button_scan_enabled := button_scan_enabled u;
     button_conn_enabled := button_conn_enabled u;
     button_conn_text := button_conn_text u;
     groupbox_install_enabled := groupbox_install_enabled u;
     button_inst_enabled := button_inst_enabled u |}.

Definition with_list_ssid_enabled (v : bool) (u : widget) : widget :=
  {| own_serial := own_serial u;
     list_ssid_items := list_ssid_items u;
     list_ssid_enabled := v;
     line_pwd_enabled := line_pwd_enabled u;
     button_scan_enabled := button_scan_enabled u;
     button_conn_enabled := button_conn_enabled u;
     button_conn_text := button_conn_text u;
     groupbox_install_enabled := groupbox_install_enabled u;
     button_inst_enabled := button_inst_enabled u |}.

Definition with_line_pwd_enabled (v : bool) (u : widget) : widget :=
  {| own_serial := own_serial u;
     list_ssid_items := list_ssid_items u;
     list_ssid_enabled := list_ssid_enabled u;
     line_pwd_enabled := v;
     button_scan_enabled := button_scan_enabled u;
     button_conn_enabled := button_conn_enabled u;
     button_conn_text := button_conn_text u;
     groupbox_install_enabled := groupbox_install_enabled u;
     button_inst_enabled := button_inst_enabled u |}.

Definition with_button_scan_enabled (v : bool) (u : widget) : widget :=
  {| own_serial := own_serial u;
     list_ssid_items := list_ssid_items u;
     list_ssid_enabled := list_ssid_enabled u;
     line_pwd_enabled := line_pwd_enabled u;
     button_scan_enabled := v;
     button_conn_enabled := button_conn_enabled u;
     button_conn_text := button_conn_text u;
     groupbox_install_enabled := groupbox_install_enabled u;
     button_inst_enabled := button_inst_enabled u |}.

Definition with_button_conn_enabled (v : bool) (u : widget) : widget :=
  {| own_serial := own_serial u;
     list_ssid_items := list_ssid_items u;
     list_ssid_enabled := list_ssid_enabled u;
     line_pwd_enabled := line_pwd_enabled u;
     button_scan_enabled := button_scan_enabled u;
     button_conn_enabled := v;
     button_conn_text := button_conn_text u;
     groupbox_install_enabled := groupbox_install_enabled u;
     button_inst_enabled := button_inst_enabled u |}.

Definition with_button_conn_text (v : string) (u : widget) : widget :=
  {| own_serial := own_serial u;
     list_ssid_items := list_ssid_items u;
     list_ssid_enabled := list_ssid_enabled u;
     line_pwd_enabled := line_pwd_enabled u;
     button_scan_enabled := button_scan_enabled u;
     button_conn_enabled := button_conn_enabled u;
     button_conn_text := v;
     groupbox_install_enabled := groupbox_install_enabled u;
     button_inst_enabled := button_inst_enabled u |}.

Definition with_groupbox_install_enabled (v : bool) (u : widget) : widget :=
  {| own_serial := own_serial u;
     list_ssid_items := list_ssid_items u;
     list_ssid_enabled := list_ssid_enabled u;
     line_pwd_enabled := line_pwd_enabled u;
     button_scan_enabled := button_scan_enabled u;
     button_conn_enabled := button_conn_enabled u;
     button_conn_text := button_conn_text u;
     groupbox_install_enabled := v;
     button_inst_enabled := button_inst_enabled u |}.

Definition with_button_inst_enabled (v : bool) (u : widget) : widget :=
  {| own_serial := own_serial u;
     list_ssid_items := list_ssid_items u;
     list_ssid_enabled := list_ssid_enabled u;
     line_pwd_enabled := line_pwd_enabled u;
     button_scan_enabled := button_scan_enabled u;
     button_conn_enabled := button_conn_enabled u;
     button_conn_text := button_conn_text u;
     groupbox_install_enabled := groupbox_install_enabled u;
     button_inst_enabled := v |}.

(** A method of the widget: it works on the widget and on the world of
    the mode; a raised exception keeps the changes made before it. *)
Definition G (A : Type) : Type := widget -> world -> result A * widget * world.

Definition gret {A} (a : A) : G A := fun u w => (Ok a, u, w).

Definition gbind {A B} (m : G A) (k : A -> G B) : G B :=
  fun u w => match m u w with
             | (Ok a, u', w') => k a u' w'
             | (Raise e, u', w') => (Raise e, u', w')
             end.

(** [try: body except Exception as e: handler e]. *)
Definition gtry {A} (body : G A) (handler : exn -> G A) : G A :=
  fun u w => match body u w with
             | (Ok a, u', w') => (Ok a, u', w')
             | (Raise e, u', w') => handler e u' w'
             end.

(** [try: body except IOError as e: handler e]. *)
Definition gtry_IOError {A} (body : G A) (handler : exn -> G A) : G A :=
  gtry body (fun e => if is_IOError e then handler e
                      else fun u w => (Raise e, u, w)).

(** A call on [self.target], on its view, on a message box or on a
    helper module. *)
Definition target {A} (m : M A) : G A :=
  fun u w => match m w with (r, w') => (r, u, w') end.

(** The world in which [self.serial] is [v]. *)
Definition serial_set (v : serial_attr) (w : world) : world :=
  {| self := with_serial v (self w); env := env w; incoming := incoming w;
     rx := rx w; log := log w |}.

(** A method whose text the widget shares with the mode, run on the
    widget: [self.serial] is then the attribute of the widget, and the
    one of the mode is left alone. *)
Definition own {A} (m : M A) : G A :=
  fun u w => match m (serial_set (own_serial u) w) with
             | (r, w') =>
                 (r, with_own_serial (serial (self w')) u,
                  serial_set (serial (self w)) w')
             end.

Definition setw (f : widget -> widget) : G unit := fun u w => (Ok tt, f u, w).

End Wifi.

Import Wifi.

Notation "x <~ m ;; k" := (gbind m (fun x => k))
  (at level 61, m at next level, right associativity).
Notation "m ;;; k" := (gbind m (fun _ => k))
  (at level 61, right associativity).

Module Page.

Import Locator Session Mode Install Props Runner.

(** [str.isspace] of a code point below 256. *)
Definition isspace (c : ascii) : bool :=
  let n := nat_of_ascii c in
  ((9 <=? n)%nat && (n <=? 13)%nat) || ((28 <=? n)%nat && (n <=? 32)%nat)
  || (n =? 133)%nat || (n =? 160)%nat.

(** [s.lstrip()]. *)
Fixpoint lstrip (s : string) : string :=
  match s with
  | EmptyString => EmptyString
  | String c rest => if isspace c then lstrip rest else s
  end.

(** [s[::-1]]. *)
Fixpoint reversed (s : string) : string :=
  match s with
  | EmptyString => EmptyString
  | String c rest => reversed rest ++ String c EmptyString
  end.

(** [s.strip()]. *)
Definition strip (s : string) : string :=
  reversed (lstrip (reversed (lstrip s))).

(** [library_info_changed]; [text] is [self.text_area.toPlainText()]. *)
Definition library_info_changed (text : string) : G unit :=
  if (0 <? String.length (strip text))%nat
  then setw (with_button_inst_enabled true)
  else setw (with_button_inst_enabled false).

(** [re.findall(r"\((.*?)\)", s)], read from left to right: [inside] is
    the text since the last opening parenthesis that a closing one can
    still end. A line feed, which [.] does not take, gives that opening
    parenthesis up, and with it every one after it up to the line feed. *)
Fixpoint findall_parens (s : string) (inside : option string) : list string :=
  match s with
  | EmptyString => []
  | String c rest =>
      match inside with
      | None =>
          if Ascii.eqb c "("%char then findall_parens rest (Some EmptyString)
          else findall_parens rest None
      | Some group =>
          if Ascii.eqb c ")"%char then group :: findall_parens rest None
          else if Ascii.eqb c "010"%char then findall_parens rest None
          else findall_parens rest (Some (group ++ String c EmptyString))
      end
  end.

(** [s[1:]]. *)
Definition tail_from_1 (s : string) : string :=
  match s with
  | EmptyString => EmptyString
  | String _ rest => rest
  end.

(** [re.sub(r"['\\]", "", s)]. *)
Fixpoint drop_quotes (s : string) : string :=
  match s with
  | EmptyString => EmptyString
  | String c rest =>
      if Ascii.eqb c "'"%char || Ascii.eqb c "\"%char then drop_quotes rest
      else String c (drop_quotes rest)
  end.

(** The item [scan] adds for the access point [ap]. *)
Definition ssid_of (ap : string) : string :=
  let info := split_on ","%char EmptyString ap in
  drop_quotes (tail_from_1 (hd EmptyString info)).

(** The command list [command] of [scan]. *)
Definition scan_command : list string :=
  [ "import network";
    "sta = network.WLAN(network.STA_IF)";
    "sta.active(True)";
    "print(sta.scan())" ].

(** [scan]; [py_str] is [str] on [bytes]. The slots that the toolkit
    calls when the items of the combo box change are not part of it. *)
Definition scan (py_str : string -> string) : G unit :=
  setw (with_items []) ;;;
  ready <~ gtry (target initialize ;;; gret true)
             (fun e => target (report_initialize e) ;;; gret false) ;;
  if negb ready then gret tt else
  opened <~ gtry
              (found <~ target self_find_device ;;
               own (open_serial_link dialogs_globals (fst found)) ;;;
               gret true)
              (fun _ => target (show_message message information) ;;;
                        gret false) ;;
  if negb opened then gret tt else
  r <~ gtry_IOError
         (o <~ target (send_cmd scan_command) ;; gret (Some o))
         (fun _ =>
            target (show_message "Scan Error"
                      "Please connect the USB cable again.") ;;;
            own close_serial_link ;;;
            gret None) ;;
  match r with
  | None => gret tt
  | Some (out, _) =>
      let aps := findall_parens (py_str out) None in
      setw (fun u => with_items (list_ssid_items u ++ map ssid_of aps) u) ;;;
      own close_serial_link
  end.

(** The command lists of [connect]. *)
Definition connect_command (ssid pwd : string) : list string :=
  [ "sta.connect('" ++ ssid ++ "', '" ++ pwd ++ "')";
    "while not sta.isconnected():" ++ LF ++ " pass";
    "print(sta.ifconfig())" ].

Definition disconnect_command : list string :=
  [ "sta.disconnect()";
    "while sta.isconnected():" ++ LF ++ " pass";
    "print(sta.ifconfig())" ].

(** The guarded [sbfs.send_cmd] of [connect]: [false] when the method
    returns from the handler. *)
Definition send_or_report (command : list string) : G bool :=
  gtry_IOError
    (target (send_cmd command) ;;; gret true)
    (fun e =>
       target (critical "Wi-Fi Connect Error" (exn_str e)) ;;;
       own close_serial_link ;;;
       setw (with_button_conn_enabled true) ;;;
       gret false).

(** [connect], the slot of [button_conn.toggled]; [ssid] is
    [self.list_ssid.currentText()], [pwd] is [self.line_pwd.text()] and
    [text] is [self.text_area.toPlainText()]. *)
Definition connect (checked : bool) (ssid pwd text : string) : G unit :=
  setw (with_button_conn_enabled false) ;;;
  opened <~ gtry
              (found <~ target self_find_device ;;
               own (open_serial_link dialogs_globals (fst found)) ;;;
               gret true)
              (fun e =>
                 target (critical "Open Serial Error" (exn_str e)) ;;;
                 setw (with_button_conn_enabled true) ;;;
                 gret false) ;;
  if negb opened then gret tt else
  if checked then
    sent <~ send_or_report (connect_command ssid pwd) ;;
    if negb sent then gret tt else
    setw (with_button_conn_enabled true) ;;;
    setw (with_button_conn_text "Disconnect") ;;;
    setw (with_list_ssid_enabled false) ;;;
    setw (with_line_pwd_enabled false) ;;;
    setw (with_button_scan_enabled false) ;;;
    setw (with_groupbox_install_enabled true) ;;;
    library_info_changed text ;;;
    own close_serial_link
  else
    sent <~ send_or_report disconnect_command ;;
    if negb sent then gret tt else
    setw (with_button_conn_text "Connect") ;;;
    setw (with_list_ssid_enabled true) ;;;
    setw (with_line_pwd_enabled true) ;;;
    setw (with_button_scan_enabled true) ;;;
    setw (with_groupbox_install_enabled false) ;;;
    own close_serial_link.

(** [install] run on the widget. *)
Definition install_on_widget (py_str : string -> string) (text : string)
    : G unit :=
  own (install py_str text).

(** [c in s] for a character [c]. *)
Fixpoint occurs (c : ascii) (s : string) : bool :=
  match s with
  | EmptyString => false
  | String a rest => Ascii.eqb a c || occurs c rest
  end.

(** An item that holds no quote, backslash, comma, closing parenthesis
    or line feed. *)
Definition plain (item : string) : Prop :=
  occurs "'"%char item = false
  /\ occurs "\"%char item = false
  /\ occurs ","%char item = false
  /\ occurs ")"%char item = false
  /\ occurs "010"%char item = false.



End Page.

(** ** The package status dialog ([PackageDialog]) *)

Module Packages.

Import Install.

(** [s.endswith(suffix)]. *)
Definition endswith (s suffix : string) : bool :=
  String.eqb (slice_from (String.length s - String.length suffix) s) suffix.

(** [pkg.replace("-", "_")]. *)
Definition underscored (pkg : string) : string :=
  map_chars (fun c => if Ascii.eqb c "-"%char then "_"%char else c) pkg.

(** The file system under [module_dir], as the outcomes of the calls
    made to it, with [os.name] of the host, which selects [os.path]:
    [os.listdir(self.module_dir)] in [remove_packages]; the
    statements of [remove_package] that delete the assets of a package
    with a [dist-info] directory, and with an [egg-info] directory; and
    the clean-up of empty directories and of [bin]. *)
Record disk : Type := {
  disk_os : string;
  listdir : result (list string);
  delete_dist_info : string -> string -> result unit;
  delete_egg_info : string -> string -> result unit;
  clean_up : result unit
}.

(** The attributes of the dialog, with what the event loop holds for
    it: the single shots of [remove_package] that are armed and have not
    fired, and the processes that were started and have not finished.
    [to_remove] and [to_add] are in the order in which the code goes
    through them; [pkg_dirs] is a [dict], in insertion order; [process]
    is [None] or the [QProcess] made by the n-th call of [run_pip];
    [text_area] holds the texts given to [append_data]; [started] holds
    the packages handed to pip. *)
Record dialog : Type := {
  to_remove : list string;
  to_add : list string;
  module_dir : string;
  pkg_dirs : list (string * string);
  process : option nat;
  text_area : list string;
  ok_enabled : bool;
  shots : nat;
  running : list nat;
  started : list string
}.

Definition with_to_add (v : list string) (d : dialog) : dialog :=
  {| to_remove := to_remove d; to_add := v; module_dir := module_dir d;
     pkg_dirs := pkg_dirs d; process := process d;
     text_area := text_area d; ok_enabled := ok_enabled d;
     shots := shots d; running := running d; started := started d |}.

Definition with_pkg_dirs (v : list (string * string)) (d : dialog) : dialog :=
  {| to_remove := to_remove d; to_add := to_add d; module_dir := module_dir d;
     pkg_dirs := v; process := process d;
     text_area := text_area d; ok_enabled := ok_enabled d;
     shots := shots d; running := running d; started := started d |}.

Definition with_process (v : option nat) (d : dialog) : dialog :=
  {| to_remove := to_remove d; to_add := to_add d; module_dir := module_dir d;
     pkg_dirs := pkg_dirs d; process := v;
     text_area := text_area d; ok_enabled := ok_enabled d;
     shots := shots d; running := running d; started := started d |}.

Definition with_ok_enabled (v : bool) (d : dialog) : dialog :=
  {| to_remove := to_remove d; to_add := to_add d; module_dir := module_dir d;
     pkg_dirs := pkg_dirs d; process := process d;
     text_area := text_area d; ok_enabled := v;
     shots := shots d; running := running d; started := started d |}.

Definition with_shots (v : nat) (d : dialog) : dialog :=
  {| to_remove := to_remove d; to_add := to_add d; module_dir := module_dir d;
     pkg_dirs := pkg_dirs d; process := process d;
     text_area := text_area d; ok_enabled := ok_enabled d;
     shots := v; running := running d; started := started d |}.

Definition with_running (v : list nat) (d : dialog) : dialog :=
  {| to_remove := to_remove d; to_add := to_add d; module_dir := module_dir d;
     pkg_dirs := pkg_dirs d; process := process d;
     text_area := text_area d; ok_enabled := ok_enabled d;
     shots := shots d; running := v; started := started d |}.

(** [append_data(msg)]. *)
Definition append_data (msg : string) (d : dialog) : dialog :=
  {| to_remove := to_remove d; to_add := to_add d; module_dir := module_dir d;
     pkg_dirs := pkg_dirs d; process := process d;
     text_area := text_area d ++ [msg]; ok_enabled := ok_enabled d;
     shots := shots d; running := running d; started := started d |}.

(** [QTimer.singleShot(2, self.remove_package)]. *)
Definition singleShot (d : dialog) : dialog := with_shots (S (shots d)) d.

(** The text [end_state] appends. *)
Definition FINISHED : string := LF ++ "FINISHED".

(** [end_state]. *)
Definition end_state (d : dialog) : dialog :=
  with_ok_enabled true (append_data FINISHED d).

(** [run_pip]: [self.to_add.pop()] takes the last entry; the new process
    is started and will emit [finished]. *)
Definition run_pip (d : dialog) : result unit * dialog :=
  match rev (to_add d) with
  | [] => (Raise (Exception "pop from empty list"), d)
  | package :: _ =>
      let id := List.length (started d) in
      (Ok tt,
       {| to_remove := to_remove d; to_add := removelast (to_add d);
          module_dir := module_dir d; pkg_dirs := pkg_dirs d;
          process := Some id;
          text_area := text_area d; ok_enabled := ok_enabled d;
          shots := shots d; running := running d ++ [id];
          started := started d ++ [package] |})
  end.

(** [finished], the slot of [process.finished]. *)
Definition finished (d : dialog) : result unit * dialog :=
  match to_add d with
  | _ :: _ => run_pip (with_process None d)
  | [] =>
      match pkg_dirs d with
      | [] => (Ok tt, end_state d)
      | _ :: _ => (Ok tt, d)
      end
  end.

(** The directories [remove_packages] looks at; [os] is [os.name]. *)
Definition info_dirs (os : string) (module_dir : string) (names : list string)
    : list string :=
  map (fun d => os_path_join os module_dir [d])
    (filter (fun d => endswith d "dist-info" || endswith d "egg-info") names).

(** The test of [remove_packages] for the package [pkg] and the
    directory [d]. *)
Definition dir_matches (os : string) (pkg d : string) : bool :=
  let pkg_name := lower (underscored pkg) in
  startswith (lower (os_path_basename os d)) (pkg_name ++ "-").

(** The two loops of [remove_packages] over [self.to_remove] and [dirs]. *)
Definition matched (os : string) (pkgs dirs : list string)
    : list (string * string) :=
  fold_left
    (fun acc pkg =>
       fold_left
         (fun acc d =>
            if dir_matches os pkg d then dict_update pkg d acc else acc)
         dirs acc)
    pkgs [].

(** [remove_packages]. *)
Definition remove_packages (fs : disk) (d : dialog) : result unit * dialog :=
  match listdir fs with
  | Raise e => (Raise e, d)
  | Ok names =>
      let d1 := with_pkg_dirs
                  (matched (disk_os fs) (to_remove d)
                     (info_dirs (disk_os fs) (module_dir d) names)) d in
      match pkg_dirs d1 with
      | [] => (Ok tt, d1)
      | _ :: _ => (Ok tt, singleShot d1)
      end
  end.

(** [self.pkg_dirs.popitem()]: the pair inserted last. *)
Definition popitem (items : list (string * string))
    : option ((string * string) * list (string * string)) :=
  match rev items with
  | [] => None
  | item :: _ => Some (item, removelast items)
  end.

(** [remove_package], the slot of the single shot. *)
Definition remove_package (fs : disk) (d : dialog) : result unit * dialog :=
  match popitem (pkg_dirs d) with
  | Some ((package, info), rest) =>
      let d1 := with_pkg_dirs rest d in
      if endswith info "dist-info" then
        match delete_dist_info fs package info with
        | Raise e => (Raise e, d1)
        | Ok _ =>
            (Ok tt,
             singleShot (append_data ("Removed " ++ package ++ LF) d1))
        end
      else
        match delete_egg_info fs package info with
        | Ok _ =>
            (Ok tt,
             singleShot (append_data ("Removed " ++ package ++ LF) d1))
        | Raise _ =>
            (Ok tt,
             singleShot
               (append_data
                  ("UNABLE TO REMOVE PACKAGE: " ++ package ++
                   " (check the logs for more information.)") d1))
        end
  | None =>
      match clean_up fs with
      | Raise e => (Raise e, d)
      | Ok _ =>
          match to_add d, process d with
          | [], None => (Ok tt, end_state d)
          | _, _ => (Ok tt, d)
          end
      end
  end.

(** [setup], without the layout of the dialog. *)
Definition setup (fs : disk) (to_remove to_add : list string)
    (module_dir : string) : result unit * dialog :=
  let d0 := {| to_remove := to_remove; to_add := to_add;
               module_dir := module_dir; pkg_dirs := []; process := None;
               text_area := []; ok_enabled := false;
               shots := 0; running := []; started := [] |} in
  match (match to_remove with
         | [] => (Ok tt, d0)
         | _ :: _ => remove_packages fs d0
         end) with
  | (Raise e, d1) => (Raise e, d1)
  | (Ok _, d1) =>
      match to_add with
      | [] => (Ok tt, d1)
      | _ :: _ => run_pip d1
      end
  end.

(** What the event loop does with the dialog: an armed single shot
    fires and calls [remove_package], or a running process ends and
    calls [finished]. An exception that leaves a slot ends that slot
    only. *)
Inductive step (fs : disk) : dialog -> dialog -> Prop :=
| step_shot (d : dialog) (n : nat) :
    shots d = S n ->
    step fs d (snd (remove_package fs (with_shots n d)))
| step_finished (d : dialog) (before after : list nat) (id : nat) :
    running d = (before ++ id :: after)%list ->
    step fs d (snd (finished (with_running (before ++ after) d))).

(** Any number of steps. *)
Inductive steps (fs : disk) : dialog -> dialog -> Prop :=
| steps_none (d : dialog) : steps fs d d
| steps_more (d d1 d2 : dialog) :
    step fs d d1 -> steps fs d1 d2 -> steps fs d d2.

(** The dialog is at rest: no single shot is armed and no process runs. *)
Definition at_rest (d : dialog) : Prop := shots d = 0%nat /\ running d = [].

(** How often [FINISHED] was written. *)
Definition finished_count (d : dialog) : nat :=
  List.length (filter (String.eqb FINISHED) (text_area d)).

(** A disk on which [module_dir] lists [names] and every call succeeds. *)
Definition tidy_disk (names : list string) : disk :=
  {| disk_os := "posix";
     listdir := Ok names;
     delete_dist_info := fun _ _ => Ok tt;
     delete_egg_info := fun _ _ => Ok tt;
     clean_up := Ok tt |}.

(** What holds of the dialog between two slots. *)
Definition settled (d : dialog) : Prop :=
  (shots d <= 1)%nat
  /\ (List.length (running d) <= 1)%nat
  /\ (running d <> [] -> process d <> None)
  /\ finished_count d = (if ok_enabled d then 1%nat else 0%nat)
  /\ (ok_enabled d = true ->
      running d = [] /\ to_add d = [] /\ pkg_dirs d = []
      /\ (shots d = 0%nat \/ process d <> None)).

(** The packages handed to pip so far and the ones still waiting make up
    [add], last one first; while one waits, a process runs. *)
Definition pip_progress (add : list string) (d : dialog) : Prop :=
  (started d ++ rev (to_add d))%list = rev add
  /\ (to_add d <> [] -> running d <> []).

End Packages.

(** * Properties *)

Import Locator Session Mode Props.

(** ** Byte strings *)

Lemma append_nil_r (s : string) : s ++ "" = s.
Proof. induction s as [|c s IH]; simpl; [reflexivity | now rewrite IH]. Qed.

Lemma append_assoc (a b c : string) : (a ++ b) ++ c = a ++ (b ++ c).
Proof. induction a as [|x a IH]; simpl; [reflexivity | now rewrite IH]. Qed.

Lemma length_append (a b : string) :
  String.length (a ++ b) = (String.length a + String.length b)%nat.
Proof. induction a as [|x a IH]; simpl; [reflexivity | now rewrite IH]. Qed.

Lemma prefix_nil (b : string) : String.prefix "" b = true.
Proof. destruct b; reflexivity. Qed.

Lemma prefix_iff (t b : string) :
  String.prefix t b = true <-> exists post, b = t ++ post.
Proof.
  revert b. induction t as [|c t IH]; intros b.
  - rewrite prefix_nil. split; [intros _; now exists b | reflexivity].
  - destruct b as [|d b]; simpl.
    + split; [discriminate | intros [post H]; discriminate].
    + destruct (ascii_dec c d) as [->|Hne].
      * rewrite IH. split; intros [post H]; exists post.
        -- now rewrite H.
        -- now injection H.
      * split; [discriminate |].
        intros [post H]. injection H as H1 _. now subst.
Qed.

Lemma bytes_in_nil (token : string) :
  bytes_in token "" = String.prefix token "".
Proof. destruct token; reflexivity. Qed.

Lemma bytes_in_cons (token : string) (c : ascii) (buff : string) :
  bytes_in token (String c buff) =
  String.prefix token (String c buff) || bytes_in token buff.
Proof.
  change (bytes_in token (String c buff))
    with (if String.prefix token (String c buff) then true
          else bytes_in token buff).
  now destruct (String.prefix token (String c buff)).
Qed.

Lemma bytes_in_iff (token buff : string) :
  bytes_in token buff = true <-> Substring token buff.
Proof.
  induction buff as [|c buff IH].
  - rewrite bytes_in_nil, prefix_iff. split.
    + intros [post Hp]. exists "", post. exact Hp.
    + intros [pre [post H]]. destruct pre; simpl in H.
      * now exists post.
      * discriminate.
  - rewrite bytes_in_cons, orb_true_iff, IH, prefix_iff. split.
    + intros [[post Hp] | [pre [post H]]].
      * exists "", post. exact Hp.
      * exists (String c pre), post. simpl. now rewrite H.
    + intros [pre [post H]]. destruct pre as [|d pre]; simpl in H.
      * left. now exists post.
      * right. injection H as _ H. now exists pre, post.
Qed.

Lemma bytes_in_false_iff (token buff : string) :
  bytes_in token buff = false <-> ~ Substring token buff.
Proof.
  rewrite <- bytes_in_iff. destruct (bytes_in token buff); split; congruence.
Qed.

Lemma Substring_app_r (token a b : string) :
  Substring token a -> Substring token (a ++ b).
Proof.
  intros [pre [post H]]. exists pre, (post ++ b).
  now rewrite H, !append_assoc.
Qed.

Lemma bytes_in_app_false (token a b : string) :
  bytes_in token (a ++ b) = false -> bytes_in token a = false.
Proof.
  rewrite !bytes_in_false_iff. intros H Ha. apply H. now apply Substring_app_r.
Qed.

Lemma length_slice_from (n : nat) (p : string) :
  String.length (slice_from n p) = (String.length p - n)%nat.
Proof.
  revert p. induction n as [|n IH]; intros p; simpl.
  - lia.
  - destruct p as [|c p]; simpl; [reflexivity | apply IH].
Qed.

Lemma rfind_bounds (c : ascii) (p : string) :
  -1 <= rfind c p < Z.of_nat (String.length p).
Proof.
  induction p as [|a p IH]; simpl String.length; simpl rfind.
  - lia.
  - destruct (0 <=? rfind c p) eqn:H.
    + apply Z.leb_le in H. lia.
    + destruct (Ascii.eqb a c); lia.
Qed.

Lemma rfind_found (c : ascii) (p : string) :
  Substring (String c "") p -> 0 <= rfind c p.
Proof.
  intros [pre [post H]]. subst p.
  induction pre as [|a pre IH]; simpl.
  - destruct (0 <=? rfind c post) eqn:H.
    + apply Z.leb_le in H. lia.
    + rewrite Ascii.eqb_refl. lia.
  - simpl in IH. destruct (0 <=? rfind c (pre ++ String c post)) eqn:H.
    + lia.
    + apply Z.leb_gt in H. lia.
Qed.

(** With a directory in the path, [basename] gives a shorter string. *)
Lemma basename_shorter (p : string) :
  Substring "/" p -> (String.length (basename p) < String.length p)%nat.
Proof.
  intros H. unfold basename. rewrite length_slice_from.
  pose proof (rfind_found H) as Hr.
  pose proof (rfind_bounds "/"%char p) as Hb. lia.
Qed.

Lemma basename_differs (p : string) : Substring "/" p -> basename p <> p.
Proof.
  intros H E. apply basename_shorter in H. rewrite E in H. lia.
Qed.

Lemma has_sep_app (a b : string) : has_sep (a ++ b) = has_sep a || has_sep b.
Proof.
  induction a as [|c a IH]; simpl; [reflexivity |].
  now rewrite IH, orb_assoc.
Qed.

Lemma has_sep_substring (c : ascii) (p : string) :
  is_sep c = true -> Substring (String c "") p -> has_sep p = true.
Proof.
  intros Hc [pre [post ->]]. rewrite has_sep_app. simpl. rewrite Hc.
  now rewrite orb_true_r.
Qed.

(** What [ntpath.split] hands back as the tail holds no separator. *)
Lemma after_last_sep_plain (p tail : string) :
  has_sep tail = false -> has_sep (after_last_sep p tail) = false.
Proof.
  revert tail. induction p as [|c p IH]; intros tail Ht; simpl; [exact Ht |].
  destruct (is_sep c) eqn:Hc.
  - now apply IH.
  - apply IH. rewrite has_sep_app. simpl. now rewrite Ht, Hc.
Qed.

Lemma nt_basename_plain (p : string) : has_sep (nt_basename p) = false.
Proof. unfold nt_basename. now apply after_last_sep_plain. Qed.

(** With a separator of the host in the path, [os.path.basename] does
    not give the path back. *)
Lemma os_path_basename_differs (os p : string) :
  has_directory os p -> os_path_basename os p <> p.
Proof.
  intros Hdir E. unfold os_path_basename in E.
  destruct (String.eqb os "nt") eqn:Hos.
  - assert (Hs : has_sep p = true).
    { destruct Hdir as [H | [_ H]];
        [apply (@has_sep_substring "/"%char) | apply (@has_sep_substring "\"%char)];
        auto. }
    rewrite <- E, nt_basename_plain in Hs. discriminate.
  - destruct Hdir as [H | [Hnt _]].
    + now apply (basename_differs H).
    + apply String.eqb_neq in Hos. contradiction.
Qed.

(** ** [ntpath] on plain names and on paths with a drive letter *)




Lemma nt_drive_length_letter (d : ascii) (rest : string) :
  nt_drive_length (String d (String ":" rest)) = 2%nat.
Proof.
  unfold nt_drive_length, nt_norm. simpl.
  destruct (if Ascii.eqb d "/" then "\"%char else d) as [[] [] [] [] [] [] [] []];
    reflexivity.
Qed.

Lemma nt_splitdrive_letter (d : ascii) (rest : string) :
  nt_splitdrive (String d (String ":" rest)) = (String d ":", rest).
Proof. unfold nt_splitdrive. now rewrite nt_drive_length_letter. Qed.

Lemma is_sep_false (c : ascii) :
  is_sep c = false -> c <> "\"%char /\ c <> "/"%char.
Proof.
  unfold is_sep. intros H. apply orb_false_iff in H. destruct H as [H1 H2].
  split; intros ->; discriminate.
Qed.

(** A name without separator and colon has no drive. *)
Lemma nt_drive_length_plain (p : string) :
  has_sep p = false -> ~ Substring ":" p -> nt_drive_length p = 0%nat.
Proof.
  intros Hs Hc. destruct p as [|a [|b r]]; try reflexivity.
  simpl in Hs. apply orb_false_iff in Hs. destruct Hs as [Ha Hs].
  apply orb_false_iff in Hs. destruct Hs as [Hb _].
  assert (Hbc : b <> ":"%char).
  { intros ->. apply Hc. now exists (String a ""), r. }
  unfold nt_drive_length, nt_norm. simpl.
  apply is_sep_false in Ha, Hb. destruct Ha as [Ha1 Ha2], Hb as [Hb1 Hb2].
  apply Ascii.eqb_neq in Ha1, Ha2, Hb1, Hb2, Hbc.
  rewrite Ha2, Hb2. 
  change (String.eqb (String a (String b "")) "\\")
    with (if Ascii.eqb a "\" then String.eqb (String b "") "\" else false).
  rewrite Ha1.
  change (String.eqb (String b "") ":")
    with (if Ascii.eqb b ":" then true else false).
  now rewrite Hbc.
Qed.

Lemma ends_with_sep_app (a b : string) :
  b <> "" -> ends_with_sep (a ++ b) = ends_with_sep b.
Proof.
  intros Hb. induction a as [|c a IH]; [reflexivity |].
  simpl. destruct (a ++ b) eqn:E.
  - destruct a; simpl in E; [congruence | discriminate].
  - exact IH.
Qed.

Lemma ends_with_sep_plain (s : string) :
  has_sep s = false -> ends_with_sep s = false.
Proof.
  induction s as [|c s IH]; [reflexivity |]. simpl. intros H.
  apply orb_false_iff in H. destruct H as [Hc Hs].
  destruct s; [exact Hc | now apply IH].
Qed.

Lemma nonempty_app_r (a b : string) : b <> "" -> nonempty (a ++ b) = true.
Proof.
  intros Hb. unfold nonempty. destruct a; simpl; [| reflexivity].
  destruct b; [congruence | reflexivity].
Qed.

Lemma nt_glue_name (a b : string) :
  b <> "" -> has_sep b = false -> nt_glue (a ++ b) = a ++ b ++ "\".
Proof.
  intros Hb Hs. unfold nt_glue.
  rewrite nonempty_app_r, ends_with_sep_app, ends_with_sep_plain by assumption.
  simpl. apply append_assoc.
Qed.

Lemma nt_splitdrive_usr (slot : string) :
  nt_splitdrive ("usr" ++ slot ++ ".py") = ("", "usr" ++ slot ++ ".py").
Proof. reflexivity. Qed.

(** [ntpath.join] of a home directory with a drive letter, a plain
    workspace name, [studuinobit] and the file of the slot. *)
Lemma nt_join_letter (d : ascii) (rest ws slot : string) :
  has_sep ws = false ->
  ~ Substring ":" ws ->
  nt_join (String d (String ":" rest))
    [ws; "studuinobit"; "usr" ++ slot ++ ".py"]
  = String d (String ":"
      (nt_glue (nt_glue rest ++ ws) ++ "studuinobit" ++ "\"
       ++ "usr" ++ slot ++ ".py")).
Proof.
  intros Hs Hc. unfold nt_join. cbn [fold_left].
  rewrite nt_splitdrive_letter.
  assert (E1 : nt_join_step (String d ":", rest) ws
               = (String d ":", nt_glue rest ++ ws)).
  { unfold nt_join_step, nt_splitdrive.
    rewrite (nt_drive_length_plain Hs Hc). cbn [slice_to slice_from].
    replace (starts_with_sep ws) with false
      by (destruct ws; simpl in *; [reflexivity |];
          apply orb_false_iff in Hs; now destruct Hs as [-> _]).
    reflexivity. }
  rewrite E1.
  assert (E2 : nt_join_step (String d ":", nt_glue rest ++ ws) "studuinobit"
               = (String d ":", nt_glue (nt_glue rest ++ ws) ++ "studuinobit")).
  { reflexivity. }
  rewrite E2.
  assert (E3 : nt_join_step
                 (String d ":", nt_glue (nt_glue rest ++ ws) ++ "studuinobit")
                 ("usr" ++ slot ++ ".py")
               = (String d ":",
                  nt_glue (nt_glue (nt_glue rest ++ ws) ++ "studuinobit")
                  ++ "usr" ++ slot ++ ".py")).
  { unfold nt_join_step. rewrite nt_splitdrive_usr. reflexivity. }
  rewrite E3.
  rewrite nt_glue_name by (discriminate || reflexivity).
  replace (ends_with_colon (String d ":")) with true by reflexivity.
  rewrite andb_false_r. simpl. now rewrite !append_assoc.
Qed.



(** ** Device locator *)

Lemma board_eqb_eq (a b : board) : board_eqb a b = true <-> a = b.
Proof.
  destruct a as [v1 [p1|]], b as [v2 [p2|]]; unfold board_eqb; simpl;
    rewrite andb_true_iff, ?Z.eqb_eq; split;
    try (intros [-> H]; try discriminate; try apply Z.eqb_eq in H; now subst);
    intros H; inversion H; subst; split; try reflexivity; try apply Z.eqb_refl.
Qed.

Lemma board_in_iff (x : board) (table : list board) :
  board_in x table = true <-> In x table.
Proof.
  unfold board_in. rewrite existsb_exists. split.
  - intros [y [Hy He]]. apply board_eqb_eq in He. now subst.
  - intros H. exists x. split; [exact H | now apply board_eqb_eq].
Qed.

Lemma port_matches_iff (boards : list board) (p : port_info) :
  port_matches boards p = true <-> Matches boards p.
Proof.
  unfold port_matches, Matches. now rewrite orb_true_iff, !board_in_iff.
Qed.

Lemma port_matches_false_iff (boards : list board) (p : port_info) :
  port_matches boards p = false <-> ~ Matches boards p.
Proof.
  rewrite <- port_matches_iff. destruct (port_matches boards p); split; congruence.
Qed.

Lemma find_device_skips (os : string) (boards : list board)
    (pre rest : list port_info) :
  (forall q, In q pre -> ~ Matches boards q) ->
  find_device os boards (pre ++ rest)%list = find_device os boards rest.
Proof.
  induction pre as [|q pre IH]; intros H; simpl; [reflexivity |].
  assert (Hq : port_matches boards q = false)
    by (apply port_matches_false_iff, H; now left).
  rewrite Hq. apply IH. intros r Hr. apply H. now right.
Qed.

Lemma find_device_sentinel (os : string) (boards : list board)
    (ports : list port_info) :
  find_device os boards ports = Ok (None, None) <->
  forall q, In q ports -> ~ Matches boards q.
Proof.
  induction ports as [|p ports IH]; simpl.
  - split; [intros _ q [] | reflexivity].
  - destruct (port_matches boards p) eqn:Hp.
    + split.
      * destruct (port_path os (portName p)); discriminate.
      * intros H. exfalso. apply (H p); [now left | now apply port_matches_iff].
    + rewrite IH. split.
      * intros H q [<- | Hq]; [now apply port_matches_false_iff | now apply H].
      * intros H q Hq. apply H. now right.
Qed.

(** C3. For every board table and every list of scanned ports,
    [find_device] answers with the first port, in scan order, whose
    [(vendor, product)] pair or whose [(vendor, None)] pair is in the
    table: it hands back that port's path, as [port_path] gives it,
    with that port's serial number; and it answers [(None, None)]
    exactly when no port matches. *)
Theorem find_device_first_match (os : string) (boards : list board)
    (ports : list port_info) :
  (forall pre p post,
      ports = (pre ++ p :: post)%list ->
      (forall q, In q pre -> ~ Matches boards q) ->
      Matches boards p ->
      find_device os boards ports =
        match port_path os (portName p) with
        | Ok path => Ok (Some path, Some (serialNumber p))
        | Raise e => Raise e
        end)
  /\ (find_device os boards ports = Ok (None, None) <->
      forall q, In q ports -> ~ Matches boards q).
Proof.
  split.
  - intros pre p post -> Hpre Hp.
    rewrite find_device_skips by exact Hpre. simpl.
    apply port_matches_iff in Hp. now rewrite Hp.
  - apply find_device_sentinel.
Qed.

Lemma find_device_first_match_witness :
  find_device "posix" BOARD_IDS
    [ studuino_port;
      {| vendorIdentifier := 0x0D28; productIdentifier := 0x0204;
         portName := "ttyACM1"; serialNumber := "MB01" |};
      {| vendorIdentifier := 0x239A; productIdentifier := 0x8014;
         portName := "ttyACM2"; serialNumber := "M0" |} ]
  = Ok (Some "/dev/ttyACM1", Some "MB01").
Proof.
  refine (proj1 (find_device_first_match "posix" BOARD_IDS _)
            [studuino_port] _ [_] eq_refl _ _).
  - intros q [<- | []]. apply port_matches_false_iff. reflexivity.
  - apply port_matches_iff. reflexivity.
Defined.

(** C8. [port_path] puts ["/dev/"] before the port name on a POSIX
    host, hands the name back unchanged on Windows, and raises
    [NotImplementedError] on any other platform; with the board table
    [(0x20A0, 0x4269)] and the scanned port [(0x20A0, 0x4269, "ttyACM0")],
    [find_device] on a POSIX host answers with the path
    ["/dev/ttyACM0"]. *)
Theorem port_path_by_platform :
  (forall name, port_path "posix" name = Ok ("/dev/" ++ name))
  /\ (forall name, port_path "nt" name = Ok name)
  /\ (forall os name, os <> "posix" -> os <> "nt" ->
        exists msg, port_path os name = Raise (NotImplementedError msg))
  /\ (forall sn,
        find_device "posix" [(0x20A0, Some 0x4269)]
          [ {| vendorIdentifier := 0x20A0; productIdentifier := 0x4269;
               portName := "ttyACM0"; serialNumber := sn |} ]
        = Ok (Some "/dev/ttyACM0", Some sn)).
Proof.
  repeat split; try reflexivity.
  intros os name H1 H2. unfold port_path.
  apply String.eqb_neq in H1, H2. rewrite H1, H2. eauto.
Qed.

Lemma port_path_by_platform_witness :
  exists msg, port_path "java" "ttyACM0" = Raise (NotImplementedError msg).
Proof.
  refine (proj1 (proj2 (proj2 port_path_by_platform)) "java" "ttyACM0" _ _);
    discriminate.
Defined.

(** ** Reading from the serial session *)

Ltac run_monad :=
  unfold bind, ret, raise, lift, emit, attr, ask, assign, set_self,
    set_incoming, set_rx, get_incoming, get_rx; simpl.

Lemma advanced_advanced (w : world) (i1 i2 : script) (r1 r2 : string)
    (t1 t2 : list event) :
  advanced (advanced w i1 r1 t1) i2 r2 t2 = advanced w i2 r2 (t1 ++ t2).
Proof. unfold advanced. simpl. now rewrite app_assoc. Qed.

Lemma advanced_same (w : world) :
  advanced w (incoming w) (rx w) [] = w.
Proof. destruct w. unfold advanced. simpl. now rewrite app_nil_r. Qed.

(** One turn of the loop when a chunk arrives. *)
Lemma read_until_loop_data (fuel : nat) (token : string) (timeout : Z)
    (buff : string) (w : world) (d : string) (rest : script) :
  serial (self w) = QPort true ->
  incoming w = Some d :: rest ->
  read_until_loop (S fuel) token timeout buff w =
    let w1 := advanced w rest "" [EvWait timeout true; EvReadAll (rx w ++ d)] in
    if bytes_in token (buff ++ rx w ++ d) then (Ok PyNone, w1)
    else read_until_loop fuel token timeout (buff ++ rx w ++ d) w1.
Proof.
  destruct w as [a h inc pending tr]. simpl. intros Hs ->.
  unfold waitForReadyRead, readAll. run_monad. rewrite Hs. simpl.
  unfold advanced. simpl. rewrite <- app_assoc. simpl.
  destruct (bytes_in token (buff ++ pending ++ d)); reflexivity.
Qed.

(** One turn of the loop when the wait times out. *)
Lemma read_until_loop_quiet (fuel : nat) (token : string) (timeout : Z)
    (buff : string) (w : world) (tail : script) :
  serial (self w) = QPort true ->
  incoming w = tail ->
  tail = [] \/ (exists r, tail = None :: r) ->
  read_until_loop (S fuel) token timeout buff w =
    (Raise (TimeoutError "waitForReadyRead method timeout"),
     advanced w (tl tail) (rx w) [EvWait timeout false]).
Proof.
  destruct w as [a h inc pending tr]. simpl. intros Hs -> Ht.
  unfold waitForReadyRead. run_monad. rewrite Hs.
  destruct Ht as [-> | [r ->]]; reflexivity.
Qed.

Lemma read_until_loop_completes (chunks : list string) :
  forall (fuel : nat) (token : string) (timeout : Z) (buff : string)
         (w : world) (tail : script),
    serial (self w) = QPort true ->
    incoming w = (map Some chunks ++ tail)%list ->
    (List.length chunks <= fuel)%nat ->
    completes token (buff ++ rx w) chunks = true ->
    read_until_loop fuel token timeout buff w =
      (Ok PyNone, advanced w tail "" (read_events timeout (rx w) chunks)).
Proof.
  induction chunks as [|d rest IH]; intros fuel token timeout buff w tail Hs Hi Hf Hc.
  - discriminate.
  - destruct fuel as [|fuel]; [simpl in Hf; lia |].
    assert (Hi' : incoming w = Some d :: (map Some rest ++ tail)%list) by exact Hi.
    rewrite (read_until_loop_data fuel token timeout buff w Hs Hi').
    cbv zeta.
    destruct rest as [|d' rest'].
    + simpl in Hc. rewrite append_assoc in Hc. rewrite Hc. reflexivity.
    + change (completes token (buff ++ rx w) (d :: d' :: rest'))
        with (negb (bytes_in token ((buff ++ rx w) ++ d))
              && completes token ((buff ++ rx w) ++ d) (d' :: rest')) in Hc.
      rewrite append_assoc in Hc.
      apply andb_true_iff in Hc. destruct Hc as [Hn Hc].
      apply negb_true_iff in Hn. rewrite Hn.
      erewrite (IH fuel token timeout _ _ tail).
      * rewrite advanced_advanced. reflexivity.
      * exact Hs.
      * reflexivity.
      * simpl in Hf |- *. lia.
      * simpl rx. rewrite append_nil_r. exact Hc.
Qed.

Lemma read_until_loop_silent (chunks : list string) :
  forall (fuel : nat) (token : string) (timeout : Z) (buff : string)
         (w : world) (tail : script),
    serial (self w) = QPort true ->
    incoming w = (map Some chunks ++ tail)%list ->
    tail = [] \/ (exists r, tail = None :: r) ->
    (List.length chunks < fuel)%nat ->
    bytes_in token (accumulated (buff ++ rx w) chunks) = false ->
    read_until_loop fuel token timeout buff w =
      (Raise (TimeoutError "waitForReadyRead method timeout"),
       advanced w (tl tail) (match chunks with [] => rx w | _ => "" end)
         (read_events timeout (rx w) chunks ++ [EvWait timeout false])).
Proof.
  induction chunks as [|d rest IH]; intros fuel token timeout buff w tail Hs Hi Ht Hf Hc.
  - destruct fuel as [|fuel]; [simpl in Hf; lia |].
    now apply read_until_loop_quiet.
  - destruct fuel as [|fuel]; [simpl in Hf; lia |].
    assert (Hi' : incoming w = Some d :: (map Some rest ++ tail)%list) by exact Hi.
    rewrite (read_until_loop_data fuel token timeout buff w Hs Hi').
    cbv zeta. unfold accumulated in Hc. simpl in Hc.
    assert (Hd : bytes_in token (buff ++ rx w ++ d) = false).
    { apply bytes_in_app_false with (b := fold_right append "" rest).
      now rewrite <- !append_assoc in Hc |- *. }
    rewrite Hd.
    erewrite (IH fuel token timeout _ _ tail).
    + rewrite advanced_advanced. simpl rx.
      f_equal. f_equal. destruct rest; reflexivity.
    + exact Hs.
    + reflexivity.
    + exact Ht.
    + simpl in Hf. lia.
    + simpl rx. rewrite append_nil_r. unfold accumulated.
      now rewrite <- !append_assoc in Hc |- *.
Qed.

(** The fuel [read_until] starts its loop with is never used up. *)
Lemma read_until_loop_fuel_enough (fuel : nat) :
  forall (token : string) (timeout : Z) (buff : string) (w : world),
    (List.length (incoming w) < fuel)%nat ->
    fst (read_until_loop fuel token timeout buff w)
    <> Raise (Exception "out of fuel").
Proof.
  induction fuel as [|fuel IH]; intros token timeout buff w Hf; [lia |].
  destruct (serial (self w)) as [| |[|]] eqn:Hs.
  - simpl. unfold waitForReadyRead. run_monad. rewrite Hs. discriminate.
  - simpl. unfold waitForReadyRead. run_monad. rewrite Hs. discriminate.
  - destruct (incoming w) as [|[d|] rest] eqn:Hi.
    + rewrite (@read_until_loop_quiet fuel token timeout buff w [] Hs Hi)
        by now left.
      discriminate.
    + rewrite (read_until_loop_data fuel token timeout buff w Hs Hi).
      cbv zeta. destruct (bytes_in token (buff ++ rx w ++ d)); [discriminate |].
      apply IH. simpl in Hf |- *. lia.
    + rewrite (@read_until_loop_quiet fuel token timeout buff w (None :: rest)
                 Hs Hi) by (right; now exists rest).
      discriminate.
  - simpl. unfold waitForReadyRead. run_monad. rewrite Hs. discriminate.
Qed.

Lemma read_until_unfold (token : string) (timeout : Z) (w : world) :
  read_until token timeout w =
  read_until_loop (S (List.length (incoming w))) token timeout "" w.
Proof. reflexivity. Qed.

Lemma read_until_total (token : string) (timeout : Z) (w : world) :
  fst (read_until token timeout w) <> Raise (Exception "out of fuel").
Proof.
  rewrite read_until_unfold. apply read_until_loop_fuel_enough. lia.
Qed.

Lemma read_until_completes (token : string) (timeout : Z) (w : world)
    (chunks : list string) (tail : script) :
  serial (self w) = QPort true ->
  incoming w = (map Some chunks ++ tail)%list ->
  completes token (rx w) chunks = true ->
  read_until token timeout w =
    (Ok PyNone, advanced w tail "" (read_events timeout (rx w) chunks)).
Proof.
  intros Hs Hi Hc. rewrite read_until_unfold.
  apply read_until_loop_completes; try assumption.
  rewrite Hi, length_app, length_map. lia.
Qed.

Lemma read_until_silent (token : string) (timeout : Z) (w : world)
    (chunks : list string) (tail : script) :
  serial (self w) = QPort true ->
  incoming w = (map Some chunks ++ tail)%list ->
  tail = [] \/ (exists r, tail = None :: r) ->
  bytes_in token (accumulated (rx w) chunks) = false ->
  read_until token timeout w =
    (Raise (TimeoutError "waitForReadyRead method timeout"),
     advanced w (tl tail) (match chunks with [] => rx w | _ => "" end)
       (read_events timeout (rx w) chunks ++ [EvWait timeout false])).
Proof.
  intros Hs Hi Ht Hc. rewrite read_until_unfold.
  apply read_until_loop_silent; try assumption.
  rewrite Hi, length_app, length_map. lia.
Qed.

(** When the token is somewhere in the accumulated bytes, some chunk is
    the first to complete it. *)
Lemma completes_exists (token : string) (chunks : list string) :
  forall buff,
    chunks <> [] ->
    bytes_in token (accumulated buff chunks) = true ->
    exists k, (1 <= k <= List.length chunks)%nat /\
              completes token buff (firstn k chunks) = true.
Proof.
  induction chunks as [|d rest IH]; intros buff Hne Hc; [congruence |].
  destruct (bytes_in token (buff ++ d)) eqn:Hd.
  - exists 1%nat. split; [simpl; lia | simpl; exact Hd].
  - destruct rest as [|d' rest'].
    + unfold accumulated in Hc. simpl in Hc. rewrite append_nil_r in Hc. congruence.
    + destruct (IH (buff ++ d)) as [k [Hk Hck]]; [discriminate | |].
      * unfold accumulated in Hc |- *. simpl in Hc |- *.
        now rewrite append_assoc.
      * exists (S k). split; [simpl in Hk |- *; lia |].
        destruct k as [|k]; [lia |].
        change (firstn (S (S k)) (d :: d' :: rest'))
          with (d :: d' :: firstn k rest').
        change (firstn (S k) (d' :: rest')) with (d' :: firstn k rest') in Hck.
        change (completes token buff (d :: d' :: firstn k rest'))
          with (negb (bytes_in token (buff ++ d))
                && completes token (buff ++ d) (d' :: firstn k rest')).
        now rewrite Hd, Hck.
Qed.

Lemma completes_spec (token : string) (chunks : list string) :
  forall buff,
    completes token buff chunks = true ->
    bytes_in token (accumulated buff chunks) = true
    /\ forall j, (1 <= j < List.length chunks)%nat ->
                 bytes_in token (accumulated buff (firstn j chunks)) = false.
Proof.
  induction chunks as [|d rest IH]; intros buff Hc; [discriminate |].
  destruct rest as [|d' rest'].
  - simpl in Hc. split.
    + unfold accumulated. simpl. now rewrite append_nil_r.
    + intros j Hj. simpl in Hj. lia.
  - change (completes token buff (d :: d' :: rest'))
      with (negb (bytes_in token (buff ++ d))
            && completes token (buff ++ d) (d' :: rest')) in Hc.
    apply andb_true_iff in Hc. destruct Hc as [Hn Hc].
    apply negb_true_iff in Hn.
    destruct (IH (buff ++ d) Hc) as [H1 H2]. split.
    + unfold accumulated in H1 |- *. simpl in H1 |- *.
      now rewrite <- append_assoc.
    + intros j Hj. destruct j as [|j]; [lia |].
      destruct j as [|j].
      * unfold accumulated. simpl. now rewrite append_nil_r.
      * specialize (H2 (S j)).
        unfold accumulated in H2 |- *.
        change (firstn (S (S j)) (d :: d' :: rest'))
          with (d :: firstn (S j) (d' :: rest')).
        simpl fold_right. rewrite <- append_assoc. apply H2.
        simpl in Hj |- *. lia.
Qed.

(** C1, as the code has it. [read_until] appends what it reads to a
    buffer and stops at the first read after which the buffer holds
    [token] as a contiguous slice: it then hands back [None], not the
    buffer, having taken from the device exactly the chunks up to that
    read. When a wait reports no data before the buffer holds [token], it
    raises [TimeoutError], however many chunks without the token arrived
    before. *)
Theorem read_until_breaks_on_token (token : string) (timeout : Z)
    (w : world) (chunks : list string) (tail : script) :
  serial (self w) = QPort true ->
  incoming w = (map Some chunks ++ tail)%list ->
  (chunks <> [] ->
   Substring token (accumulated (rx w) chunks) ->
   exists k,
     (1 <= k <= List.length chunks)%nat
     /\ read_until token timeout w =
          (Ok PyNone,
           advanced w (map Some (skipn k chunks) ++ tail)%list ""
             (read_events timeout (rx w) (firstn k chunks)))
     /\ Substring token (accumulated (rx w) (firstn k chunks))
     /\ forall j, (1 <= j < k)%nat ->
                  ~ Substring token (accumulated (rx w) (firstn j chunks)))
  /\ (~ Substring token (accumulated (rx w) chunks) ->
      tail = [] \/ (exists r, tail = None :: r) ->
      read_until token timeout w =
        (Raise (TimeoutError "waitForReadyRead method timeout"),
         advanced w (tl tail) (match chunks with [] => rx w | _ => "" end)
           (read_events timeout (rx w) chunks ++ [EvWait timeout false]))).
Proof.
  intros Hs Hi. split.
  - intros Hne Hsub. apply bytes_in_iff in Hsub.
    destruct (completes_exists token (rx w) Hne Hsub) as [k [Hk Hc]].
    exists k. split; [exact Hk |].
    destruct (completes_spec _ _ _ Hc) as [H1 H2].
    split; [| split].
    + apply read_until_completes; try assumption.
      rewrite Hi, app_assoc, <- map_app, firstn_skipn. reflexivity.
    + now apply bytes_in_iff.
    + intros j Hj. apply bytes_in_false_iff.
      specialize (H2 j). rewrite length_firstn, firstn_firstn in H2.
      replace (Nat.min j k) with j in H2 by lia. apply H2. lia.
  - intros Hn Ht. apply read_until_silent; try assumption.
    now apply bytes_in_false_iff.
Qed.

Lemma read_until_breaks_on_token_witness :
  exists k,
    (1 <= k <= 3)%nat
    /\ fst (read_until prompt 5000
              (world_of linked good_host [Some ">>"; Some "> "; Some "x"; None]))
       = Ok PyNone
    /\ Substring prompt (accumulated "" (firstn k [">>"; "> "; "x"])).
Proof.
  destruct (proj1 (@read_until_breaks_on_token prompt 5000
                     (world_of linked good_host
                        [Some ">>"; Some "> "; Some "x"; None])
                     [">>"; "> "; "x"] [None] eq_refl eq_refl))
    as [k [Hk [Hr [Hs _]]]].
  - discriminate.
  - apply bytes_in_iff. reflexivity.
  - exists k. split; [exact Hk |]. split; [| exact Hs].
    rewrite Hr. reflexivity.
Defined.

(** C1 as stated fails: on a device that sends the prompt, [read_until]
    hands back [None] and no buffer. *)
Lemma read_until_hands_back_no_buffer :
  fst (read_until prompt default_timeout
         (world_of linked good_host [Some prompt])) = Ok PyNone
  /\ ~ (exists buff,
          fst (read_until prompt default_timeout
                 (world_of linked good_host [Some prompt]))
          = Ok (PyBytes buff)).
Proof.
  split; [reflexivity |]. intros [buff H]. vm_compute in H. discriminate.
Qed.

(** ** Reboot handshake *)

Lemma bind_ok {A B} (m : M A) (k : A -> M B) (w w' : world) (a : A) :
  m w = (Ok a, w') -> bind m k w = k a w'.
Proof. intros H. unfold bind. now rewrite H. Qed.

Lemma bind_raise {A B} (m : M A) (k : A -> M B) (w w' : world) (e : exn) :
  m w = (Raise e, w') -> bind m k w = (Raise e, w').
Proof. intros H. unfold bind. now rewrite H. Qed.

Lemma emit_advanced (e : event) (w : world) :
  emit e w = (Ok tt, advanced w (incoming w) (rx w) [e]).
Proof. reflexivity. Qed.

Lemma write_advanced (d : string) (w : world) (b : bool) :
  serial (self w) = QPort b ->
  write d w = (Ok tt, advanced w (incoming w) (rx w) [EvWrite d]).
Proof. intros H. unfold write. run_monad. now rewrite H. Qed.



Lemma completes_nonempty (token buff : string) (chunks : list string) :
  completes token buff chunks = true -> chunks <> [].
Proof. destruct chunks; [discriminate | discriminate]. Qed.

Ltac step_write :=
  erewrite bind_ok by (eapply write_advanced; simpl; eassumption);
  rewrite ?advanced_advanced; simpl incoming; simpl rx.

Ltac step_emit :=
  erewrite bind_ok by apply emit_advanced;
  rewrite ?advanced_advanced; simpl incoming; simpl rx.

(** [reboot] up to its last read, on a device that sends the prompt. *)
Lemma reboot_until_last_read (w : world) (c1 : list string) (rest : script) :
  serial (self w) = QPort true ->
  rx w = "" ->
  completes prompt "" c1 = true ->
  incoming w = (map Some c1 ++ rest)%list ->
  reboot w =
    bind (read_until ready_marker default_timeout) (fun _ => ret tt)
      (advanced w rest ""
         ([EvWrite ctrl_C] ++ read_events default_timeout "" c1 ++ paste_reset)).
Proof.
  intros Hs Hrx Hc Hi. unfold reboot.
  step_write.
  erewrite bind_ok
    by (apply read_until_completes with (chunks := c1) (tail := rest);
        simpl; [exact Hs | exact Hi | now rewrite Hrx]).
  rewrite advanced_advanced. simpl rx. rewrite Hrx.
  step_write. step_write. step_emit. step_write. step_emit. step_write.
  unfold paste_reset. rewrite <- !app_assoc. reflexivity.
Qed.

(** [reboot] on a device that sends the prompt, then the ready marker. *)
Lemma reboot_completes (w : world) (c1 c2 : list string) (tail : script) :
  serial (self w) = QPort true ->
  rx w = "" ->
  completes prompt "" c1 = true ->
  completes ready_marker "" c2 = true ->
  incoming w = (map Some (c1 ++ c2) ++ tail)%list ->
  reboot w = (Ok tt, advanced w tail "" (handshake_events c1 c2)).
Proof.
  intros Hs Hrx Hc1 Hc2 Hi.
  rewrite (@reboot_until_last_read w c1 (map Some c2 ++ tail)%list
             Hs Hrx Hc1)
    by (rewrite Hi, !map_app, <- !app_assoc; reflexivity).
  erewrite bind_ok
    by (apply read_until_completes with (chunks := c2) (tail := tail);
        simpl; [exact Hs | reflexivity | exact Hc2]).
  rewrite advanced_advanced. unfold ret, handshake_events. simpl rx.
  rewrite <- !app_assoc. reflexivity.
Qed.

(** [reboot_and_prompt] on a device that sends the prompt, the ready
    marker and the prompt again. *)
Lemma reboot_and_prompt_completes (w : world) (c1 c2 c3 : list string)
    (tail : script) :
  serial (self w) = QPort true ->
  rx w = "" ->
  completes prompt "" c1 = true ->
  completes ready_marker "" c2 = true ->
  completes prompt "" c3 = true ->
  incoming w = (map Some (c1 ++ c2 ++ c3) ++ tail)%list ->
  reboot_and_prompt w =
    (Ok tt,
     advanced w tail ""
       (handshake_events c1 c2 ++ [EvWrite ctrl_C]
        ++ read_events default_timeout "" c3)).
Proof.
  intros Hs Hrx Hc1 Hc2 Hc3 Hi.
  unfold reboot_and_prompt.
  erewrite bind_ok
    by (apply reboot_completes with (c1 := c1) (c2 := c2)
                                    (tail := (map Some c3 ++ tail)%list);
        try assumption;
        rewrite Hi, !map_app, <- !app_assoc; reflexivity).
  step_write.
  erewrite bind_ok
    by (apply read_until_completes with (chunks := c3) (tail := tail);
        simpl; [exact Hs | reflexivity | exact Hc3]).
  rewrite advanced_advanced. unfold ret. simpl rx.
  rewrite <- !app_assoc. reflexivity.
Qed.



(** ** Flash sequence *)

Lemma handshake_only_ret {A} (a : A) : handshake_only (ret a).
Proof.
  intros w. exists (Ok a), (incoming w), (rx w), [].
  split; [unfold ret; now rewrite advanced_same | reflexivity].
Qed.

Lemma handshake_only_raise {A} (e : exn) : handshake_only (@raise A e).
Proof.
  intros w. exists (Raise e), (incoming w), (rx w), [].
  split; [unfold raise; now rewrite advanced_same | reflexivity].
Qed.

Lemma handshake_only_bind {A B} (m : M A) (k : A -> M B) :
  handshake_only m -> (forall a, handshake_only (k a)) ->
  handshake_only (bind m k).
Proof.
  intros Hm Hk w. destruct (Hm w) as [r [inc [pend [tr [E F]]]]].
  destruct r as [a|e].
  - destruct (Hk a (advanced w inc pend tr)) as [r' [inc' [pend' [tr' [E' F']]]]].
    exists r', inc', pend', (tr ++ tr')%list. split.
    + rewrite (bind_ok _ _ _ E), E'. now rewrite advanced_advanced.
    + rewrite forallb_app, F, F'. reflexivity.
  - exists (Raise e), inc, pend, tr. split; [now apply bind_raise | exact F].
Qed.

Lemma handshake_only_emit (e : event) :
  is_handshake e = true -> handshake_only (emit e).
Proof.
  intros H w. exists (Ok tt), (incoming w), (rx w), [e].
  split; [reflexivity | simpl; now rewrite H].
Qed.

Lemma handshake_only_write (d : string) : handshake_only (write d).
Proof.
  intros w. unfold write. run_monad.
  destruct (serial (self w)).
  - exists (Raise (AttributeError "write")), (incoming w), (rx w), [].
    split; [now rewrite advanced_same | reflexivity].
  - exists (Raise (AttributeError "write")), (incoming w), (rx w), [].
    split; [now rewrite advanced_same | reflexivity].
  - exists (Ok tt), (incoming w), (rx w), [EvWrite d]. split; reflexivity.
Qed.

Lemma handshake_only_wait (timeout : Z) : handshake_only (waitForReadyRead timeout).
Proof.
  intros w. unfold waitForReadyRead. run_monad.
  destruct (serial (self w)) as [| |[|]].
  - exists (Raise (AttributeError "waitForReadyRead")), (incoming w), (rx w), [].
    split; [now rewrite advanced_same | reflexivity].
  - exists (Raise (AttributeError "waitForReadyRead")), (incoming w), (rx w), [].
    split; [now rewrite advanced_same | reflexivity].
  - destruct (incoming w) as [|[d|] rest] eqn:Hi.
    + exists (Ok false), [], (rx w), [EvWait timeout false].
      split; [unfold advanced; now rewrite Hi | reflexivity].
    + exists (Ok true), rest, (rx w ++ d), [EvWait timeout true].
      split; reflexivity.
    + exists (Ok false), rest, (rx w), [EvWait timeout false].
      split; reflexivity.
  - exists (Ok false), (incoming w), (rx w), [EvWait timeout false].
    split; reflexivity.
Qed.

Lemma handshake_only_readAll : handshake_only readAll.
Proof.
  intros w. exists (Ok (rx w)), (incoming w), "", [EvReadAll (rx w)].
  split; reflexivity.
Qed.

Lemma handshake_only_read_until_loop (fuel : nat) :
  forall token timeout buff,
    handshake_only (read_until_loop fuel token timeout buff).
Proof.
  induction fuel as [|fuel IH]; intros token timeout buff; simpl.
  - apply handshake_only_raise.
  - apply handshake_only_bind; [apply handshake_only_wait |].
    intros [|]; simpl.
    + apply handshake_only_bind; [apply handshake_only_readAll |].
      intros data. destruct (bytes_in token (buff ++ data)).
      * apply handshake_only_ret.
      * apply IH.
    + apply handshake_only_raise.
Qed.

Lemma handshake_only_read_until (token : string) (timeout : Z) :
  handshake_only (read_until token timeout).
Proof.
  intros w. apply (handshake_only_read_until_loop
                     (S (List.length (incoming w))) token timeout "" w).
Qed.

Ltac handshake_auto :=
  repeat first
    [ apply handshake_only_write
    | apply handshake_only_read_until
    | apply handshake_only_ret
    | apply handshake_only_emit; reflexivity
    | apply handshake_only_bind; [| intros ?] ].

Lemma handshake_only_reboot : handshake_only reboot.
Proof. unfold reboot. handshake_auto. Qed.

Lemma handshake_only_reboot_and_prompt : handshake_only reboot_and_prompt.
Proof.
  unfold reboot_and_prompt.
  apply handshake_only_bind; [apply handshake_only_reboot | intros ?].
  handshake_auto.
Qed.

(** With the link at hand, the first call of [reboot] is the write of
    0x03. *)
Lemma reboot_starts_with_write (w : world) (b : bool) :
  serial (self w) = QPort b ->
  exists r inc pending tr,
    reboot w = (r, advanced w inc pending (EvWrite ctrl_C :: tr))
    /\ forallb is_handshake tr = true.
Proof.
  intros Hs.
  assert (Hrest : handshake_only
            (_ <- read_until prompt default_timeout ;;
             write ctrl_A ;; write ("import machine" ++ CRLF) ;; emit EvSleep ;;
             write ("machine.reset()" ++ CRLF) ;; emit EvSleep ;;
             write ctrl_D ;;
             _ <- read_until ready_marker default_timeout ;; ret tt))
    by handshake_auto.
  destruct (Hrest (advanced w (incoming w) (rx w) [EvWrite ctrl_C]))
    as [r [inc [pend [tr [E F]]]]].
  exists r, inc, pend, tr. split; [| exact F].
  unfold reboot. erewrite bind_ok by (eapply write_advanced; exact Hs).
  rewrite E, advanced_advanced. reflexivity.
Qed.

Lemma reboot_and_prompt_starts_with_write (w : world) (b : bool) :
  serial (self w) = QPort b ->
  exists r inc pending tr,
    reboot_and_prompt w = (r, advanced w inc pending (EvWrite ctrl_C :: tr))
    /\ forallb is_handshake tr = true.
Proof.
  intros Hs.
  destruct (reboot_starts_with_write w Hs) as [r [inc [pend [tr [E F]]]]].
  unfold reboot_and_prompt. destruct r as [[]|e].
  - assert (Hrest : handshake_only
              (write ctrl_C ;; _ <- read_until prompt default_timeout ;; ret tt))
      by handshake_auto.
    destruct (Hrest (advanced w inc pend (EvWrite ctrl_C :: tr)))
      as [r' [inc' [pend' [tr' [E' F']]]]].
    exists r', inc', pend', (tr ++ tr')%list. split.
    + rewrite (bind_ok _ _ _ E), E', advanced_advanced. reflexivity.
    + now rewrite forallb_app, F, F'.
  - exists (Raise e), inc, pend, tr. split; [| exact F].
    now apply bind_raise.
Qed.

Lemma flash_run_cons (p : phase) (e : event) (tr : list event) :
  flash_run p (e :: tr) =
  match flash_step p e with
  | Some q => flash_run q tr
  | None => None
  end.
Proof. reflexivity. Qed.

Lemma flash_run_app (p : phase) (a b : list event) :
  flash_run p (a ++ b) =
  match flash_run p a with
  | Some q => flash_run q b
  | None => None
  end.
Proof.
  revert p. induction a as [|e a IH]; intros p; [reflexivity |].
  rewrite <- app_comm_cons, !flash_run_cons.
  destruct (flash_step p e); [apply IH | reflexivity].
Qed.

Lemma flash_step_handshake (p : phase) (e : event) :
  is_handshake e = true ->
  (p = PPersist \/ p = PHandshake -> flash_step p e = Some PHandshake)
  /\ (p = PRecord \/ p = PReboot -> flash_step p e = Some PReboot).
Proof.
  intros H. destruct e; try discriminate; split; intros [-> | ->]; reflexivity.
Qed.

Lemma flash_run_handshake (tr : list event) :
  forallb is_handshake tr = true ->
  flash_run PHandshake tr = Some PHandshake
  /\ flash_run PReboot tr = Some PReboot.
Proof.
  induction tr as [|e tr IH]; intros H; [split; reflexivity |].
  simpl in H. apply andb_true_iff in H. destruct H as [He Ht].
  destruct (flash_step_handshake PHandshake e He) as [H1 _].
  destruct (flash_step_handshake PReboot e He) as [_ H2].
  rewrite !flash_run_cons, H1, H2 by auto. now apply IH.
Qed.

Ltac flash_head :=
  rewrite flash_run_cons; simpl flash_step; cbv beta iota.

Ltac close_follows :=
  split; [reflexivity | simpl; rewrite <- ?app_assoc; simpl; reflexivity].

Lemma flash_open_spec (w : world) :
  exists b w1 tr,
    flash_open w = (Ok b, w1)
    /\ follows w w1 tr
    /\ incoming w1 = incoming w /\ rx w1 = rx w
    /\ if b then serial (self w1) = QPort true
                 /\ flash_run PStart tr = Some POpen
       else flash_run PStart tr = Some PNotOpened.
Proof.
  unfold flash_open, try_except, self_find_device, open_serial_link,
    setPortName, qserial_open, qserial_close, setDataTerminalReady,
    isDataTerminalReady, load_global, pyserial_set_dtr, show_message.
  run_monad.
  destruct (Locator.find_device (os_name (env w)) valid_boards
              (available_ports (env w))) as [[[p|] sn]|e]; simpl.
  - destruct (port_opens (env w)); simpl.
    + destruct (dtr_effective (env w)); simpl.
      * eexists true, _, _. split; [reflexivity |].
        split; [close_follows |]. repeat split.
      * eexists false, _, _. split; [reflexivity |].
        split; [close_follows |]. repeat split.
    + eexists false, _, _. split; [reflexivity |].
      split; [close_follows |]. repeat split.
  - eexists false, _, _. split; [reflexivity |].
    split; [close_follows |]. repeat split.
  - eexists false, _, _. split; [reflexivity |].
    split; [close_follows |]. repeat split.
Qed.

Lemma follows_trans (w w1 w2 : world) (t1 t2 : list event) :
  follows w w1 t1 -> follows w1 w2 t2 -> follows w w2 (t1 ++ t2).
Proof.
  intros [E1 L1] [E2 L2]. split; [congruence |].
  now rewrite L2, L1, app_assoc.
Qed.

Lemma flash_save_spec (w : world) :
  serial (self w) = QPort true ->
  exists r w2 tr,
    flash_save w = (Ok r, w2)
    /\ follows w w2 tr
    /\ incoming w2 = incoming w /\ rx w2 = rx w
    /\ match r with
       | Some _ => serial (self w2) = QPort true
                   /\ flash_run POpen tr = Some PPersist
       | None => serial (self w2) = NoneValue
                 /\ flash_run POpen tr = Some PClosed
       end.
Proof.
  intros Hs.
  unfold flash_save, try_except, save, close_serial_link, critical.
  run_monad.
  destruct (dialog_choice (env w)) as [reg|]; simpl.
  - destruct (current_tab (env w)) as [[text nl]|]; simpl.
    + destruct (save_and_encode (env w) text _ nl) as [[]|e]; simpl.
      * eexists (Some _), _, _. split; [reflexivity |].
        split; [close_follows |]. repeat split. exact Hs.
      * rewrite Hs. simpl. eexists None, _, _. split; [reflexivity |].
        split; [close_follows |]. repeat split.
    + rewrite Hs. simpl. eexists None, _, _. split; [reflexivity |].
      split; [close_follows |]. repeat split.
  - rewrite Hs. simpl. eexists None, _, _. split; [reflexivity |].
    split; [close_follows |]. repeat split.
Qed.

Lemma flash_reboot_spec (w : world) :
  serial (self w) = QPort true ->
  exists b w3 tr,
    flash_reboot w = (Ok b, w3)
    /\ follows w w3 tr
    /\ if b then serial (self w3) = QPort true
                 /\ flash_run PPersist tr = Some PHandshake
       else serial (self w3) = NoneValue
            /\ flash_run PPersist tr = Some PClosed.
Proof.
  intros Hs.
  destruct (reboot_and_prompt_starts_with_write w Hs)
    as [r [inc [pend [tr [E F]]]]].
  unfold flash_reboot, try_except, bind. rewrite E.
  destruct (flash_run_handshake tr F) as [Hh _].
  destruct r as [[]|e].
  - eexists true, _, _. split; [reflexivity |].
    split; [split; reflexivity |]. split; [exact Hs |].
    rewrite flash_run_cons. exact Hh.
  - unfold critical, close_serial_link. run_monad. rewrite Hs. simpl.
    eexists false, _, _. split; [reflexivity |].
    split; [close_follows |]. split; [reflexivity |].
    flash_head. rewrite flash_run_app, Hh. reflexivity.
Qed.

Lemma flash_upload_spec (usr_file : string) (w : world) :
  serial (self w) = QPort true ->
  exists b w4 tr,
    flash_upload usr_file w = (Ok b, w4)
    /\ follows w w4 tr
    /\ if b then serial (self w4) = QPort true
                 /\ flash_run PHandshake tr = Some PUpload
       else serial (self w4) = NoneValue
            /\ flash_run PHandshake tr = Some PClosed.
Proof.
  intros Hs.
  unfold flash_upload, try_except, upload, sbfs_put_call, critical,
    close_serial_link.
  run_monad.
  destruct (fst (sbfs_put (env w) usr_file _ (incoming w))) as [[]|e]; simpl.
  - eexists true, _, _. split; [reflexivity |].
    split; [close_follows |]. split; [exact Hs | reflexivity].
  - rewrite Hs. simpl. eexists false, _, _. split; [reflexivity |].
    split; [close_follows |]. split; reflexivity.
Qed.

Lemma flash_restart_spec (reg_num : string) (w : world) :
  serial (self w) = QPort true ->
  exists b w5 tr,
    flash_restart reg_num w = (Ok b, w5)
    /\ follows w w5 tr
    /\ if b then serial (self w5) = QPort true
                 /\ flash_run PUpload tr = Some PReboot
       else serial (self w5) = NoneValue
            /\ flash_run PUpload tr = Some PClosed.
Proof.
  intros Hs.
  unfold flash_restart, try_except, restart, sbfs_execute_call, critical,
    close_serial_link.
  run_monad.
  destruct (fst (sbfs_execute (env w) _ (incoming w))) as [[]|e]; simpl.
  - match goal with
    | |- context [reboot ?w1] =>
        destruct (@reboot_starts_with_write w1 true Hs)
          as [r [inc [pend [tr [E F]]]]];
        rewrite E
    end.
    destruct (flash_run_handshake tr F) as [_ Hh].
    destruct r as [[]|e]; simpl.
    + eexists true, _, _. split; [reflexivity |].
      split; [close_follows |]. split; [exact Hs |].
      do 2 flash_head. exact Hh.
    + rewrite Hs. simpl. eexists false, _, _. split; [reflexivity |].
      split; [close_follows |]. split; [reflexivity |].
      do 2 flash_head.
      rewrite flash_run_app, Hh. reflexivity.
  - rewrite Hs. simpl. eexists false, _, _. split; [reflexivity |].
    split; [close_follows |]. split; reflexivity.
Qed.

(** Every run of [toggle_flash] is a path of [flash_step]. *)
Lemma toggle_flash_accepted (w : world) :
  exists w' tr p,
    toggle_flash w = (Ok tt, w')
    /\ follows w w' tr
    /\ flash_run PStart tr = Some p
    /\ ((p = PClosed /\ serial (self w') = NoneValue) \/ p = PNotOpened).
Proof.
  unfold toggle_flash.
  destruct (flash_open_spec w) as [b [w1 [t1 [E1 [F1 [_ [_ H1]]]]]]].
  rewrite (bind_ok _ _ _ E1). destruct b; cbn [negb]; cbv iota.
  2:{ exists w1, t1, PNotOpened. unfold ret. auto. }
  destruct H1 as [S1 R1].
  destruct (flash_save_spec w1 S1) as [r [w2 [t2 [E2 [F2 [_ [_ H2]]]]]]].
  rewrite (bind_ok _ _ _ E2).
  assert (F12 : follows w w2 (t1 ++ t2)) by (eapply follows_trans; eauto).
  destruct r as [[reg file]|]; destruct H2 as [S2 R2].
  2:{ exists w2, (t1 ++ t2)%list, PClosed. unfold ret.
      repeat split; try apply F12; auto. now rewrite flash_run_app, R1. }
  destruct (flash_reboot_spec w2 S2) as [b3 [w3 [t3 [E3 [F3 H3]]]]].
  rewrite (bind_ok _ _ _ E3).
  assert (F13 : follows w w3 ((t1 ++ t2) ++ t3)) by (eapply follows_trans; eauto).
  destruct b3; cbn [negb]; cbv iota; destruct H3 as [S3 R3].
  2:{ exists w3, ((t1 ++ t2) ++ t3)%list, PClosed. unfold ret.
      repeat split; try apply F13; auto.
      now rewrite !flash_run_app, R1, R2. }
  destruct (flash_upload_spec file w3 S3) as [b4 [w4 [t4 [E4 [F4 H4]]]]].
  rewrite (bind_ok _ _ _ E4).
  assert (F14 : follows w w4 (((t1 ++ t2) ++ t3) ++ t4))
    by (eapply follows_trans; eauto).
  destruct b4; cbn [negb]; cbv iota; destruct H4 as [S4 R4].
  2:{ exists w4, (((t1 ++ t2) ++ t3) ++ t4)%list, PClosed. unfold ret.
      repeat split; try apply F14; auto.
      now rewrite !flash_run_app, R1, R2, R3. }
  destruct (flash_restart_spec reg w4 S4) as [b5 [w5 [t5 [E5 [F5 H5]]]]].
  rewrite (bind_ok _ _ _ E5).
  assert (F15 : follows w w5 ((((t1 ++ t2) ++ t3) ++ t4) ++ t5))
    by (eapply follows_trans; eauto).
  destruct b5; cbn [negb]; cbv iota; destruct H5 as [S5 R5].
  2:{ exists w5, ((((t1 ++ t2) ++ t3) ++ t4) ++ t5)%list, PClosed. unfold ret.
      repeat split; try apply F15; auto.
      now rewrite !flash_run_app, R1, R2, R3, R4. }
  unfold close_serial_link. run_monad. rewrite S5. simpl.
  eexists _, (((((t1 ++ t2) ++ t3) ++ t4) ++ t5)
              ++ [EvStatus "Transfer success"; EvClose])%list, PClosed.
  split; [reflexivity |]. split; [| split; [| left; split; reflexivity]].
  - destruct F15 as [Fe Fl]. split; simpl; [exact Fe |].
    rewrite Fl, <- !app_assoc. reflexivity.
  - now rewrite !flash_run_app, R1, R2, R3, R4, R5.
Qed.

Lemma flash_open_ok (w : world) (port : string) (sn : option string) :
  Locator.find_device (os_name (env w)) valid_boards (available_ports (env w))
    = Ok (Some port, sn) ->
  port_opens (env w) = true ->
  dtr_effective (env w) = true ->
  flash_open w =
    (Ok true,
     {| self := with_serial (QPort true) (self w); env := env w;
        incoming := incoming w; rx := rx w;
        log := log w ++ [EvSetPortName port; EvOpen true; EvSetDTR;
                         EvIsDTR true; EvSetBaudRate 115200] |}).
Proof.
  intros Hf Ho Hd.
  unfold flash_open, try_except, self_find_device, open_serial_link,
    setPortName, qserial_open, qserial_close, setDataTerminalReady,
    isDataTerminalReady, load_global, pyserial_set_dtr, show_message.
  run_monad. rewrite Hf. simpl. rewrite Ho. simpl. rewrite Hd. simpl.
  rewrite <- !app_assoc. reflexivity.
Qed.

Lemma flash_save_ok (w : world) (slot text nl : string) :
  dialog_choice (env w) = Some slot ->
  current_tab (env w) = Some (text, nl) ->
  save_and_encode (env w) text (staging_file (env w) slot) nl = Ok tt ->
  flash_save w =
    (Ok (Some (slot, staging_file (env w) slot)),
     advanced w (incoming w) (rx w)
       [EvDialog (Some slot); EvSave text (staging_file (env w) slot) nl]).
Proof.
  intros Hd Ht Hsave.
  unfold flash_save, try_except, save. run_monad.
  rewrite Hd. simpl. rewrite Ht. simpl.
  unfold staging_file in Hsave. simpl in Hsave. rewrite Hsave. simpl.
  unfold advanced, staging_file. rewrite <- !app_assoc. reflexivity.
Qed.

Lemma flash_reboot_ok (w : world) (c1 c2 c3 : list string) (tail : script) :
  serial (self w) = QPort true ->
  rx w = "" ->
  completes prompt "" c1 = true ->
  completes ready_marker "" c2 = true ->
  completes prompt "" c3 = true ->
  incoming w = (map Some (c1 ++ c2 ++ c3) ++ tail)%list ->
  flash_reboot w =
    (Ok true,
     advanced w tail ""
       (handshake_events c1 c2 ++ [EvWrite ctrl_C]
        ++ read_events default_timeout "" c3)).
Proof.
  intros Hs Hrx H1 H2 H3 Hi.
  unfold flash_reboot, try_except.
  rewrite (bind_ok _ _ _
             (@reboot_and_prompt_completes w c1 c2 c3 tail Hs Hrx H1 H2 H3 Hi)).
  reflexivity.
Qed.

Lemma flash_upload_ok (w : world) (file : string) (rest : script) :
  sbfs_put (env w) file ("usr/" ++ os_path_basename (os_name (env w)) file)
    (incoming w) = (Ok tt, rest) ->
  flash_upload file w =
    (Ok true,
     advanced w rest (rx w)
       [EvPut file ("usr/" ++ os_path_basename (os_name (env w)) file)]).
Proof.
  intros Hp.
  unfold flash_upload, try_except, upload, sbfs_put_call. run_monad.
  simpl in Hp. rewrite Hp. reflexivity.
Qed.

Lemma flash_restart_ok (w : world) (slot : string) (c1 c2 : list string)
    (tail : script) :
  serial (self w) = QPort true ->
  rx w = "" ->
  sbfs_execute (env w) (set_start_index slot) (incoming w)
    = (Ok tt, (map Some (c1 ++ c2) ++ tail)%list) ->
  completes prompt "" c1 = true ->
  completes ready_marker "" c2 = true ->
  flash_restart slot w =
    (Ok true,
     advanced w tail ""
       (EvExecute (set_start_index slot) :: handshake_events c1 c2)).
Proof.
  intros Hs Hrx He H1 H2.
  unfold flash_restart, try_except, restart, sbfs_execute_call.
  run_monad. simpl in He. rewrite He. simpl.
  erewrite (@reboot_completes _ c1 c2 tail); simpl; try eassumption;
    try reflexivity.
  unfold advanced. simpl. rewrite <- !app_assoc. reflexivity.
Qed.

Lemma last_char_app (a b : string) :
  b <> "" -> last_char (a ++ b) = last_char b.
Proof.
  intros Hb. induction a as [|c a IH]; [reflexivity |].
  unfold last_char in *. simpl.
  destruct (a ++ b) as [|d rest] eqn:E.
  - destruct a; simpl in E; [congruence | discriminate].
  - simpl in IH |- *. exact IH.
Qed.

Lemma eqb_app_nonempty (a b : string) : a <> "" -> String.eqb (a ++ b) "" = false.
Proof. intros H. destruct a; [congruence | reflexivity]. Qed.

(** The staging file on a POSIX host. *)
Lemma staging_file_pattern (h : host) (slot : string) :
  os_name h <> "nt" ->
  HOME_DIRECTORY h <> "" ->
  last_char (HOME_DIRECTORY h) <> "/" ->
  WORKSPACE_NAME h <> "" ->
  String.prefix "/" (WORKSPACE_NAME h) = false ->
  last_char (WORKSPACE_NAME h) <> "/" ->
  staging_file h slot =
    HOME_DIRECTORY h ++ "/" ++ WORKSPACE_NAME h ++ "/studuinobit/usr"
      ++ slot ++ ".py".
Proof.
  intros Hos Hh Hhl Hw Hwp Hwl. unfold staging_file, os_path_join.
  apply String.eqb_neq in Hos. rewrite Hos. unfold join. simpl fold_left.
  set (home := HOME_DIRECTORY h) in *. set (ws := WORKSPACE_NAME h) in *.
  assert (E1 : join2 home ws = home ++ "/" ++ ws).
  { unfold join2. rewrite Hwp.
    apply String.eqb_neq in Hh, Hhl. fold (last_char home).
    now rewrite Hh, Hhl. }
  rewrite E1.
  assert (E2 : join2 (home ++ "/" ++ ws) "studuinobit"
               = (home ++ "/" ++ ws) ++ "/" ++ "studuinobit").
  { unfold join2. simpl String.prefix. cbv iota.
    fold (last_char (home ++ "/" ++ ws)).
    rewrite eqb_app_nonempty by exact Hh.
    rewrite <- append_assoc, last_char_app by exact Hw.
    apply String.eqb_neq in Hwl. now rewrite Hwl. }
  rewrite E2.
  unfold join2. simpl String.prefix. cbv iota.
  fold (last_char ((home ++ "/" ++ ws) ++ "/" ++ "studuinobit")).
  rewrite eqb_app_nonempty
    by (intros E; destruct home; [congruence | discriminate]).
  rewrite <- append_assoc, last_char_app by discriminate.
  simpl orb. cbv iota. rewrite !append_assoc. reflexivity.
Qed.

(** The staging file on a Windows host whose home directory starts with
    a drive letter. *)
Lemma staging_file_pattern_nt (h : host) (slot : string) (d : ascii)
    (rest : string) :
  os_name h = "nt" ->
  HOME_DIRECTORY h = String d (String ":" rest) ->
  rest <> "" ->
  ends_with_sep rest = false ->
  WORKSPACE_NAME h <> "" ->
  has_sep (WORKSPACE_NAME h) = false ->
  ~ Substring ":" (WORKSPACE_NAME h) ->
  staging_file h slot =
    HOME_DIRECTORY h ++ "\" ++ WORKSPACE_NAME h ++ "\studuinobit\usr"
      ++ slot ++ ".py".
Proof.
  intros Hos Hh Hr Hre Hw Hws Hwc. unfold staging_file, os_path_join.
  rewrite Hos, Hh. cbn [String.eqb Ascii.eqb Bool.eqb].
  rewrite (nt_join_letter d rest slot Hws Hwc).
  assert (E1 : nt_glue rest = rest ++ "\").
  { unfold nt_glue, nonempty. apply String.eqb_neq in Hr.
    now rewrite Hr, Hre. }
  rewrite E1, (@nt_glue_name (rest ++ "\") _ Hw Hws).
  simpl. rewrite !append_assoc. reflexivity.
Qed.


(** *** A step of [toggle_flash] fails *)

Ltac unfold_open :=
  unfold flash_open, try_except, self_find_device, open_serial_link,
    setPortName, qserial_open, qserial_close, setDataTerminalReady,
    isDataTerminalReady, load_global, pyserial_set_dtr, show_message,
    port_after, not_found_report.

(** The four ways in which opening the session fails. *)
Lemma flash_open_fails (w : world) :
  (forall e,
      Locator.find_device (os_name (env w)) valid_boards
        (available_ports (env w)) = Raise e ->
      flash_open w =
        (Ok false, port_after w (serial (self w)) [not_found_report]))
  /\ (forall sn,
        Locator.find_device (os_name (env w)) valid_boards
          (available_ports (env w)) = Ok (None, sn) ->
        flash_open w =
          (Ok false,
           port_after w (QPort false)
             [EvSetPortName ""; EvOpen false; not_found_report]))
  /\ (forall port sn,
        Locator.find_device (os_name (env w)) valid_boards
          (available_ports (env w)) = Ok (Some port, sn) ->
        port_opens (env w) = false ->
        flash_open w =
          (Ok false,
           port_after w (QPort false)
             [EvSetPortName port; EvOpen false; not_found_report]))
  /\ (forall port sn,
        Locator.find_device (os_name (env w)) valid_boards
          (available_ports (env w)) = Ok (Some port, sn) ->
        port_opens (env w) = true ->
        dtr_effective (env w) = false ->
        flash_open w =
          (Ok false,
           port_after w (QPort false)
             [EvSetPortName port; EvOpen true; EvSetDTR; EvIsDTR false;
              EvClose; not_found_report])).
Proof.
  destruct w as [a h inc pend tr]. destruct a as [r p f s t].
  repeat split.
  - intros e H. simpl in H. unfold_open. run_monad. rewrite H. reflexivity.
  - intros sn H. simpl in H. unfold_open. run_monad. rewrite H. simpl.
    rewrite <- !app_assoc. reflexivity.
  - intros port sn H Ho. simpl in H, Ho. unfold_open. run_monad.
    rewrite H. simpl. rewrite Ho. simpl. rewrite <- !app_assoc. reflexivity.
  - intros port sn H Ho Hd. simpl in H, Ho, Hd. unfold_open. run_monad.
    rewrite H. simpl. rewrite Ho. simpl. rewrite Hd. simpl.
    rewrite <- !app_assoc. reflexivity.
Qed.

(** The three ways in which [flash_save] ends the run: the dialog is
    cancelled, there is no tab, or the buffer cannot be written. *)
Lemma flash_save_fails (w : world) (b : bool) :
  serial (self w) = QPort b ->
  (dialog_choice (env w) = None ->
   flash_save w =
     (Ok None, closed_after w (incoming w) (rx w) [EvDialog None; EvClose]))
  /\ (forall slot,
        dialog_choice (env w) = Some slot ->
        current_tab (env w) = None ->
        flash_save w =
          (Ok None,
           closed_after w (incoming w) (rx w)
             [EvDialog (Some slot); save_report; EvClose]))
  /\ (forall slot text nl e,
        dialog_choice (env w) = Some slot ->
        current_tab (env w) = Some (text, nl) ->
        save_and_encode (env w) text (staging_file (env w) slot) nl = Raise e ->
        flash_save w =
          (Ok None,
           closed_after w (incoming w) (rx w)
             [EvDialog (Some slot);
              EvSave text (staging_file (env w) slot) nl;
              save_report; EvClose])).
Proof.
  intros Hs. repeat split.
  - intros Hd. unfold flash_save, try_except, save, close_serial_link,
      critical, closed_after. run_monad. rewrite Hd. simpl. rewrite Hs. simpl.
    rewrite <- !app_assoc. reflexivity.
  - intros slot Hd Ht. unfold flash_save, try_except, save, close_serial_link,
      critical, closed_after, save_report. run_monad.
    rewrite Hd. simpl. rewrite Ht. simpl. rewrite Hs. simpl.
    rewrite <- !app_assoc. reflexivity.
  - intros slot text nl e Hd Ht Hsave.
    unfold flash_save, try_except, save, close_serial_link,
      critical, closed_after, save_report. run_monad.
    rewrite Hd. simpl. rewrite Ht. simpl.
    unfold staging_file in Hsave. simpl in Hsave. rewrite Hsave. simpl.
    rewrite Hs. simpl. unfold staging_file. simpl.
    rewrite <- !app_assoc. reflexivity.
Qed.

(** A handshake that raises is reported and ends the run; up to there
    the port was written to, waited for and read from, and nothing
    else. *)
Lemma flash_reboot_fails (w w3 : world) (e : exn) :
  serial (self w) = QPort true ->
  reboot_and_prompt w = (Raise e, w3) ->
  flash_reboot w =
    (Ok false,
     closed_after w3 (incoming w3) (rx w3) [reboot_report; EvClose])
  /\ exists tr,
       log w3 = (log w ++ tr)%list /\ forallb is_handshake tr = true.
Proof.
  intros Hs H.
  destruct (handshake_only_reboot_and_prompt w) as [r [inc [pend [tr [E F]]]]].
  rewrite H in E. injection E as <- ->. split.
  - unfold flash_reboot, try_except, bind. rewrite H.
    unfold critical, close_serial_link, closed_after, reboot_report.
    run_monad. rewrite Hs. simpl. rewrite <- !app_assoc. reflexivity.
  - now exists tr.
Qed.

(** An upload that raises is reported and ends the run. *)
Lemma flash_upload_fails (w : world) (file : string) (e : exn) (rest : script) :
  serial (self w) = QPort true ->
  sbfs_put (env w) file ("usr/" ++ os_path_basename (os_name (env w)) file)
    (incoming w) = (Raise e, rest) ->
  flash_upload file w =
    (Ok false,
     closed_after w rest (rx w)
       [EvPut file ("usr/" ++ os_path_basename (os_name (env w)) file);
        upload_report; EvClose]).
Proof.
  intros Hs Hp.
  unfold flash_upload, try_except, upload, sbfs_put_call, critical,
    close_serial_link, closed_after, upload_report. run_monad.
  simpl in Hp. rewrite Hp. simpl. rewrite Hs. simpl.
  rewrite <- !app_assoc. reflexivity.
Qed.

(** Recording the slot raises: reported, and no reboot follows. *)
Lemma flash_restart_fails_record (w : world) (slot : string) (e : exn)
    (rest : script) :
  serial (self w) = QPort true ->
  sbfs_execute (env w) (set_start_index slot) (incoming w) = (Raise e, rest) ->
  flash_restart slot w =
    (Ok false,
     closed_after w rest (rx w)
       [EvExecute (set_start_index slot); restart_report; EvClose]).
Proof.
  intros Hs He.
  unfold flash_restart, try_except, restart, sbfs_execute_call, critical,
    close_serial_link, closed_after, restart_report. run_monad.
  simpl in He. rewrite He. simpl. rewrite Hs. simpl.
  rewrite <- !app_assoc. reflexivity.
Qed.

(** The last reboot raises: reported under the same title. *)
Lemma flash_restart_fails_reboot (w w6 : world) (slot : string) (e : exn)
    (rest : script) :
  serial (self w) = QPort true ->
  sbfs_execute (env w) (set_start_index slot) (incoming w) = (Ok tt, rest) ->
  reboot (advanced w rest (rx w) [EvExecute (set_start_index slot)])
    = (Raise e, w6) ->
  flash_restart slot w =
    (Ok false,
     closed_after w6 (incoming w6) (rx w6) [restart_report; EvClose])
  /\ exists tr,
       log w6 = (log w ++ EvExecute (set_start_index slot) :: tr)%list
       /\ forallb is_handshake tr = true.
Proof.
  intros Hs He H.
  destruct (handshake_only_reboot
              (advanced w rest (rx w) [EvExecute (set_start_index slot)]))
    as [r [inc [pend [tr [E F]]]]].
  rewrite H in E. injection E as <- ->. split.
  - unfold flash_restart, try_except, restart, sbfs_execute_call.
    run_monad. simpl in He. rewrite He. simpl.
    unfold advanced in H. simpl in H. rewrite H.
    unfold critical, close_serial_link, closed_after, restart_report.
    run_monad. rewrite Hs. simpl. rewrite <- !app_assoc. reflexivity.
  - exists tr. split; [| exact F]. simpl. now rewrite <- app_assoc.
Qed.

Lemma advanced_session (w : world) (i1 i2 : script) (p1 p2 : string)
    (t1 t2 : list event) :
  advanced (session w i1 p1 t1) i2 p2 t2 = session w i2 p2 (t1 ++ t2).
Proof. unfold advanced, session. simpl. now rewrite app_assoc. Qed.

Lemma closed_after_session (w : world) (i1 i2 : script) (p1 p2 : string)
    (t1 t2 : list event) :
  closed_after (session w i1 p1 t1) i2 p2 t2 = closed_after w i2 p2 (t1 ++ t2).
Proof. unfold closed_after, session. simpl. now rewrite app_assoc. Qed.

Lemma toggle_flash_opened (w : world) (port : string) (sn : option string) :
  Locator.find_device (os_name (env w)) valid_boards (available_ports (env w))
    = Ok (Some port, sn) ->
  port_opens (env w) = true ->
  dtr_effective (env w) = true ->
  toggle_flash w
  = after_open (session w (incoming w) (rx w) (open_events port)).
Proof.
  intros Hf Ho Hd. unfold toggle_flash.
  rewrite (bind_ok _ _ _ (flash_open_ok w Hf Ho Hd)). reflexivity.
Qed.

Lemma after_open_saved (w : world) (slot text nl : string) :
  dialog_choice (env w) = Some slot ->
  current_tab (env w) = Some (text, nl) ->
  save_and_encode (env w) text (staging_file (env w) slot) nl = Ok tt ->
  after_open w
  = after_save slot (staging_file (env w) slot)
      (advanced w (incoming w) (rx w) (save_events (env w) slot text nl)).
Proof.
  intros Hd Ht Hs. unfold after_open.
  rewrite (bind_ok _ _ _ (@flash_save_ok w slot text nl Hd Ht Hs)). reflexivity.
Qed.

Lemma after_save_rebooted (w : world) (slot file : string)
    (c1 c2 c3 : list string) (tail : script) :
  serial (self w) = QPort true ->
  rx w = "" ->
  completes prompt "" c1 = true ->
  completes ready_marker "" c2 = true ->
  completes prompt "" c3 = true ->
  incoming w = (map Some (c1 ++ c2 ++ c3) ++ tail)%list ->
  after_save slot file w
  = after_reboot slot file (advanced w tail "" (prompt_events c1 c2 c3)).
Proof.
  intros Hs Hrx H1 H2 H3 Hi. unfold after_save.
  rewrite (bind_ok _ _ _ (@flash_reboot_ok w c1 c2 c3 tail Hs Hrx H1 H2 H3 Hi)).
  reflexivity.
Qed.

Lemma after_reboot_uploaded (w : world) (slot file : string) (rest : script) :
  sbfs_put (env w) file ("usr/" ++ os_path_basename (os_name (env w)) file)
    (incoming w) = (Ok tt, rest) ->
  after_reboot slot file w
  = after_upload slot
      (advanced w rest (rx w)
         [EvPut file ("usr/" ++ os_path_basename (os_name (env w)) file)]).
Proof.
  intros Hp. unfold after_reboot.
  rewrite (bind_ok _ _ _ (@flash_upload_ok w file rest Hp)). reflexivity.
Qed.

(** When the session cannot be opened, the not-found message is shown
    and nothing else is done. *)
Lemma toggle_flash_not_opened (w : world) :
  (forall e,
      Locator.find_device (os_name (env w)) valid_boards
        (available_ports (env w)) = Raise e ->
      toggle_flash w =
        (Ok tt, port_after w (serial (self w)) [not_found_report]))
  /\ (forall sn,
        Locator.find_device (os_name (env w)) valid_boards
          (available_ports (env w)) = Ok (None, sn) ->
        toggle_flash w =
          (Ok tt,
           port_after w (QPort false)
             [EvSetPortName ""; EvOpen false; not_found_report]))
  /\ (forall port sn,
        Locator.find_device (os_name (env w)) valid_boards
          (available_ports (env w)) = Ok (Some port, sn) ->
        port_opens (env w) = false ->
        toggle_flash w =
          (Ok tt,
           port_after w (QPort false)
             [EvSetPortName port; EvOpen false; not_found_report]))
  /\ (forall port sn,
        Locator.find_device (os_name (env w)) valid_boards
          (available_ports (env w)) = Ok (Some port, sn) ->
        port_opens (env w) = true ->
        dtr_effective (env w) = false ->
        toggle_flash w =
          (Ok tt,
           port_after w (QPort false)
             [EvSetPortName port; EvOpen true; EvSetDTR; EvIsDTR false;
              EvClose; not_found_report])).
Proof.
  destruct (flash_open_fails w) as [H1 [H2 [H3 H4]]].
  unfold toggle_flash. repeat split.
  - intros e H. now rewrite (bind_ok _ _ _ (H1 e H)).
  - intros sn H. now rewrite (bind_ok _ _ _ (H2 sn H)).
  - intros port sn H Ho. now rewrite (bind_ok _ _ _ (H3 port sn H Ho)).
  - intros port sn H Ho Hd. now rewrite (bind_ok _ _ _ (H4 port sn H Ho Hd)).
Qed.

(** With the session open, every way in which a later step fails: the
    run ends with the report of that step and the close of the session,
    and the calls of the later steps are not made. *)
Lemma toggle_flash_step_fails (w : world) (port : string) (sn : option string) :
  Locator.find_device (os_name (env w)) valid_boards (available_ports (env w))
    = Ok (Some port, sn) ->
  port_opens (env w) = true ->
  dtr_effective (env w) = true ->
  (dialog_choice (env w) = None ->
   toggle_flash w =
     (Ok tt,
      closed_after w (incoming w) (rx w)
        (open_events port ++ [EvDialog None; EvClose])))
  /\ forall slot,
       dialog_choice (env w) = Some slot ->
       (current_tab (env w) = None ->
        toggle_flash w =
          (Ok tt,
           closed_after w (incoming w) (rx w)
             (open_events port
              ++ [EvDialog (Some slot); save_report; EvClose])))
       /\ forall text nl,
            current_tab (env w) = Some (text, nl) ->
            (forall e,
                save_and_encode (env w) text (staging_file (env w) slot) nl
                  = Raise e ->
                toggle_flash w =
                  (Ok tt,
                   closed_after w (incoming w) (rx w)
                     (open_events port ++ save_events (env w) slot text nl
                      ++ [save_report; EvClose])))
            /\ (save_and_encode (env w) text (staging_file (env w) slot) nl
                  = Ok tt ->
                (forall e w3,
                    reboot_and_prompt
                      (session w (incoming w) (rx w)
                         (open_events port ++ save_events (env w) slot text nl))
                      = (Raise e, w3) ->
                    toggle_flash w =
                      (Ok tt,
                       closed_after w3 (incoming w3) (rx w3)
                         [reboot_report; EvClose])
                    /\ exists tr,
                         log w3 =
                           (log w ++ open_events port
                            ++ save_events (env w) slot text nl ++ tr)%list
                         /\ forallb is_handshake tr = true)
                /\ forall c1 c2 c3 rest,
                     rx w = "" ->
                     incoming w = (map Some (c1 ++ c2 ++ c3) ++ rest)%list ->
                     completes prompt "" c1 = true ->
                     completes ready_marker "" c2 = true ->
                     completes prompt "" c3 = true ->
                     (forall e rest2,
                         sbfs_put (env w) (staging_file (env w) slot)
                           (upload_target (env w) slot) rest
                           = (Raise e, rest2) ->
                         toggle_flash w =
                           (Ok tt,
                            closed_after w rest2 ""
                              (open_events port
                               ++ save_events (env w) slot text nl
                               ++ prompt_events c1 c2 c3
                               ++ [put_event (env w) slot; upload_report;
                                   EvClose])))
                     /\ forall rest2,
                          sbfs_put (env w) (staging_file (env w) slot)
                            (upload_target (env w) slot) rest
                            = (Ok tt, rest2) ->
                          (forall e rest3,
                              sbfs_execute (env w) (set_start_index slot) rest2
                                = (Raise e, rest3) ->
                              toggle_flash w =
                                (Ok tt,
                                 closed_after w rest3 ""
                                   (open_events port
                                    ++ save_events (env w) slot text nl
                                    ++ prompt_events c1 c2 c3
                                    ++ [put_event (env w) slot;
                                        EvExecute (set_start_index slot);
                                        restart_report; EvClose])))
                          /\ forall rest3 e w6,
                               sbfs_execute (env w) (set_start_index slot) rest2
                                 = (Ok tt, rest3) ->
                               reboot
                                 (session w rest3 ""
                                    (open_events port
                                     ++ save_events (env w) slot text nl
                                     ++ prompt_events c1 c2 c3
                                     ++ [put_event (env w) slot;
                                         EvExecute (set_start_index slot)]))
                                 = (Raise e, w6) ->
                               toggle_flash w =
                                 (Ok tt,
                                  closed_after w6 (incoming w6) (rx w6)
                                    [restart_report; EvClose])
                               /\ exists tr,
                                    log w6 =
                                      (log w ++ open_events port
                                       ++ save_events (env w) slot text nl
                                       ++ prompt_events c1 c2 c3
                                       ++ [put_event (env w) slot;
                                           EvExecute (set_start_index slot)]
                                       ++ tr)%list
                                    /\ forallb is_handshake tr = true).
Proof.
  intros Hf Ho Hd. rewrite (toggle_flash_opened w Hf Ho Hd).
  set (w1 := session w (incoming w) (rx w) (open_events port)).
  destruct (@flash_save_fails w1 true eq_refl) as [Hcancel [Htab Hwrite]].
  split.
  { intros Hdlg. unfold after_open.
    rewrite (bind_ok _ _ _ (Hcancel Hdlg)). unfold w1, ret.
    now rewrite closed_after_session. }
  intros slot Hdlg. split.
  { intros Ht. unfold after_open.
    rewrite (bind_ok _ _ _ (Htab slot Hdlg Ht)). unfold w1, ret.
    now rewrite closed_after_session. }
  intros text nl Ht. split.
  { intros e Hs. unfold after_open.
    rewrite (bind_ok _ _ _ (Hwrite slot text nl e Hdlg Ht Hs)). unfold w1, ret.
    now rewrite closed_after_session. }
  intros Hs. rewrite (@after_open_saved w1 slot text nl Hdlg Ht Hs).
  unfold w1. rewrite advanced_session. clear Hcancel Htab Hwrite w1.
  set (w2 := session w (incoming w) (rx w)
               (open_events port ++ save_events (env w) slot text nl)).
  change (env (session w (incoming w) (rx w) (open_events port))) with (env w).
  change (incoming (session w (incoming w) (rx w) (open_events port)))
    with (incoming w).
  change (rx (session w (incoming w) (rx w) (open_events port))) with (rx w).
  fold w2.
  split.
  { intros e w3 Hr.
    destruct (@flash_reboot_fails w2 w3 e eq_refl Hr) as [E [tr [L F]]].
    split.
    - unfold after_save. now rewrite (bind_ok _ _ _ E).
    - exists tr. split; [| exact F]. rewrite L. unfold w2. simpl.
      now rewrite <- !app_assoc. }
  intros c1 c2 c3 rest Hrx Hi H1 H2 H3.
  rewrite (@after_save_rebooted w2 slot _ c1 c2 c3 rest eq_refl Hrx H1 H2 H3 Hi).
  unfold w2. rewrite advanced_session. clear w2.
  set (w3 := session w rest ""
               ((open_events port ++ save_events (env w) slot text nl)
                ++ prompt_events c1 c2 c3)).
  split.
  { intros e rest2 Hp.
    unfold after_reboot.
    rewrite (bind_ok _ _ _
               (@flash_upload_fails w3 (staging_file (env w) slot) e rest2
                  eq_refl Hp)).
    unfold w3, ret. cbn [negb]. cbv iota.
    rewrite closed_after_session. unfold put_event, upload_target.
    simpl rx. now rewrite <- !app_assoc. }
  intros rest2 Hp.
  rewrite (@after_reboot_uploaded w3 slot (staging_file (env w) slot) rest2 Hp).
  unfold w3. rewrite advanced_session. simpl rx. clear w3.
  set (w4 := session w rest2 ""
               (((open_events port ++ save_events (env w) slot text nl)
                 ++ prompt_events c1 c2 c3)
                ++ [EvPut (staging_file (env w) slot)
                      ("usr/" ++ os_path_basename (os_name (env w))
                                   (staging_file (env w) slot))])).
  split.
  { intros e rest3 He. unfold after_upload.
    rewrite (bind_ok _ _ _
               (@flash_restart_fails_record w4 slot e rest3 eq_refl He)).
    unfold w4, ret. cbn [negb]. cbv iota.
    rewrite closed_after_session. unfold put_event, upload_target.
    simpl rx. now rewrite <- !app_assoc. }
  intros rest3 e w6 He Hr.
  assert (Hr' : reboot (advanced w4 rest3 (rx w4)
                          [EvExecute (set_start_index slot)])
                = (Raise e, w6)).
  { unfold w4. rewrite advanced_session. simpl rx.
    unfold put_event, upload_target in Hr.
    rewrite <- !app_assoc in *. exact Hr. }
  destruct (@flash_restart_fails_reboot w4 w6 slot e rest3 eq_refl He Hr')
    as [E [tr [L F]]].
  split.
  - unfold after_upload. now rewrite (bind_ok _ _ _ E).
  - exists tr. split; [| exact F]. rewrite L. unfold w4, session.
    cbn [log]. unfold put_event, upload_target.
    rewrite <- !app_assoc. reflexivity.
Qed.

(** C6, as the code has it. [toggle_flash] opens the serial session
    first, then selects the slot, saves the buffer to the staging file,
    runs the handshake, uploads the file as [usr/<base name>], records
    the slot and reboots: every run follows [flash_step] from [PStart]
    and never raises. When every step succeeds the calls are the ones
    listed. The staging file is
    [<home>/<workspace-name>/studuinobit/usr<slot>.py] on a POSIX host,
    and the same with backslashes on a Windows host whose home directory
    starts with a drive letter. When the session cannot be opened, for
    each of the four ways in which that happens, the not-found message
    is shown after the calls made so far and the run ends there, with no
    close. With the session open, whenever a later step fails (the
    dialog is cancelled, there is no tab, the buffer cannot be written,
    the handshake raises, the upload raises, recording the slot raises
    or the last reboot raises) the log ends with the calls of the steps
    before, the calls the failing step made, the message box of that
    step (none for a cancelled dialog) and the close of the session:
    the later steps make no call, and [self.serial] is left at
    [None]. *)
Theorem toggle_flash_sequence (w : world) :
  (exists w' tr p,
      toggle_flash w = (Ok tt, w')
      /\ follows w w' tr
      /\ flash_run PStart tr = Some p
      /\ ((p = PClosed /\ serial (self w') = NoneValue) \/ p = PNotOpened))
  /\ (forall port sn slot text nl c1 c2 c3 c4 c5 rest rest2 rest3,
        Locator.find_device (os_name (env w)) valid_boards
          (available_ports (env w)) = Ok (Some port, sn) ->
        port_opens (env w) = true ->
        dtr_effective (env w) = true ->
        dialog_choice (env w) = Some slot ->
        current_tab (env w) = Some (text, nl) ->
        save_and_encode (env w) text (staging_file (env w) slot) nl = Ok tt ->
        rx w = "" ->
        incoming w = (map Some (c1 ++ c2 ++ c3) ++ rest)%list ->
        completes prompt "" c1 = true ->
        completes ready_marker "" c2 = true ->
        completes prompt "" c3 = true ->
        sbfs_put (env w) (staging_file (env w) slot)
          ("usr/" ++ os_path_basename (os_name (env w))
                       (staging_file (env w) slot)) rest
          = (Ok tt, rest2) ->
        sbfs_execute (env w) (set_start_index slot) rest2
          = (Ok tt, (map Some (c4 ++ c5) ++ rest3)%list) ->
        completes prompt "" c4 = true ->
        completes ready_marker "" c5 = true ->
        toggle_flash w =
          (Ok tt,
           {| self := with_serial NoneValue (self w); env := env w;
              incoming := rest3; rx := "";
              log := log w
                ++ [EvSetPortName port; EvOpen true; EvSetDTR; EvIsDTR true;
                    EvSetBaudRate 115200]
                ++ [EvDialog (Some slot);
                    EvSave text (staging_file (env w) slot) nl]
                ++ handshake_events c1 c2
                ++ [EvWrite ctrl_C] ++ read_events default_timeout "" c3
                ++ [EvPut (staging_file (env w) slot)
                      ("usr/" ++ os_path_basename (os_name (env w))
                                   (staging_file (env w) slot));
                    EvExecute (set_start_index slot)]
                ++ handshake_events c4 c5
                ++ [EvStatus "Transfer success"; EvClose] |}))
  /\ (forall slot,
        os_name (env w) = "posix" ->
        HOME_DIRECTORY (env w) <> "" ->
        last_char (HOME_DIRECTORY (env w)) <> "/" ->
        WORKSPACE_NAME (env w) <> "" ->
        String.prefix "/" (WORKSPACE_NAME (env w)) = false ->
        last_char (WORKSPACE_NAME (env w)) <> "/" ->
        staging_file (env w) slot =
          HOME_DIRECTORY (env w) ++ "/" ++ WORKSPACE_NAME (env w)
            ++ "/studuinobit/usr" ++ slot ++ ".py")
  /\ (forall slot d rest,
        os_name (env w) = "nt" ->
        HOME_DIRECTORY (env w) = String d (String ":" rest) ->
        rest <> "" ->
        ends_with_sep rest = false ->
        WORKSPACE_NAME (env w) <> "" ->
        has_sep (WORKSPACE_NAME (env w)) = false ->
        ~ Substring ":" (WORKSPACE_NAME (env w)) ->
        staging_file (env w) slot =
          HOME_DIRECTORY (env w) ++ "\" ++ WORKSPACE_NAME (env w)
            ++ "\studuinobit\usr" ++ slot ++ ".py")
  /\ ((forall e,
         Locator.find_device (os_name (env w)) valid_boards
           (available_ports (env w)) = Raise e ->
         toggle_flash w =
           (Ok tt, port_after w (serial (self w)) [not_found_report]))
      /\ (forall sn,
            Locator.find_device (os_name (env w)) valid_boards
              (available_ports (env w)) = Ok (None, sn) ->
            toggle_flash w =
              (Ok tt,
               port_after w (QPort false)
                 [EvSetPortName ""; EvOpen false; not_found_report]))
      /\ (forall port sn,
            Locator.find_device (os_name (env w)) valid_boards
              (available_ports (env w)) = Ok (Some port, sn) ->
            port_opens (env w) = false ->
            toggle_flash w =
              (Ok tt,
               port_after w (QPort false)
                 [EvSetPortName port; EvOpen false; not_found_report]))
      /\ (forall port sn,
            Locator.find_device (os_name (env w)) valid_boards
              (available_ports (env w)) = Ok (Some port, sn) ->
            port_opens (env w) = true ->
            dtr_effective (env w) = false ->
            toggle_flash w =
              (Ok tt,
               port_after w (QPort false)
                 [EvSetPortName port; EvOpen true; EvSetDTR; EvIsDTR false;
                  EvClose; not_found_report])))
  /\ (forall port sn,
        Locator.find_device (os_name (env w)) valid_boards
          (available_ports (env w)) = Ok (Some port, sn) ->
        port_opens (env w) = true ->
        dtr_effective (env w) = true ->
        (dialog_choice (env w) = None ->
         toggle_flash w =
           (Ok tt,
            closed_after w (incoming w) (rx w)
              (open_events port ++ [EvDialog None; EvClose])))
        /\ forall slot,
             dialog_choice (env w) = Some slot ->
             (current_tab (env w) = None ->
              toggle_flash w =
                (Ok tt,
                 closed_after w (incoming w) (rx w)
                   (open_events port
                    ++ [EvDialog (Some slot); save_report; EvClose])))
             /\ forall text nl,
                  current_tab (env w) = Some (text, nl) ->
                  (forall e,
                      save_and_encode (env w) text
                        (staging_file (env w) slot) nl = Raise e ->
                      toggle_flash w =
                        (Ok tt,
                         closed_after w (incoming w) (rx w)
                           (open_events port
                            ++ save_events (env w) slot text nl
                            ++ [save_report; EvClose])))
                  /\ (save_and_encode (env w) text
                        (staging_file (env w) slot) nl = Ok tt ->
                      (forall e w3,
                          reboot_and_prompt
                            (session w (incoming w) (rx w)
                               (open_events port
                                ++ save_events (env w) slot text nl))
                            = (Raise e, w3) ->
                          toggle_flash w =
                            (Ok tt,
                             closed_after w3 (incoming w3) (rx w3)
                               [reboot_report; EvClose])
                          /\ exists tr,
                               log w3 =
                                 (log w ++ open_events port
                                  ++ save_events (env w) slot text nl
                                  ++ tr)%list
                               /\ forallb is_handshake tr = true)
                      /\ forall c1 c2 c3 rest,
                           rx w = "" ->
                           incoming w
                             = (map Some (c1 ++ c2 ++ c3) ++ rest)%list ->
                           completes prompt "" c1 = true ->
                           completes ready_marker "" c2 = true ->
                           completes prompt "" c3 = true ->
                           (forall e rest2,
                               sbfs_put (env w) (staging_file (env w) slot)
                                 (upload_target (env w) slot) rest
                                 = (Raise e, rest2) ->
                               toggle_flash w =
                                 (Ok tt,
                                  closed_after w rest2 ""
                                    (open_events port
                                     ++ save_events (env w) slot text nl
                                     ++ prompt_events c1 c2 c3
                                     ++ [put_event (env w) slot;
                                         upload_report; EvClose])))
                           /\ forall rest2,
                                sbfs_put (env w) (staging_file (env w) slot)
                                  (upload_target (env w) slot) rest
                                  = (Ok tt, rest2) ->
                                (forall e rest3,
                                    sbfs_execute (env w)
                                      (set_start_index slot) rest2
                                      = (Raise e, rest3) ->
                                    toggle_flash w =
                                      (Ok tt,
                                       closed_after w rest3 ""
                                         (open_events port
                                          ++ save_events (env w) slot text nl
                                          ++ prompt_events c1 c2 c3
                                          ++ [put_event (env w) slot;
                                              EvExecute (set_start_index slot);
                                              restart_report; EvClose])))
                                /\ forall rest3 e w6,
                                     sbfs_execute (env w)
                                       (set_start_index slot) rest2
                                       = (Ok tt, rest3) ->
                                     reboot
                                       (session w rest3 ""
                                          (open_events port
                                           ++ save_events (env w) slot text nl
                                           ++ prompt_events c1 c2 c3
                                           ++ [put_event (env w) slot;
                                               EvExecute
                                                 (set_start_index slot)]))
                                       = (Raise e, w6) ->
                                     toggle_flash w =
                                       (Ok tt,
                                        closed_after w6 (incoming w6) (rx w6)
                                          [restart_report; EvClose])
                                     /\ exists tr,
                                          log w6 =
                                            (log w ++ open_events port
                                             ++ save_events (env w) slot
                                                  text nl
                                             ++ prompt_events c1 c2 c3
                                             ++ [put_event (env w) slot;
                                                 EvExecute
                                                   (set_start_index slot)]
                                             ++ tr)%list
                                          /\ forallb is_handshake tr
                                             = true)).
Proof.
  split; [apply toggle_flash_accepted |]. split.
  - intros port sn slot text nl c1 c2 c3 c4 c5 rest rest2 rest3
      Hfind Hopen Hdtr Hdlg Htab Hsave Hrx Hinc H1 H2 H3 Hput Hexe H4 H5.
    unfold toggle_flash.
    rewrite (bind_ok _ _ _ (flash_open_ok w Hfind Hopen Hdtr)).
    cbn [negb]. cbv iota.
    erewrite bind_ok by (apply flash_save_ok with (slot := slot); eassumption).
    cbv iota beta.
    erewrite bind_ok
      by (apply flash_reboot_ok with (c1 := c1) (c2 := c2) (c3 := c3);
          simpl; try eassumption; reflexivity).
    cbn [negb]. cbv iota.
    erewrite bind_ok by (apply flash_upload_ok; simpl; exact Hput).
    cbn [negb]. cbv iota.
    erewrite bind_ok
      by (apply flash_restart_ok with (c1 := c4) (c2 := c5);
          simpl; try eassumption; reflexivity).
    cbn [negb]. cbv iota.
    unfold close_serial_link, advanced. run_monad.
    unfold handshake_events, paste_reset.
    repeat (progress (rewrite <- ?app_assoc, <- ?app_comm_cons)).
    reflexivity.
  - split.
    { intros slot Hos. apply staging_file_pattern. rewrite Hos. discriminate. }
    split.
    { intros slot d rest. apply staging_file_pattern_nt. }
    split; [apply toggle_flash_not_opened |].
    apply toggle_flash_step_fails.
Qed.

Lemma toggle_flash_sequence_witness :
  (fst (toggle_flash (world_of idle good_host flash_script)) = Ok tt
   /\ serial (self (snd (toggle_flash (world_of idle good_host flash_script))))
      = NoneValue
   /\ staging_file good_host "3" = "/home/user/mu_code/studuinobit/usr3.py")
  /\ staging_file dtr_quirk_host "3"
     = "C:/Users/user\mu_code\studuinobit\usr3.py"
  /\ toggle_flash (world_of idle bare_host [])
     = (Ok tt,
        port_after (world_of idle bare_host []) (QPort false)
          [EvSetPortName ""; EvOpen false; not_found_report])
  /\ toggle_flash (world_of idle put_breaks_host flash_script)
     = (Ok tt,
        closed_after (world_of idle put_breaks_host flash_script)
          [Some prompt; Some ready_marker] ""
          (open_events "/dev/ttyACM0"
           ++ save_events put_breaks_host "3" "print(1)" LF
           ++ prompt_events [prompt] [ready_marker] [prompt]
           ++ [put_event put_breaks_host "3"; upload_report; EvClose])).
Proof.
  split; [| split; [| split]].
  - pose proof (toggle_flash_sequence (world_of idle good_host flash_script))
      as [_ [Hrun [Hpath _]]].
    split; [| split].
    + rewrite (Hrun "/dev/ttyACM0" (Some "SB0001") "3" "print(1)" LF
                 [prompt] [ready_marker] [prompt] [prompt] [ready_marker]
                 [Some prompt; Some ready_marker]
                 [Some prompt; Some ready_marker] []); reflexivity.
    + rewrite (Hrun "/dev/ttyACM0" (Some "SB0001") "3" "print(1)" LF
                 [prompt] [ready_marker] [prompt] [prompt] [ready_marker]
                 [Some prompt; Some ready_marker]
                 [Some prompt; Some ready_marker] []); reflexivity.
    + refine (Hpath "3" _ _ _ _ _ _); try reflexivity;
        intros E; vm_compute in E; discriminate.
  - pose proof (toggle_flash_sequence (world_of idle dtr_quirk_host []))
      as [_ [_ [_ [Hnt _]]]].
    refine (Hnt "3" "C"%char "/Users/user" eq_refl eq_refl _ eq_refl _ eq_refl _).
    + discriminate.
    + discriminate.
    + apply bytes_in_false_iff. reflexivity.
  - pose proof (toggle_flash_sequence (world_of idle bare_host []))
      as [_ [_ [_ [_ [[_ [Hnone _]] _]]]]].
    exact (Hnone None eq_refl).
  - pose proof (toggle_flash_sequence
                  (world_of idle put_breaks_host flash_script))
      as [_ [_ [_ [_ [_ Hstep]]]]].
    destruct (Hstep "/dev/ttyACM0" (Some "SB0001") eq_refl eq_refl eq_refl)
      as [_ Hslot].
    destruct (Hslot "3" eq_refl) as [_ Htab].
    destruct (Htab "print(1)" LF eq_refl) as [_ Hsaved].
    destruct (Hsaved eq_refl) as [_ Hshake].
    destruct (Hshake [prompt] [ready_marker] [prompt]
                [Some prompt; Some ready_marker]
                eq_refl eq_refl eq_refl eq_refl eq_refl) as [Hput _].
    exact (Hput (IOError "Could not enter raw REPL.")
             [Some prompt; Some ready_marker] eq_refl).
Defined.

(** C6 as stated fails: on a host where every step succeeds the session
    is opened before the slot is selected and before the buffer is
    saved. *)
Lemma toggle_flash_opens_before_selecting :
  begins_before SOpenSession SSelect
    (trace_of toggle_flash (world_of idle good_host flash_script))
  /\ ~ begins_before SSelect SOpenSession
         (trace_of toggle_flash (world_of idle good_host flash_script))
  /\ ~ begins_before SPersist SOpenSession
         (trace_of toggle_flash (world_of idle good_host flash_script)).
Proof.
  vm_compute. repeat split; lia.
Qed.

(** ** Opening the serial link *)

(** With DTR taken at once, the port is opened, DTR asserted and the
    baud rate set to 115200. *)
Lemma open_serial_link_plain (globals : list string) (w : world) (port : string) :
  port_opens (env w) = true ->
  dtr_effective (env w) = true ->
  open_serial_link globals (Some port) w =
    (Ok tt,
     {| self := with_serial (QPort true) (self w); env := env w;
        incoming := incoming w; rx := rx w;
        log := log w ++ [EvSetPortName port; EvOpen true; EvSetDTR;
                         EvIsDTR true; EvSetBaudRate 115200] |}).
Proof.
  intros Ho Hd.
  unfold open_serial_link, setPortName, qserial_open, setDataTerminalReady,
    isDataTerminalReady.
  run_monad. rewrite Ho. simpl. rewrite Hd. simpl.
  rewrite <- !app_assoc. reflexivity.
Qed.

(** When the first open fails, [IOError] is raised with the port in its
    message. *)
Lemma open_serial_link_refused (globals : list string) (w : world) (port : string) :
  port_opens (env w) = false ->
  open_serial_link globals (Some port) w =
    (Raise (IOError ("Cannot connect to device on port " ++ port)),
     {| self := with_serial (QPort false) (self w); env := env w;
        incoming := incoming w; rx := rx w;
        log := log w ++ [EvSetPortName port; EvOpen false] |}).
Proof.
  intros Ho. unfold open_serial_link, setPortName, qserial_open.
  run_monad. rewrite Ho. simpl. rewrite <- !app_assoc. reflexivity.
Qed.

(** In a module that binds the name [serial], the detour through
    pyserial runs as the comment in the code describes. *)
Lemma open_serial_link_detour_when_bound (globals : list string) (w : world)
    (port : string) :
  existsb (String.eqb "serial") globals = true ->
  port_opens (env w) = true ->
  dtr_effective (env w) = false ->
  pyserial_opens (env w) = true ->
  open_serial_link globals (Some port) w =
    (Ok tt,
     {| self := with_serial (QPort (port_reopens (env w))) (self w);
        env := env w; incoming := incoming w; rx := rx w;
        log := log w ++ [EvSetPortName port; EvOpen true; EvSetDTR;
                         EvIsDTR false; EvClose; EvPyserialOpen port;
                         EvPyserialDTR; EvPyserialClose;
                         EvOpen (port_reopens (env w));
                         EvSetBaudRate 115200] |}).
Proof.
  intros Hg Ho Hd Hp.
  unfold open_serial_link, setPortName, qserial_open, qserial_close,
    setDataTerminalReady, isDataTerminalReady, load_global, pyserial_set_dtr.
  run_monad. rewrite Ho. simpl. rewrite Hd. simpl.
  simpl in Hg. rewrite Hg. simpl.
  rewrite Hp. simpl. rewrite <- !app_assoc. reflexivity.
Qed.

(** In studuinobit.py and in dialogs.py the name [serial] is not bound:
    whenever DTR is not taken, the port is closed and [NameError] is
    raised. *)
Lemma open_serial_link_detour_unbound (w : world) (port : string) :
  port_opens (env w) = true ->
  dtr_effective (env w) = false ->
  forall globals,
    globals = studuinobit_globals \/ globals = dialogs_globals ->
    open_serial_link globals (Some port) w =
      (Raise (NameError "serial"),
       {| self := with_serial (QPort false) (self w); env := env w;
          incoming := incoming w; rx := rx w;
          log := log w ++ [EvSetPortName port; EvOpen true; EvSetDTR;
                           EvIsDTR false; EvClose] |}).
Proof.
  intros Ho Hd globals Hg.
  unfold open_serial_link, setPortName, qserial_open, qserial_close,
    setDataTerminalReady, isDataTerminalReady, load_global, pyserial_set_dtr.
  run_monad. rewrite Ho. simpl. rewrite Hd. simpl.
  destruct Hg as [-> | ->]; simpl; rewrite <- !app_assoc; reflexivity.
Qed.

(** C4, at a port that opens and on which [isDataTerminalReady()]
    answers [False]: [open_serial_link] closes the port and raises
    [NameError] for the name [serial]; pyserial is not opened, the port
    is not reopened and no baud rate is set. *)
Theorem open_serial_link_dtr_fallback_raises :
  open_serial_link studuinobit_globals (Some "COM3")
    (world_of idle dtr_quirk_host [])
  = (Raise (NameError "serial"),
     {| self := with_serial (QPort false) idle; env := dtr_quirk_host;
        incoming := []; rx := "";
        log := [EvSetPortName "COM3"; EvOpen true; EvSetDTR; EvIsDTR false;
                EvClose] |})
  /\ open_serial_link dialogs_globals (Some "COM3")
       (world_of idle dtr_quirk_host [])
     = (Raise (NameError "serial"),
        {| self := with_serial (QPort false) idle; env := dtr_quirk_host;
           incoming := []; rx := "";
           log := [EvSetPortName "COM3"; EvOpen true; EvSetDTR; EvIsDTR false;
                   EvClose] |}).
Proof. split; reflexivity. Qed.

(** ** Arbitration of the serial port *)

(** [toggle_files] while the REPL runs: one notification, nothing else. *)
Lemma toggle_files_refused_by_repl (w : world) :
  truthy (repl (self w)) = true ->
  toggle_files w = (Ok tt, advanced w (incoming w) (rx w) [files_refused]).
Proof.
  intros H. unfold toggle_files. run_monad. rewrite H. reflexivity.
Qed.

(** [toggle_repl] while the file system is shown: one notification,
    nothing else. *)
Lemma toggle_repl_refused_by_fs (w : world) (pane : string) :
  fs (self w) = Some pane ->
  toggle_repl w = (Ok tt, advanced w (incoming w) (rx w) [repl_refused]).
Proof.
  intros H. unfold toggle_repl. run_monad. rewrite H. reflexivity.
Qed.

(** [toggle_plotter] while the file system is shown: one notification,
    nothing else. *)
Lemma toggle_plotter_refused_by_fs (w : world) (pane : string) :
  fs (self w) = Some pane ->
  toggle_plotter w = (Ok tt, advanced w (incoming w) (rx w) [plotter_refused]).
Proof.
  intros H. unfold toggle_plotter. run_monad. rewrite H. reflexivity.
Qed.

(** C2, at a mode in which only the plotter runs, the board attached:
    [toggle_plotter] from the idle mode leaves the plotter running, and
    [toggle_files] then starts the file system next to it and shows no
    notification. *)
Theorem toggle_files_starts_beside_plotter :
  self (snd (toggle_plotter (world_of idle good_host []))) = plotting
  /\ toggle_files (world_of plotting good_host [])
     = (Ok tt,
        {| self := with_fs (Some "/dev/ttyACM0") plotting; env := good_host;
           incoming := []; rx := "";
           log := [EvAddFilesystem "/dev/ttyACM0";
                   EvSetButtons [("run", false); ("repl", false);
                                 ("plotter", false); ("flash_sb", false)]] |})
  /\ existsb is_refusal
       (log (snd (toggle_files (world_of plotting good_host [])))) = false.
Proof. repeat split. Qed.

(** ** File manager *)

Import Files.

Lemma try_emit_one {A} (body : result A) (success : A -> signal)
    (failure : signal) :
  (forall a, is_success (success a) = true) ->
  is_failure failure = true ->
  exists s, try_emit body success failure = [s]
            /\ is_success s = negb (is_failure s).
Proof.
  intros Hs Hf. destruct body as [a|e]; simpl.
  - exists (success a). split; [reflexivity |].
    specialize (Hs a). destruct (success a); simpl in *; congruence.
  - exists failure. split; [reflexivity |].
    destruct failure; simpl in *; congruence.
Qed.

(** C7. When [get] fails, and so for a file the device does not hold,
    the file manager emits [on_get_fail] with the device file name, once,
    and nothing else; and every operation emits exactly one signal per
    call, a success or a failure. *)
Theorem file_manager_one_signal (d : device) (fm : manager) :
  (forall dev loc e,
      and_then (self_serial fm) (fun _ => microfs_get d dev loc) = Raise e ->
      get d fm dev loc = [on_get_fail dev])
  /\ (forall names dev loc,
        ~ In dev names ->
        get (device_with names) fm dev loc = [on_get_fail dev])
  /\ (forall c, exists s,
        emitted d fm c = [s] /\ is_success s = negb (is_failure s)).
Proof.
  split; [| split].
  - intros dev loc e H. unfold get. now rewrite H.
  - intros names dev loc Hn. unfold get, self_serial, device_with. simpl.
    assert (Hx : existsb (String.eqb dev) names = false).
    { apply not_true_is_false. intros Hx. apply existsb_exists in Hx.
      destruct Hx as [x [Hin Heq]]. apply String.eqb_eq in Heq. now subst. }
    rewrite Hx. destruct (serial_bound fm); reflexivity.
  - intros c. destruct c; simpl; unfold on_start, sb_on_start, ls, tree, get,
      put, sb_put, delete;
      try (apply try_emit_one; [intros ?; reflexivity | reflexivity]).
    + destruct (Serial d (port fm)); simpl.
      * apply try_emit_one; [intros ?; reflexivity | reflexivity].
      * exists on_list_fail. split; reflexivity.
    + destruct (Serial d (port fm)); simpl.
      * apply try_emit_one; [intros ?; reflexivity | reflexivity].
      * exists on_list_fail. split; reflexivity.
Qed.

Lemma file_manager_one_signal_witness :
  get (device_with ["main.py"; "boot.py"])
    {| port := "/dev/ttyACM0"; serial_bound := true |}
    "ghost.py" "/home/user/mu_code/ghost.py"
  = [on_get_fail "ghost.py"].
Proof.
  refine (proj1 (proj2 (file_manager_one_signal
                          (device_with ["main.py"; "boot.py"])
                          {| port := "/dev/ttyACM0"; serial_bound := true |}))
            ["main.py"; "boot.py"] "ghost.py" "/home/user/mu_code/ghost.py" _).
  intros [H | [H | []]]; discriminate.
Defined.

(** C10. For a local path with a directory in it, [put] emits the base
    name of the path, as [os.path] of the host takes it, when it
    succeeds and the path as given when it fails, and the two differ; so
    does the [put] of [StuduinoBitFileManager], which also names its
    target with the base name. A directory is marked by a slash, and on
    a Windows host by a slash or a backslash. *)
Theorem put_payloads_differ (d : device) (fm : manager) (local : string) :
  has_directory (host_os d) local ->
  (forall target,
      and_then (self_serial fm) (fun _ => microfs_put d local target) = Ok tt ->
      target = None ->
      put d fm local = [on_put_file (os_path_basename (host_os d) local)])
  /\ (forall e,
        and_then (self_serial fm) (fun _ => microfs_put d local None) = Raise e ->
        put d fm local = [on_put_fail local])
  /\ (forall dist,
        and_then (self_serial fm)
          (fun _ => microfs_put d local
                      (Some (dist ++ "/"
                             ++ os_path_basename (host_os d) local))) = Ok tt ->
        sb_put d fm local dist
          = [on_put_file (os_path_basename (host_os d) local)])
  /\ (forall dist e,
        and_then (self_serial fm)
          (fun _ => microfs_put d local
                      (Some (dist ++ "/"
                             ++ os_path_basename (host_os d) local))) = Raise e ->
        sb_put d fm local dist = [on_put_fail local])
  /\ os_path_basename (host_os d) local <> local
  /\ on_put_file (os_path_basename (host_os d) local) <> on_put_file local.
Proof.
  intros Hdir. repeat split.
  - intros target H ->. unfold put. now rewrite H.
  - intros e H. unfold put. now rewrite H.
  - intros dist H. unfold sb_put. now rewrite H.
  - intros dist e H. unfold sb_put. now rewrite H.
  - now apply os_path_basename_differs.
  - intros E. injection E as E. now apply (os_path_basename_differs Hdir).
Qed.

Lemma put_payloads_differ_witness :
  put (device_with []) {| port := "/dev/ttyACM0"; serial_bound := true |}
    "/home/user/mu_code/main.py" = [on_put_file "main.py"]
  /\ put unplugged {| port := "/dev/ttyACM0"; serial_bound := true |}
       "/home/user/mu_code/main.py"
     = [on_put_fail "/home/user/mu_code/main.py"]
  /\ put (on_host "nt" (device_with []))
       {| port := "COM3"; serial_bound := true |}
       "C:/Users/me\main.py" = [on_put_file "main.py"]
  /\ sb_put (on_host "nt" unplugged)
       {| port := "COM3"; serial_bound := true |}
       "C:\Users\me\main.py" "usr"
     = [on_put_fail "C:\Users\me\main.py"].
Proof.
  assert (Hdir : has_directory "posix" "/home/user/mu_code/main.py")
    by (left; apply bytes_in_iff; reflexivity).
  assert (Hmix : has_directory "nt" "C:/Users/me\main.py")
    by (left; apply bytes_in_iff; reflexivity).
  assert (Hwin : has_directory "nt" "C:\Users\me\main.py")
    by (right; split; [reflexivity | apply bytes_in_iff; reflexivity]).
  split; [| split; [| split]].
  - refine (proj1 (@put_payloads_differ (device_with [])
                     {| port := "/dev/ttyACM0"; serial_bound := true |} _ Hdir)
              None eq_refl eq_refl).
  - refine (proj1 (proj2 (@put_payloads_differ unplugged
                            {| port := "/dev/ttyACM0"; serial_bound := true |}
                            _ Hdir))
              (IOError "no device") eq_refl).
  - refine (proj1 (@put_payloads_differ (on_host "nt" (device_with []))
                     {| port := "COM3"; serial_bound := true |} _ Hmix)
              None eq_refl eq_refl).
  - refine (proj1 (proj2 (proj2 (proj2
              (@put_payloads_differ (on_host "nt" unplugged)
                 {| port := "COM3"; serial_bound := true |} _ Hwin))))
              "usr" (IOError "no device") eq_refl).
Defined.

(** ** Library installation *)

Import Install.


(** One turn of the loop of [install] records the output under the
    library's name with [install_entry]. *)
Lemma install_loop_records (py_str : string -> string) (w : world)
    (lib out err : string) (inc : script) :
  sbfs_send_cmd (env w) ["import upip"; "upip.install('" ++ lib ++ "')"]
    (incoming w) = (Ok (out, err), inc) ->
  install_loop py_str [lib] [] w =
    (Ok (Some [(lib, install_entry out (py_str out))]),
     advanced w inc (rx w)
       [EvSendCmd ["import upip"; "upip.install('" ++ lib ++ "')"]]).
Proof.
  intros H. unfold install_loop, try_except_IOError, try_except, send_cmd.
  run_monad. simpl in H. rewrite H. reflexivity.
Qed.


(** ** Closing the link, and what the toggles keep *)

Import Runner.

(** X1. [close_serial_link] closes an open or failed port once and sets
    [self.serial] to [None]: the one call it makes is [close()], and
    nothing else of the world changes. Called again, or on a link that
    is already [None], it makes no call and changes nothing. It raises
    only when [self.serial] was never assigned, and makes no call
    then. *)
Theorem close_serial_link_idempotent (w : world) :
  (forall is_open,
      serial (self w) = QPort is_open ->
      close_serial_link w =
        (Ok tt,
         {| self := with_serial NoneValue (self w); env := env w;
            incoming := incoming w; rx := rx w;
            log := log w ++ [EvClose] |}))
  /\ (serial (self w) = NoneValue -> close_serial_link w = (Ok tt, w))
  /\ (serial (self w) = Unbound ->
      close_serial_link w = (Raise (AttributeError "serial"), w))
  /\ (serial (self w) <> Unbound ->
      fst (close_serial_link w) = Ok tt
      /\ serial (self (snd (close_serial_link w))) = NoneValue
      /\ close_serial_link (snd (close_serial_link w))
         = (Ok tt, snd (close_serial_link w))
      /\ log (snd (close_serial_link (snd (close_serial_link w))))
         = log (snd (close_serial_link w))).
Proof.
  unfold close_serial_link. run_monad.
  destruct w as [a h inc pend tr]. destruct a as [r p f s t]. simpl in *.
  split; [| split; [| split]].
  - intros is_open ->. reflexivity.
  - intros ->. reflexivity.
  - intros ->. reflexivity.
  - intros H. destruct s; [congruence | |]; simpl; repeat split.
Qed.

Lemma close_serial_link_idempotent_witness :
  close_serial_link (world_of linked good_host [])
  = (Ok tt,
     {| self := with_serial NoneValue linked; env := good_host;
        incoming := []; rx := ""; log := [EvClose] |})
  /\ log (snd (close_serial_link
                 (snd (close_serial_link (world_of linked good_host [])))))
     = [EvClose].
Proof.
  pose proof (@close_serial_link_idempotent (world_of linked good_host []))
    as [H1 [_ [_ H4]]].
  split.
  - exact (H1 true eq_refl).
  - destruct H4 as [_ [_ [_ H]]]; [discriminate |].
    rewrite H. rewrite (H1 true eq_refl). reflexivity.
Defined.

Ltac split_world w :=
  let a := fresh "a" in
  let r := fresh "r" in let p := fresh "p" in let f := fresh "f" in
  let s := fresh "s" in let t := fresh "t" in
  destruct w as [a ? ? ? ?]; destruct a as [r p f s t];
  destruct r as [[|]|]; destruct p as [[|]|]; destruct f; destruct t.

Ltac split_device h :=
  destruct (Locator.find_device (os_name h) valid_boards (available_ports h))
    as [[[? |] ?] | ?]; simpl;
  try match goal with
      | |- context [String.eqb ?port ""] => destruct (String.eqb port "")
      end; simpl.

Ltac split_exn e := destruct e; simpl.

Ltac unfold_toggles :=
  unfold is_connecting, on_data_flood, micropython_on_data_flood,
    base_on_data_flood, toggle_repl, toggle_plotter, toggle_files,
    base_toggle_repl, base_toggle_plotter, add_repl, remove_repl,
    add_plotter, remove_plotter, add_fs, remove_fs, set_buttons,
    timer_start_if_idle, timer_stop_if_active, show_message,
    self_find_device, try_except, truthy_str.

Ltac split_oracles :=
  repeat match goal with
    | |- context [Locator.find_device (os_name ?h) valid_boards (available_ports ?h)] =>
        destruct (Locator.find_device (os_name h) valid_boards (available_ports h))
          as [[[? |] ?] | ?]; simpl
    | |- context [String.eqb ?port ""] =>
        destruct (String.eqb port ""); simpl
    | |- context [view_add_repl ?h ?p] =>
        destruct (view_add_repl h p) as [[] | [? | ? | ? | ? | ? | ? | ? | ? | []]]; simpl
    | |- context [view_add_plotter ?h ?p] =>
        destruct (view_add_plotter h p) as [[] | [? | ? | ? | ? | ? | ? | ? | ? | []]]; simpl
    | |- context [plotter_data_saved ?h] =>
        destruct (plotter_data_saved h) as [[] | ?]; simpl
    end.

(** X2. The one-second presence poll follows the consumers of the port:
    if the timer runs exactly when the REPL or the plotter is shown, the
    same holds after [toggle_repl], after [toggle_plotter] and after
    [toggle_files], whatever the device and the view do and also when
    the toggle ends with an exception. *)
Theorem poll_follows_consumers (w : world) :
  poll_matches (self w) ->
  poll_matches (self (snd (toggle_repl w)))
  /\ poll_matches (self (snd (toggle_plotter w)))
  /\ poll_matches (self (snd (toggle_files w))).
Proof.
  unfold poll_matches. intros H. repeat split; revert H;
    split_world w; unfold_toggles; run_monad; intros H;
    try discriminate; try reflexivity;
    split_oracles; try discriminate; reflexivity.
Qed.

Lemma poll_follows_consumers_witness :
  poll_matches (self (snd (toggle_repl (world_of idle good_host []))))
  /\ poll_matches (self (snd (toggle_plotter (world_of plotting good_host [])))).
Proof.
  split.
  - refine (proj1 (@poll_follows_consumers (world_of idle good_host []) _)).
    reflexivity.
  - refine (proj1 (proj2
              (@poll_follows_consumers (world_of plotting good_host []) _))).
    reflexivity.
Defined.

(** X3. The file system pane and the REPL are never shown together:
    if they are not, they are not after [toggle_repl], [toggle_plotter],
    [toggle_files], [is_connecting] or [on_data_flood], whatever the
    device and the view do. *)
Theorem repl_and_files_stay_exclusive (w : world) :
  exclusive (self w) ->
  exclusive (self (snd (toggle_repl w)))
  /\ exclusive (self (snd (toggle_plotter w)))
  /\ exclusive (self (snd (toggle_files w)))
  /\ exclusive (self (snd (is_connecting w)))
  /\ exclusive (self (snd (on_data_flood w))).
Proof.
  unfold exclusive. intros H. repeat split; revert H;
    split_world w; unfold_toggles; run_monad; intros H;
    try (intros _; reflexivity); try (now apply H);
    split_oracles; try (intros _; reflexivity); try (now apply H);
    try (intros E; now elim E).
Qed.

Lemma repl_and_files_stay_exclusive_witness :
  exclusive (self (snd (toggle_files (world_of idle good_host []))))
  /\ exclusive (self (snd (toggle_repl
                            (snd (toggle_files (world_of idle good_host [])))))).
Proof.
  assert (H0 : exclusive (self (world_of idle good_host [])))
    by (intros E; now elim E).
  pose proof (proj1 (proj2 (proj2 (@repl_and_files_stay_exclusive _ H0)))) as H1.
  split; [exact H1 |].
  exact (proj1 (@repl_and_files_stay_exclusive _ H1)).
Defined.

Ltac open_world w :=
  let a := fresh "a" in
  destruct w as [a ? ? ? ?]; destruct a as [? ? ? ? ?]; simpl in *.

(** X4. Switching the REPL on and off again: with no file system pane,
    no REPL, no plotter and no poll running, and a board the view can
    attach to, two calls of [toggle_repl] start the REPL, disable the
    Files and Flash buttons and start the poll, then remove the REPL,
    enable the buttons and stop the poll. The mode ends as it began but
    for [repl], which is [False]. *)
Theorem toggle_repl_on_off (w : world) (port : string) (sn : option string) :
  fs (self w) = None ->
  truthy (repl (self w)) = false ->
  truthy (plotter (self w)) = false ->
  timer_active (self w) = false ->
  Locator.find_device (os_name (env w)) valid_boards (available_ports (env w))
    = Ok (Some port, sn) ->
  port <> "" ->
  view_add_repl (env w) port = Ok tt ->
  (toggle_repl ;; toggle_repl) w =
    (Ok tt,
     {| self := with_repl (Some false) (self w); env := env w;
        incoming := incoming w; rx := rx w;
        log := log w ++
          [ EvAddRepl port;
            EvSetButtons [("files_sb", false); ("flash_sb", false)];
            EvTimerStart 1000;
            EvRemoveRepl;
            EvSetButtons [("files_sb", true); ("flash_sb", true)];
            EvTimerStop ] |}).
Proof.
  open_world w. intros -> Hr Hp -> Hf Hport Hv.
  apply String.eqb_neq in Hport.
  destruct repl0 as [[|]|]; try discriminate;
    destruct plotter0 as [[|]|]; try discriminate;
    unfold_toggles; run_monad; rewrite Hf; simpl;
    rewrite Hport; simpl; rewrite Hv; simpl;
    unfold with_repl; simpl; rewrite <- !app_assoc; reflexivity.
Qed.

Lemma toggle_repl_on_off_witness :
  self (snd ((toggle_repl ;; toggle_repl) (world_of idle good_host [])))
  = with_repl (Some false) idle.
Proof.
  rewrite (@toggle_repl_on_off (world_of idle good_host []) "/dev/ttyACM0"
             (Some "SB0001"));
    try reflexivity.
  discriminate.
Defined.

(** X5. Switching the file system pane on and off again: with no REPL
    and no pane, and a board attached, two calls of [toggle_files] add
    the pane, disable Run, REPL, Plotter and Flash, then remove the pane
    and enable the four buttons; the mode ends exactly as it began. With
    no board attached one call shows the not-found message and changes
    nothing. *)
Theorem toggle_files_on_off (w : world) :
  truthy (repl (self w)) = false ->
  fs (self w) = None ->
  (forall port sn,
      Locator.find_device (os_name (env w)) valid_boards
        (available_ports (env w)) = Ok (Some port, sn) ->
      port <> "" ->
      (toggle_files ;; toggle_files) w =
        (Ok tt,
         advanced w (incoming w) (rx w)
           [ EvAddFilesystem port;
             EvSetButtons [("run", false); ("repl", false);
                           ("plotter", false); ("flash_sb", false)];
             EvRemoveFilesystem;
             EvSetButtons [("run", true); ("repl", true);
                           ("plotter", true); ("flash_sb", true)] ]))
  /\ (Locator.find_device (os_name (env w)) valid_boards
        (available_ports (env w)) = Ok (None, None) ->
      toggle_files w =
        (Ok tt,
         advanced w (incoming w) (rx w) [EvShowMessage message information])).
Proof.
  open_world w. intros Hr ->. split.
  - intros port sn Hf Hport. apply String.eqb_neq in Hport.
    destruct repl0 as [[|]|]; try discriminate;
      unfold_toggles; run_monad; rewrite Hf; simpl;
      rewrite Hport; simpl;
      unfold advanced; simpl; rewrite <- !app_assoc; reflexivity.
  - intros Hf.
    destruct repl0 as [[|]|]; try discriminate;
      unfold_toggles; run_monad; rewrite Hf; reflexivity.
Qed.

Lemma toggle_files_on_off_witness :
  self (snd ((toggle_files ;; toggle_files) (world_of idle good_host [])))
  = idle.
Proof.
  rewrite (proj1 (@toggle_files_on_off (world_of idle good_host [])
                    eq_refl eq_refl) "/dev/ttyACM0" (Some "SB0001"));
    try reflexivity.
  discriminate.
Defined.

(** X6. The presence poll: while the board is found, [is_connecting]
    makes no call and changes nothing. When no port matches (and no file
    system pane is shown), it stops the timer, removes the REPL and the
    plotter if they are shown, enables the Files and Flash buttons once
    the last of them is gone, and ends with the not-found message, the
    only message of the run; afterwards neither consumer is shown and
    the timer is off. *)
Theorem is_connecting_tears_down (w : world) :
  (forall port sn,
      Locator.find_device (os_name (env w)) valid_boards
        (available_ports (env w)) = Ok (Some port, sn) ->
      port <> "" ->
      is_connecting w = (Ok tt, w))
  /\ (Locator.find_device (os_name (env w)) valid_boards
        (available_ports (env w)) = Ok (None, None) ->
      fs (self w) = None ->
      plotter_data_saved (env w) = Ok tt ->
      let r := truthy (repl (self w)) in
      let p := truthy (plotter (self w)) in
      let buttons_on :=
        EvSetButtons [("files_sb", true); ("flash_sb", true)] in
      is_connecting w =
        (Ok tt,
         {| self :=
              with_timer false
                (with_plotter (if p then None else plotter (self w))
                   (with_repl (if r then Some false else repl (self w))
                      (self w)));
            env := env w; incoming := incoming w; rx := rx w;
            log := log w
              ++ [EvTimerStop]
              ++ (if r then [EvRemoveRepl] else [])
              ++ (if r && negb p then [buttons_on] else [])
              ++ (if p then [EvRemovePlotter; buttons_on] else [])
              ++ [EvShowMessage message information] |})).
Proof.
  split.
  - intros port sn Hf Hport. apply String.eqb_neq in Hport.
    unfold_toggles. run_monad. rewrite Hf. simpl. rewrite Hport.
    destruct w; reflexivity.
  - open_world w. intros Hf -> Hs.
    destruct repl0 as [[|]|]; destruct plotter0 as [[|]|];
      unfold_toggles; run_monad; rewrite Hf; simpl; rewrite ?Hs; simpl;
      unfold with_timer, with_plotter, with_repl; simpl;
      rewrite <- ?app_assoc; reflexivity.
Qed.

Lemma is_connecting_tears_down_witness :
  is_connecting (world_of plotting good_host [])
  = (Ok tt, world_of plotting good_host [])
  /\ self (snd (is_connecting (world_of streaming unplugged_host [])))
     = with_repl (Some false) idle.
Proof.
  split.
  - refine (proj1 (@is_connecting_tears_down (world_of plotting good_host []))
              "/dev/ttyACM0" (Some "SB0001") eq_refl _).
    discriminate.
  - rewrite (proj2 (@is_connecting_tears_down
                      (world_of streaming unplugged_host []))
               eq_refl eq_refl eq_refl).
    reflexivity.
Defined.

(** ** What the serial operations leave alone *)

Lemma tso_ret {A} (a : A) : touches_serial_only (ret a).
Proof. intros w. repeat split. Qed.

Lemma tso_raise {A} (e : exn) : touches_serial_only (@raise A e).
Proof. intros w. repeat split. Qed.

Lemma tso_lift {A} (r : result A) : touches_serial_only (lift r).
Proof. intros w. repeat split. Qed.

Lemma tso_emit (e : event) : touches_serial_only (emit e).
Proof. intros w. repeat split. Qed.

Lemma tso_ask {A} (f : host -> A) : touches_serial_only (ask f).
Proof. intros w. repeat split. Qed.

Lemma tso_attr {A} (f : attrs -> A) : touches_serial_only (attr f).
Proof. intros w. repeat split. Qed.

Lemma tso_get_incoming : touches_serial_only get_incoming.
Proof. intros w. repeat split. Qed.

Lemma tso_get_rx : touches_serial_only get_rx.
Proof. intros w. repeat split. Qed.

Lemma tso_set_incoming (s : script) : touches_serial_only (set_incoming s).
Proof. intros w. repeat split. Qed.

Lemma tso_set_rx (b : string) : touches_serial_only (set_rx b).
Proof. intros w. repeat split. Qed.

Lemma tso_assign_serial (v : serial_attr) :
  touches_serial_only (assign (with_serial v)).
Proof. intros w. repeat split. Qed.

Lemma tso_bind {A B} (m : M A) (k : A -> M B) :
  touches_serial_only m -> (forall a, touches_serial_only (k a)) ->
  touches_serial_only (bind m k).
Proof.
  intros Hm Hk w. unfold bind. specialize (Hm w).
  destruct (m w) as [[a|e] w1]; simpl in Hm; [| exact Hm].
  specialize (Hk a w1).
  destruct Hm as [E1 [E2 [E3 [E4 E5]]]], Hk as [F1 [F2 [F3 [F4 F5]]]].
  repeat split; congruence.
Qed.

Lemma tso_try_except {A} (body : M A) (handler : exn -> M A) :
  touches_serial_only body -> (forall e, touches_serial_only (handler e)) ->
  touches_serial_only (try_except body handler).
Proof.
  intros Hm Hk w. unfold try_except. specialize (Hm w).
  destruct (body w) as [[a|e] w1]; simpl in Hm; [exact Hm |].
  specialize (Hk e w1).
  destruct Hm as [E1 [E2 [E3 [E4 E5]]]], Hk as [F1 [F2 [F3 [F4 F5]]]].
  repeat split; congruence.
Qed.

Lemma tso_handshake_only {A} (m : M A) :
  handshake_only m -> touches_serial_only m.
Proof.
  intros H w. destruct (H w) as [r [inc [pend [tr [E _]]]]].
  rewrite E. repeat split.
Qed.

Ltac tso_prim :=
  first
    [ apply tso_ret | apply tso_raise | apply tso_lift | apply tso_emit
    | apply tso_ask | apply tso_attr | apply tso_get_incoming
    | apply tso_get_rx | apply tso_set_incoming | apply tso_set_rx
    | apply tso_assign_serial
    | apply tso_handshake_only; apply handshake_only_reboot_and_prompt
    | apply tso_handshake_only; apply handshake_only_reboot ].

Ltac tso_struct :=
  first
    [ apply tso_bind; [| intros ?]
    | apply tso_try_except; [| intros ?]
    | match goal with
      | |- touches_serial_only (match ?x with _ => _ end) => destruct x
      | |- touches_serial_only (if ?b then _ else _) => destruct b
      end ].

Ltac tso_auto := repeat first [ tso_prim | tso_struct ].

Lemma tso_open_serial_link (globals : list string) (port : option string) :
  touches_serial_only (open_serial_link globals port).
Proof.
  unfold open_serial_link, setPortName, qserial_open, qserial_close,
    setDataTerminalReady, isDataTerminalReady, load_global, pyserial_set_dtr.
  tso_auto.
Qed.

Lemma tso_close_serial_link : touches_serial_only close_serial_link.
Proof. unfold close_serial_link. tso_auto. Qed.

Lemma tso_self_find_device : touches_serial_only self_find_device.
Proof. unfold self_find_device. tso_auto. Qed.

Lemma tso_sbfs_execute_call (c : list string) :
  touches_serial_only (sbfs_execute_call c).
Proof. unfold sbfs_execute_call. tso_auto. Qed.

Lemma tso_sbfs_put_call (a b : string) : touches_serial_only (sbfs_put_call a b).
Proof. unfold sbfs_put_call. tso_auto. Qed.

Lemma tso_send_cmd (c : list string) : touches_serial_only (send_cmd c).
Proof. unfold send_cmd. tso_auto. Qed.

Ltac tso_known :=
  first [ apply tso_open_serial_link | apply tso_close_serial_link
        | apply tso_self_find_device | apply tso_sbfs_execute_call
        | apply tso_sbfs_put_call | apply tso_send_cmd ].

Ltac tso_all := repeat first [ tso_prim | tso_known | tso_struct ].

Lemma tso_initialize : touches_serial_only initialize.
Proof. unfold initialize, try_except_IOError. tso_all. Qed.

Lemma tso_toggle_flash : touches_serial_only toggle_flash.
Proof.
  unfold toggle_flash, flash_open, flash_save, flash_reboot, flash_upload,
    flash_restart, save, upload, restart, show_message, critical.
  tso_all.
Qed.

Lemma tso_install_loop (py_str : string -> string) (libs : list string) :
  forall result, touches_serial_only (install_loop py_str libs result).
Proof.
  induction libs as [|lib rest IH]; intros result; simpl.
  - apply tso_ret.
  - unfold try_except_IOError, critical.
    apply tso_bind; [tso_all |].
    intros [[out err]|]; [apply IH | apply tso_ret].
Qed.

Lemma tso_install (py_str : string -> string) (text : string) :
  touches_serial_only (install py_str text).
Proof.
  unfold install, show_message, critical.
  apply tso_bind; [tso_all |]. intros [|]; simpl; [| apply tso_ret].
  apply tso_bind; [apply tso_install_loop |].
  intros [result|]; tso_all.
Qed.

(** X7. Flashing, [initialize] and the library installer use the serial
    link only: whatever happens, they leave [repl], [plotter], [fs] and
    the poll timer of the mode as they were. *)
Theorem serial_operations_keep_consumers (w : world) :
  (repl (self (snd (toggle_flash w))) = repl (self w)
   /\ plotter (self (snd (toggle_flash w))) = plotter (self w)
   /\ fs (self (snd (toggle_flash w))) = fs (self w)
   /\ timer_active (self (snd (toggle_flash w))) = timer_active (self w))
  /\ (repl (self (snd (initialize w))) = repl (self w)
      /\ plotter (self (snd (initialize w))) = plotter (self w)
      /\ fs (self (snd (initialize w))) = fs (self w)
      /\ timer_active (self (snd (initialize w))) = timer_active (self w))
  /\ (forall py_str text,
        repl (self (snd (install py_str text w))) = repl (self w)
        /\ plotter (self (snd (install py_str text w))) = plotter (self w)
        /\ fs (self (snd (install py_str text w))) = fs (self w)
        /\ timer_active (self (snd (install py_str text w)))
           = timer_active (self w)).
Proof.
  split; [| split].
  - apply (tso_toggle_flash w).
  - apply (tso_initialize w).
  - intros py_str text. apply (tso_install py_str text w).
Qed.

(** ** [initialize] and [run] *)

Lemma initialize_open_outcome (w : world) :
  (exists port sn w1,
      try_except
        (found <- self_find_device ;;
         open_serial_link studuinobit_globals (fst found))
        (fun _ => raise (Exception "Open Serial Error")) w = (Ok tt, w1)
      /\ Locator.find_device (os_name (env w)) valid_boards
           (available_ports (env w)) = Ok (Some port, sn)
      /\ env w1 = env w
      /\ serial (self w1) = QPort true)
  \/ (exists w1,
        try_except
          (found <- self_find_device ;;
           open_serial_link studuinobit_globals (fst found))
          (fun _ => raise (Exception "Open Serial Error")) w
        = (Raise (Exception "Open Serial Error"), w1)).
Proof.
  unfold try_except, self_find_device, open_serial_link,
    setPortName, qserial_open, qserial_close, setDataTerminalReady,
    isDataTerminalReady, load_global, pyserial_set_dtr.
  run_monad.
  destruct (Locator.find_device (os_name (env w)) valid_boards
              (available_ports (env w))) as [[[p|] sn]|e]; simpl.
  - destruct (port_opens (env w)); simpl.
    + destruct (dtr_effective (env w)); simpl.
      * left. eexists p, sn, _. repeat split.
      * right. eexists. reflexivity.
    + right. eexists. reflexivity.
  - right. eexists. reflexivity.
  - right. eexists. reflexivity.
Qed.

(** The five ways in which [initialize] ends; in the last one the
    exception is the one [sbfs.execute] raised. *)
Lemma initialize_cases_of_execute (w : world) :
  (fst (initialize w) = Ok true
   /\ serial (self (snd (initialize w))) = NoneValue
   /\ In (EvExecute reset_slot_command) (log (snd (initialize w)))
   /\ exists port sn,
        Locator.find_device (os_name (env w)) valid_boards
          (available_ports (env w)) = Ok (Some port, sn))
  \/ fst (initialize w) = Raise (Exception "Open Serial Error")
  \/ (fst (initialize w) = Raise (Exception "Reboot Error")
      /\ serial (self (snd (initialize w))) = NoneValue)
  \/ (fst (initialize w) = Raise (Exception "Reset Error")
      /\ serial (self (snd (initialize w))) = NoneValue)
  \/ (exists e inc,
        fst (initialize w) = Raise e
        /\ is_IOError e = false
        /\ serial (self (snd (initialize w))) = QPort true
        /\ fst (sbfs_execute (env w) reset_slot_command inc) = Raise e).
Proof.
  unfold initialize.
  destruct (initialize_open_outcome w)
    as [[port [sn [w1 [E [Hf [He Hs]]]]]] | [w1 E]].
  2:{ right; left. rewrite (bind_raise _ _ _ E). reflexivity. }
  rewrite (bind_ok _ _ _ E).
  destruct (reboot_and_prompt_starts_with_write w1 Hs)
    as [r [inc [pend [tr [E2 F]]]]].
  unfold try_except_IOError, try_except, bind. rewrite E2.
  destruct r as [[]|e].
  2:{ right; right; left.
      unfold close_serial_link. run_monad. rewrite Hs. simpl. split; reflexivity. }
  unfold sbfs_execute_call, close_serial_link.
  run_monad.
  destruct (fst (sbfs_execute (env w1) reset_slot_command inc)) as [[]|e] eqn:Ex;
    simpl.
  - left. rewrite Hs. simpl. repeat split.
    + rewrite !in_app_iff. left. right. left. reflexivity.
    + now exists port, sn.
  - destruct (is_IOError e) eqn:Hio; simpl.
    + right; right; right; left. rewrite Hs. simpl. split; reflexivity.
    + right; right; right; right. exists e, inc.
      repeat split; try assumption. rewrite <- He. exact Ex.
Qed.

Lemma initialize_cases (w : world) :
  (fst (initialize w) = Ok true
   /\ serial (self (snd (initialize w))) = NoneValue
   /\ In (EvExecute reset_slot_command) (log (snd (initialize w)))
   /\ exists port sn,
        Locator.find_device (os_name (env w)) valid_boards
          (available_ports (env w)) = Ok (Some port, sn))
  \/ fst (initialize w) = Raise (Exception "Open Serial Error")
  \/ (fst (initialize w) = Raise (Exception "Reboot Error")
      /\ serial (self (snd (initialize w))) = NoneValue)
  \/ (fst (initialize w) = Raise (Exception "Reset Error")
      /\ serial (self (snd (initialize w))) = NoneValue)
  \/ (exists e,
        fst (initialize w) = Raise e
        /\ is_IOError e = false
        /\ serial (self (snd (initialize w))) = QPort true).
Proof.
  destruct (initialize_cases_of_execute w)
    as [H | [H | [H | [H | [e [inc [H1 [H2 [H3 _]]]]]]]]]; auto.
  right; right; right; right. now exists e.
Qed.


(** X8. [initialize] ends in one of five ways: it hands back [True]
    with the slot command executed and the link closed; it raises
    [Open Serial Error] when the board is not found or the port does
    not open; it raises [Reboot Error] or [Reset Error] with the link
    closed; or [sbfs.execute] raised an exception that is not an
    [IOError], which then leaves [initialize] as it is with the port
    still open, as on a host where [sbfs.execute] raises [TypeError]. *)
Theorem initialize_outcomes (w : world) :
  ((fst (initialize w) = Ok true
   /\ serial (self (snd (initialize w))) = NoneValue
   /\ In (EvExecute reset_slot_command) (log (snd (initialize w)))
   /\ exists port sn,
        Locator.find_device (os_name (env w)) valid_boards
          (available_ports (env w)) = Ok (Some port, sn))
  \/ fst (initialize w) = Raise (Exception "Open Serial Error")
  \/ (fst (initialize w) = Raise (Exception "Reboot Error")
      /\ serial (self (snd (initialize w))) = NoneValue)
  \/ (fst (initialize w) = Raise (Exception "Reset Error")
      /\ serial (self (snd (initialize w))) = NoneValue)
  \/ (exists e,
        fst (initialize w) = Raise e
        /\ is_IOError e = false
        /\ serial (self (snd (initialize w))) = QPort true))
  /\ (fst (initialize (world_of idle execute_breaks_host flash_script))
      = Raise (TypeError "bad reply")
      /\ serial (self (snd (initialize
                              (world_of idle execute_breaks_host flash_script))))
         = QPort true).
Proof.
  split; [apply initialize_cases | split; reflexivity].
Qed.








(** ** Lines of text *)

Lemma rfind_app (c : ascii) (x y : string) :
  rfind c (x ++ y) =
  if 0 <=? rfind c y then Z.of_nat (String.length x) + rfind c y
  else rfind c x.
Proof.
  induction x as [|a x IH].
  - simpl. destruct (0 <=? rfind c y) eqn:E; [lia |].
    apply Z.leb_gt in E. pose proof (rfind_bounds c y). lia.
  - change (rfind c (String a x ++ y))
      with (let r := rfind c (x ++ y) in
            if 0 <=? r then r + 1
            else if Ascii.eqb a c then 0 else -1).
    cbv zeta. rewrite IH.
    destruct (0 <=? rfind c y) eqn:E.
    + apply Z.leb_le in E.
      replace (0 <=? Z.of_nat (String.length x) + rfind c y) with true
        by (symmetry; apply Z.leb_le; lia).
      simpl String.length. lia.
    + reflexivity.
Qed.

Lemma rfind_some (c : ascii) (s : string) :
  0 <= rfind c s -> Substring (String c "") s.
Proof.
  induction s as [|a s IH]; simpl; [lia |].
  destruct (0 <=? rfind c s) eqn:E.
  - intros _. apply Z.leb_le in E. destruct (IH E) as [pre [post H]].
    exists (String a pre), post. simpl. now rewrite H.
  - destruct (Ascii.eqb a c) eqn:Ea; [| lia].
    intros _. apply Ascii.eqb_eq in Ea. subst a. now exists "", s.
Qed.

Lemma rfind_none (c : ascii) (s : string) :
  rfind c s = -1 <-> ~ Substring (String c "") s.
Proof.
  split.
  - intros H Hs. apply rfind_found in Hs. lia.
  - intros H. pose proof (rfind_bounds c s).
    destruct (Z.eq_dec (rfind c s) (-1)) as [E|E]; [exact E |].
    exfalso. apply H, rfind_some. lia.
Qed.

Lemma split_on_nonempty (c : ascii) (s : string) :
  forall cur, split_on c cur s <> [].
Proof.
  induction s as [|a s IH]; intros cur; simpl; [discriminate |].
  destruct (Ascii.eqb a c); [discriminate | apply IH].
Qed.

Lemma concat_cons_more (sep x : string) (xs : list string) :
  xs <> [] -> String.concat sep (x :: xs) = x ++ sep ++ String.concat sep xs.
Proof. destruct xs; [congruence | reflexivity]. Qed.

Lemma split_on_concat (c : ascii) (s : string) :
  forall cur, String.concat (String c "") (split_on c cur s) = cur ++ s.
Proof.
  induction s as [|a s IH]; intros cur.
  - simpl. now rewrite append_nil_r.
  - change (split_on c cur (String a s))
      with (if Ascii.eqb a c then cur :: split_on c EmptyString s
            else split_on c (cur ++ String a EmptyString) s).
    destruct (Ascii.eqb a c) eqn:E.
    + apply Ascii.eqb_eq in E. subst a.
      rewrite concat_cons_more by apply split_on_nonempty.
      rewrite IH. reflexivity.
    + rewrite IH, append_assoc. reflexivity.
Qed.

Lemma split_on_free (c : ascii) (s : string) :
  forall cur,
    rfind c cur = -1 ->
    Forall (fun l => rfind c l = -1) (split_on c cur s).
Proof.
  induction s as [|a s IH]; intros cur Hc; simpl.
  - constructor; [exact Hc | constructor].
  - destruct (Ascii.eqb a c) eqn:E.
    + constructor; [exact Hc | apply IH; reflexivity].
    + apply IH. rewrite rfind_app. simpl. rewrite E. simpl. exact Hc.
Qed.

Lemma replace_crlf_without_cr (s : string) :
  ~ Substring CR s -> replace_crlf s = s.
Proof.
  induction s as [|c s IH]; intros H; [reflexivity |].
  assert (Hc : Ascii.eqb c "013"%char = false).
  { apply Ascii.eqb_neq. intros ->. apply H. now exists "", s. }
  assert (Hs : ~ Substring CR s).
  { intros [pre [post E]]. apply H. exists (String c pre), post.
    simpl. now rewrite E. }
  simpl. destruct s as [|d s']; [reflexivity |].
  rewrite Hc. simpl andb. cbv iota. now rewrite (IH Hs).
Qed.

(** X10. The lines [run] sends to the REPL: there is always at least
    one, none of them holds a line feed, and joined by line feeds they
    give the text of the tab with every CR LF replaced by LF, which is
    the text itself when it has no carriage return. *)
Theorem script_lines_rejoin (text : string) :
  script_lines text <> []
  /\ Forall (fun l => ~ Substring LF l) (script_lines text)
  /\ String.concat LF (script_lines text) = replace_crlf text
  /\ (~ Substring CR text -> String.concat LF (script_lines text) = text).
Proof.
  unfold script_lines. split; [apply split_on_nonempty |]. split; [| split].
  - pose proof (@split_on_free "010"%char (replace_crlf text) "" eq_refl) as H.
    eapply Forall_impl; [| exact H]. intros l Hl. now apply rfind_none.
  - apply (split_on_concat "010"%char (replace_crlf text) "").
  - intros H. rewrite <- (replace_crlf_without_cr H) at 2.
    apply (split_on_concat "010"%char (replace_crlf text) "").
Qed.

Lemma script_lines_rejoin_witness :
  String.concat LF (script_lines ("a = 1" ++ LF ++ "print(a)"))
  = "a = 1" ++ LF ++ "print(a)".
Proof.
  refine (proj2 (proj2 (proj2 (script_lines_rejoin
                                 ("a = 1" ++ LF ++ "print(a)")))) _).
  apply bytes_in_false_iff. reflexivity.
Defined.

(** ** Names on the device *)










(** ** Device locator: when it raises *)

(** X12. [find_device] raises exactly when a scanned port matches the
    board table on a platform that is neither POSIX nor Windows, and the
    exception is then the [NotImplementedError] of [port_path] naming
    the platform. With no matching port it never raises, whatever the
    platform. *)
Theorem find_device_raises_iff (os : string) (boards : list board)
    (ports : list port_info) (e : exn) :
  Locator.find_device os boards ports = Raise e <->
  (os <> "posix" /\ os <> "nt"
   /\ (exists p, In p ports /\ Matches boards p)
   /\ e = NotImplementedError
            ("OS " ++ dquote ++ os ++ dquote ++ " not supported.")).
Proof.
  induction ports as [|p ports IH]; simpl.
  - split; [discriminate | intros [_ [_ [[q [[] _]] _]]]].
  - destruct (port_matches boards p) eqn:Hp.
    + apply port_matches_iff in Hp. unfold port_path.
      destruct (String.eqb os "posix") eqn:E1.
      * split; [discriminate |]. intros [H _].
        apply String.eqb_eq in E1. contradiction.
      * destruct (String.eqb os "nt") eqn:E2.
        -- split; [discriminate |]. intros [_ [H _]].
           apply String.eqb_eq in E2. contradiction.
        -- apply String.eqb_neq in E1, E2. split.
           ++ intros H. injection H as <-. repeat split; try assumption.
              exists p. split; [now left | exact Hp].
           ++ intros [_ [_ [_ ->]]]. reflexivity.
    + apply port_matches_false_iff in Hp. rewrite IH. split.
      * intros [H1 [H2 [[q [Hq Hm]] He]]]. repeat split; try assumption.
        exists q. split; [now right | exact Hm].
      * intros [H1 [H2 [[q [[<- | Hq] Hm]] He]]]; [contradiction |].
        repeat split; try assumption. now exists q.
Qed.

Lemma find_device_raises_iff_witness :
  Locator.find_device "java" valid_boards [studuino_port]
  = Raise (NotImplementedError
             ("OS " ++ dquote ++ "java" ++ dquote ++ " not supported.")).
Proof.
  apply (proj2 (find_device_raises_iff "java" valid_boards [studuino_port] _)).
  repeat split; try discriminate.
  exists studuino_port. split; [now left |].
  apply port_matches_iff. reflexivity.
Defined.

(** ** File manager: after [on_start] *)

(** X13. A file manager whose [on_start] cannot open the port emits
    [on_list_fail] and stays without a serial link: every later [ls],
    [tree], [get], [put] and [delete] emits its failure signal, with the
    name it was given, whatever the device would answer. After an
    [on_start] that opened the port, [get] follows [microfs.get] alone. *)
Theorem failed_start_disables_manager (d : device) (fm : manager) :
  serial_bound fm = false ->
  (forall e,
      Serial d (port fm) = Raise e ->
      on_start d fm = (fm, [on_list_fail])
      /\ sb_on_start d fm = (fm, [on_list_fail]))
  /\ ls d fm = [on_list_fail]
  /\ tree d fm = [on_list_fail]
  /\ (forall dev loc, get d fm dev loc = [on_get_fail dev])
  /\ (forall loc, put d fm loc = [on_put_fail loc])
  /\ (forall loc dist, sb_put d fm loc dist = [on_put_fail loc])
  /\ (forall dev, delete d fm dev = [on_delete_fail dev])
  /\ (Serial d (port fm) = Ok tt ->
      forall dev loc,
        get d (fst (on_start d fm)) dev loc =
        match microfs_get d dev loc with
        | Ok _ => [on_get_file dev]
        | Raise _ => [on_get_fail dev]
        end).
Proof.
  intros Hb. unfold on_start, sb_on_start, ls, tree, get, put, sb_put, delete,
    self_serial. rewrite Hb. simpl.
  split; [intros e He; now rewrite He |].
  do 6 (split; [intros; reflexivity |]).
  intros Hs dev loc. rewrite Hs. simpl.
  destruct (microfs_get d dev loc); reflexivity.
Qed.

Lemma failed_start_disables_manager_witness :
  get (device_with ["main.py"])
    (fst (on_start unplugged {| port := "/dev/ttyACM0"; serial_bound := false |}))
    "main.py" "/home/user/mu_code/main.py"
  = [on_get_fail "main.py"].
Proof.
  change (fst (on_start unplugged
                 {| port := "/dev/ttyACM0"; serial_bound := false |}))
    with {| port := "/dev/ttyACM0"; serial_bound := false |}.
  exact (proj1 (proj2 (proj2 (proj2
           (@failed_start_disables_manager (device_with ["main.py"])
              {| port := "/dev/ttyACM0"; serial_bound := false |} eq_refl))))
           "main.py" "/home/user/mu_code/main.py").
Defined.

(** ** The library installer *)

Lemma sent_commands_app (a b : list event) :
  sent_commands (a ++ b) = (sent_commands a ++ sent_commands b)%list.
Proof. apply flat_map_app. Qed.

Lemma quiet_ret {A} (a : A) : quiet (ret a).
Proof. intros w. exists []. split; [now rewrite app_nil_r | reflexivity]. Qed.

Lemma quiet_raise {A} (e : exn) : quiet (@raise A e).
Proof. intros w. exists []. split; [now rewrite app_nil_r | reflexivity]. Qed.

Lemma quiet_lift {A} (r : result A) : quiet (lift r).
Proof. intros w. exists []. split; [now rewrite app_nil_r | reflexivity]. Qed.

Lemma quiet_ask {A} (f : host -> A) : quiet (ask f).
Proof. intros w. exists []. split; [now rewrite app_nil_r | reflexivity]. Qed.

Lemma quiet_attr {A} (f : attrs -> A) : quiet (attr f).
Proof. intros w. exists []. split; [now rewrite app_nil_r | reflexivity]. Qed.

Lemma quiet_assign (f : attrs -> attrs) : quiet (assign f).
Proof. intros w. exists []. split; [now rewrite app_nil_r | reflexivity]. Qed.

Lemma quiet_emit (e : event) : sent_commands [e] = [] -> quiet (emit e).
Proof. intros H w. exists [e]. split; [reflexivity | exact H]. Qed.

Lemma quiet_bind {A B} (m : M A) (k : A -> M B) :
  quiet m -> (forall a, quiet (k a)) -> quiet (bind m k).
Proof.
  intros Hm Hk w. unfold bind. destruct (Hm w) as [t1 [L1 S1]].
  destruct (m w) as [[a|e] w1]; simpl in L1.
  - destruct (Hk a w1) as [t2 [L2 S2]]. exists (t1 ++ t2)%list. split.
    + now rewrite L2, L1, app_assoc.
    + now rewrite sent_commands_app, S1, S2.
  - exists t1. split; assumption.
Qed.

Lemma quiet_try_except {A} (body : M A) (handler : exn -> M A) :
  quiet body -> (forall e, quiet (handler e)) -> quiet (try_except body handler).
Proof.
  intros Hm Hk w. unfold try_except. destruct (Hm w) as [t1 [L1 S1]].
  destruct (body w) as [[a|e] w1]; simpl in L1.
  - exists t1. split; assumption.
  - destruct (Hk e w1) as [t2 [L2 S2]]. exists (t1 ++ t2)%list. split.
    + now rewrite L2, L1, app_assoc.
    + now rewrite sent_commands_app, S1, S2.
Qed.

Ltac quiet_auto :=
  repeat first
    [ apply quiet_ret | apply quiet_raise | apply quiet_lift | apply quiet_ask
    | apply quiet_attr | apply quiet_assign
    | apply quiet_emit; reflexivity
    | apply quiet_bind; [| intros ?]
    | apply quiet_try_except; [| intros ?]
    | match goal with
      | |- quiet (match ?x with _ => _ end) => destruct x
      | |- quiet (if ?b then _ else _) => destruct b
      end ].

Lemma quiet_open_serial_link (globals : list string) (port : option string) :
  quiet (open_serial_link globals port).
Proof.
  unfold open_serial_link, setPortName, qserial_open, qserial_close,
    setDataTerminalReady, isDataTerminalReady, load_global, pyserial_set_dtr.
  quiet_auto.
Qed.

Lemma quiet_close_serial_link : quiet close_serial_link.
Proof. unfold close_serial_link. quiet_auto. Qed.

Lemma quiet_self_find_device : quiet self_find_device.
Proof. unfold self_find_device. quiet_auto. Qed.

Lemma map_fst_dict_update (key value : string) (d : list (string * string)) :
  map fst (dict_update key value d) =
  if existsb (String.eqb key) (map fst d) then map fst d
  else (map fst d ++ [key])%list.
Proof.
  induction d as [|[k v] d IH]; simpl; [reflexivity |].
  rewrite (String.eqb_sym key k).
  destruct (String.eqb k key); simpl; [reflexivity |].
  rewrite IH. destruct (existsb (String.eqb key) (map fst d)); reflexivity.
Qed.

Lemma quiet_wifi_handler (e : exn) :
  quiet (critical "Wi-Fi Connect Error" (exn_str e) ;;
         close_serial_link ;;
         emit (EvSetButtons [("button_conn", true)]) ;;
         ret (@None (string * string))).
Proof.
  unfold critical.
  apply quiet_bind; [apply quiet_emit; reflexivity | intros ?].
  apply quiet_bind; [apply quiet_close_serial_link | intros ?].
  apply quiet_bind; [apply quiet_emit; reflexivity | intros ?].
  apply quiet_ret.
Qed.

Lemma wifi_handler_returns_none (e : exn) (w : world) (o : string * string) :
  fst ((critical "Wi-Fi Connect Error" (exn_str e) ;;
        close_serial_link ;;
        emit (EvSetButtons [("button_conn", true)]) ;;
        ret (@None (string * string))) w) <> Ok (Some o).
Proof.
  unfold critical, close_serial_link. run_monad.
  destruct (serial (self w)); simpl; discriminate.
Qed.

Lemma send_guarded_log (lib : string) (w : world) :
  (exists o, fst (send_guarded lib w) = Ok (Some o)
             /\ log (snd (send_guarded lib w))
                = (log w ++ [EvSendCmd (upip_command lib)])%list)
  \/ ((forall o, fst (send_guarded lib w) <> Ok (Some o))
      /\ exists tr,
           log (snd (send_guarded lib w))
           = (log w ++ EvSendCmd (upip_command lib) :: tr)%list
           /\ sent_commands tr = []).
Proof.
  unfold send_guarded, try_except_IOError, try_except.
  set (body := o <- send_cmd (upip_command lib) ;; ret (Some o)).
  assert (Hb : log (snd (body w))
               = (log w ++ [EvSendCmd (upip_command lib)])%list
               /\ forall a, fst (body w) = Ok a -> exists o, a = Some o).
  { unfold body, send_cmd. run_monad.
    destruct (fst (sbfs_send_cmd (env w) (upip_command lib) (incoming w)))
      as [o|e]; simpl; (split; [reflexivity |]); intros a Ha;
      [inversion Ha; now exists o | discriminate]. }
  destruct Hb as [Lb Rb].
  destruct (body w) as [[a|e] w1]; simpl in Lb.
  - left. destruct (Rb a eq_refl) as [o ->]. exists o. split; [reflexivity | exact Lb].
  - right. destruct (is_IOError e).
    + split; [intros o; apply wifi_handler_returns_none |].
      destruct (@quiet_wifi_handler e w1) as [tr [L S]].
      exists tr. split; [| exact S].
      rewrite L, Lb, <- app_assoc. reflexivity.
    + split; [intros o Ho; discriminate |].
      exists []. split; [exact Lb | reflexivity].
Qed.

(** The keys of the report after [libs] were recorded over [seen]. *)
Lemma install_loop_spec (py_str : string -> string) (libs : list string) :
  forall (result : list (string * string)) (w : world),
  exists k tr,
    log (snd (install_loop py_str libs result w)) = (log w ++ tr)%list
    /\ sent_commands tr = map upip_command (firstn k libs)
    /\ forall r, fst (install_loop py_str libs result w) = Ok (Some r) ->
         k = List.length libs
         /\ map fst r
            = (map fst result ++ first_occurrences libs (map fst result))%list.
Proof.
  induction libs as [|lib rest IH]; intros result w.
  - exists 0%nat, []. simpl. rewrite !app_nil_r.
    split; [reflexivity |]. split; [reflexivity |].
    intros r Hr. inversion Hr. split; reflexivity.
  - assert (E : install_loop py_str (lib :: rest) result w
               = match send_guarded lib w with
                 | (Ok (Some (out, _)), w1) =>
                     install_loop py_str rest
                       (dict_update lib (install_entry out (py_str out)) result)
                       w1
                 | (Ok None, w1) => (Ok None, w1)
                 | (Raise e, w1) => (Raise e, w1)
                 end).
    { change (install_loop py_str (lib :: rest) result)
        with (r <- send_guarded lib ;;
              match r with
              | None => ret None
              | Some (out, _) =>
                  install_loop py_str rest
                    (dict_update lib (install_entry out (py_str out)) result)
              end).
      unfold bind at 1.
      destruct (send_guarded lib w) as [[[[out err]|]|e] w1]; reflexivity. }
    rewrite E. clear E.
    destruct (send_guarded_log lib w) as [[o [Ho Lo]] | [Hno [tr [L S]]]].
    + destruct (send_guarded lib w) as [r w1]. simpl in Ho, Lo. subst r.
      destruct o as [out err].
      destruct (IH (dict_update lib (install_entry out (py_str out)) result) w1)
        as [k [tr [L [S R]]]].
      exists (Datatypes.S k), (EvSendCmd (upip_command lib) :: tr). split.
      * rewrite L, Lo, <- app_assoc. reflexivity.
      * split; [simpl; now rewrite S |].
        intros r Hr. destruct (R r Hr) as [Hk Hm]. split; [simpl; now rewrite Hk |].
        rewrite Hm, map_fst_dict_update. simpl.
        destruct (existsb (String.eqb lib) (map fst result)); [reflexivity |].
        now rewrite <- app_assoc.
    + destruct (send_guarded lib w) as [[[o|]|e] w1]; simpl in *.
      * exfalso. now apply (Hno o).
      * exists 1%nat, (EvSendCmd (upip_command lib) :: tr). split; [exact L |].
        split; [simpl; now rewrite S |]. intros r Hr. discriminate.
      * exists 1%nat, (EvSendCmd (upip_command lib) :: tr). split; [exact L |].
        split; [simpl; now rewrite S |]. intros r Hr. discriminate.
Qed.

Lemma wanted_libs_lines (text : string) :
  Forall (fun lib => lib <> "" /\ rfind "010"%char lib = -1) (wanted_libs text).
Proof.
  unfold wanted_libs. apply Forall_forall. intros lib Hin.
  apply filter_In in Hin. destruct Hin as [Hin Hne]. split.
  - intros ->. discriminate.
  - pose proof (@split_on_free "010"%char text EmptyString eq_refl) as Hf.
    rewrite Forall_forall in Hf. now apply Hf.
Qed.

(** X14. Whatever the device and the host answer, the command lists
    [install] hands to [sbfs.send_cmd] are, in order, the pair
    [import upip], [upip.install('<line>')] for the first [k] lines of the
    text area that are not empty, for some [k]: it stops at the first
    failing line and sends nothing else. Each such line is not empty and
    holds no line feed. *)
Theorem install_sends_lines_in_order (py_str : string -> string)
    (text : string) (w : world) :
  (exists k,
     sent_commands (log (snd (install py_str text w)))
     = (sent_commands (log w)
        ++ map upip_command (firstn k (wanted_libs text)))%list)
  /\ Forall (fun lib => lib <> "" /\ rfind "010"%char lib = -1)
       (wanted_libs text).
Proof.
  split; [| apply wanted_libs_lines].
  unfold install. fold (wanted_libs text).
  set (opening := try_except
                    (found <- self_find_device ;;
                     open_serial_link dialogs_globals (fst found) ;;
                     ret true)
                    (fun e =>
                       critical "Open Serial Error" (exn_str e) ;;
                       emit (EvSetButtons [("button_conn", true)]) ;;
                       ret false)).
  assert (Hq : quiet opening).
  { unfold opening, critical.
    apply quiet_try_except.
    - apply quiet_bind; [apply quiet_self_find_device | intros ?].
      apply quiet_bind; [apply quiet_open_serial_link | intros ?].
      apply quiet_ret.
    - intros e.
      apply quiet_bind; [apply quiet_emit; reflexivity | intros ?].
      apply quiet_bind; [apply quiet_emit; reflexivity | intros ?].
      apply quiet_ret. }
  unfold bind at 1. destruct (Hq w) as [t0 [L0 S0]].
  destruct (opening w) as [[b|e] w0]; simpl in L0.
  - destruct b; cbn [negb]; cbv iota.
    + unfold bind at 1.
      destruct (@install_loop_spec py_str (wanted_libs text) [] w0)
        as [k [tr [L [S _]]]].
      destruct (install_loop py_str (wanted_libs text) [] w0)
        as [[[res|]|e] w1]; simpl in L.
      * assert (Ht : quiet (show_message "UPIP Result" (information_of res) ;;
                            close_serial_link)).
        { unfold show_message.
          apply quiet_bind; [apply quiet_emit; reflexivity | intros ?].
          apply quiet_close_serial_link. }
        destruct (Ht w1) as [t1 [L1 S1]]. exists k.
        rewrite L1, L, L0, !sent_commands_app, S0, S, S1.
        now rewrite !app_nil_r.
      * exists k. simpl.
        rewrite L, L0, !sent_commands_app, S0, S. now rewrite !app_nil_r.
      * exists k. simpl.
        rewrite L, L0, !sent_commands_app, S0, S. now rewrite !app_nil_r.
    + exists 0%nat. simpl. rewrite L0, sent_commands_app, S0. reflexivity.
  - exists 0%nat. simpl. rewrite L0, sent_commands_app, S0. reflexivity.
Qed.

(** X15. When the loop of [install] runs to its end, a command pair was
    sent for every entry of [libs], repeated ones included, while the
    report holds one key for each distinct entry, in the order of first
    appearance: a library named twice is installed twice and reported
    once. *)
Theorem install_loop_reports_each_library_once (py_str : string -> string)
    (libs : list string) (w : world) (result : list (string * string)) :
  fst (install_loop py_str libs [] w) = Ok (Some result) ->
  map fst result = first_occurrences libs []
  /\ sent_commands (log (snd (install_loop py_str libs [] w)))
     = (sent_commands (log w) ++ map upip_command libs)%list.
Proof.
  intros Hr.
  destruct (@install_loop_spec py_str libs [] w) as [k [tr [L [S R]]]].
  destruct (R result Hr) as [Hk Hm]. split; [exact Hm |].
  rewrite L, sent_commands_app, S, Hk, firstn_all. reflexivity.
Qed.

Lemma install_loop_reports_each_library_once_witness :
  map fst [("numpy", install_entry "ok" "b'ok'");
           ("urequests", install_entry "ok" "b'ok'")]
  = ["numpy"; "urequests"]
  /\ sent_commands
       (log (snd (install_loop (fun s => "b'" ++ s ++ "'")
                    ["numpy"; "urequests"; "numpy"] []
                    (world_of idle good_host []))))
     = [upip_command "numpy"; upip_command "urequests"; upip_command "numpy"].
Proof.
  pose proof (@install_loop_reports_each_library_once
                (fun s => "b'" ++ s ++ "'")
                ["numpy"; "urequests"; "numpy"]
                (world_of idle good_host [])
                [("numpy", install_entry "ok" "b'ok'");
                 ("urequests", install_entry "ok" "b'ok'")]
                eq_refl) as [H1 H2].
  split; [exact H1 | exact H2].
Defined.

(** ** What the loop of [install] records *)








(** C9 as stated fails for an output that is not the last one captured
    for its library: with a library listed twice, a first output that
    holds [Error] and a second one that does not, the loop runs to its
    end and no entry of the result is flagged as failed. *)
Lemma install_keeps_last_output_only :
  captured retry_host ["numpy"; "numpy"] [Some "x"]
  = [("numpy", "OSError: [Errno 113] EHOSTUNREACH");
     ("numpy", "Installing numpy")]
  /\ Substring "Error" "OSError: [Errno 113] EHOSTUNREACH"
  /\ fst (install_loop bytes_repr ["numpy"; "numpy"] []
            (world_of linked retry_host [Some "x"]))
     = Ok (Some [("numpy", "OK" ++ LF ++ "b'Installing numpy'" ++ LF)])
  /\ existsb flagged_failed
       (map snd [("numpy", "OK" ++ LF ++ "b'Installing numpy'" ++ LF)])
     = false.
Proof.
  split; [reflexivity |].
  split; [apply bytes_in_iff; reflexivity |].
  split; reflexivity.
Qed.

(** ** The Wi-Fi page *)

Ltac unfold_page :=
  unfold Page.connect, Page.scan, Page.send_or_report,
    Page.library_info_changed, Page.install_on_widget,
    gtry_IOError, gtry, gbind, gret, setw, target, own, serial_set,
    self_find_device, open_serial_link, close_serial_link, send_cmd,
    critical, show_message, setPortName, qserial_open, qserial_close,
    setDataTerminalReady, isDataTerminalReady, load_global,
    pyserial_set_dtr.

Ltac split_send :=
  match goal with
  | |- context [sbfs_send_cmd ?h ?c ?i] =>
      destruct (sbfs_send_cmd h c i) as [[[? ?]|[?|?|?|?|?|?|?|?|[]]] ?]; simpl
  end.

Lemma occurs_app (c : ascii) (x y : string) :
  Page.occurs c (x ++ y) = Page.occurs c x || Page.occurs c y.
Proof.
  induction x as [|a x IH]; simpl; [reflexivity |].
  rewrite IH. now rewrite orb_assoc.
Qed.

Lemma split_on_hd (sep c : ascii) (s : string) :
  forall cur,
    Page.occurs c cur = false ->
    (Page.occurs c s = false \/ c = sep) ->
    Page.occurs c (hd EmptyString (split_on sep cur s)) = false.
Proof.
  induction s as [|a s IH]; intros cur Hc Hs; simpl; [exact Hc |].
  destruct (Ascii.eqb a sep) eqn:E; simpl; [exact Hc |].
  apply IH.
  - rewrite occurs_app, Hc. simpl. rewrite orb_false_r.
    destruct Hs as [Hs | ->]; [| exact E].
    simpl in Hs. now apply orb_false_iff in Hs.
  - destruct Hs as [Hs | ->]; [left | now right].
    simpl in Hs. now apply orb_false_iff in Hs.
Qed.

Lemma tail_from_1_keeps (c : ascii) (s : string) :
  Page.occurs c s = false -> Page.occurs c (Page.tail_from_1 s) = false.
Proof.
  destruct s as [|a s]; simpl; [trivial |].
  intros H. now apply orb_false_iff in H.
Qed.

Lemma drop_quotes_keeps (c : ascii) (s : string) :
  Page.occurs c s = false -> Page.occurs c (Page.drop_quotes s) = false.
Proof.
  induction s as [|a s IH]; simpl; [trivial |].
  intros H. apply orb_false_iff in H. destruct H as [Ha Hs].
  destruct (Ascii.eqb a "'"%char || Ascii.eqb a "\"%char); simpl.
  - now apply IH.
  - rewrite Ha. now apply IH.
Qed.

Lemma drop_quotes_drops (s : string) :
  Page.occurs "'"%char (Page.drop_quotes s) = false
  /\ Page.occurs "\"%char (Page.drop_quotes s) = false.
Proof.
  induction s as [|a s [IH1 IH2]]; simpl; [split; reflexivity |].
  destruct (Ascii.eqb a "'"%char) eqn:E1; simpl; [now split |].
  destruct (Ascii.eqb a "\"%char) eqn:E2; simpl; [now split |].
  rewrite E1, E2. now split.
Qed.

Lemma findall_parens_groups (s : string) :
  forall inside,
    (forall g, inside = Some g ->
               Page.occurs ")"%char g = false
               /\ Page.occurs "010"%char g = false) ->
    Forall (fun g => Page.occurs ")"%char g = false
                     /\ Page.occurs "010"%char g = false)
      (Page.findall_parens s inside).
Proof.
  induction s as [|a s IH]; intros inside Hin; simpl; [constructor |].
  destruct inside as [g|].
  - destruct (Hin g eq_refl) as [H1 H2].
    destruct (Ascii.eqb a ")"%char) eqn:E1.
    + constructor; [now split |]. apply IH. intros ? [=].
    + destruct (Ascii.eqb a "010"%char) eqn:E2.
      * apply IH. intros ? [=].
      * apply IH. intros g' [= <-].
        rewrite !occurs_app, H1, H2. simpl. rewrite E1, E2. now split.
  - destruct (Ascii.eqb a "("%char); apply IH; intros g Hg;
      inversion Hg; subst; split; reflexivity.
Qed.

Lemma ssid_of_plain (ap : string) :
  Page.occurs ")"%char ap = false ->
  Page.occurs "010"%char ap = false ->
  Page.plain (Page.ssid_of ap).
Proof.
  intros H1 H2. unfold Page.plain, Page.ssid_of.
  destruct (drop_quotes_drops
              (Page.tail_from_1
                 (hd EmptyString (split_on ","%char EmptyString ap))))
    as [Q1 Q2].
  split; [exact Q1 |]. split; [exact Q2 |].
  split; [| split]; apply drop_quotes_keeps, tail_from_1_keeps, split_on_hd;
    try reflexivity; auto.
Qed.

Lemma scanned_items_plain (s : string) :
  Forall Page.plain (map Page.ssid_of (Page.findall_parens s None)).
Proof.
  apply Forall_forall. intros item Hin. apply in_map_iff in Hin.
  destruct Hin as [ap [<- Hap]].
  pose proof (@findall_parens_groups s None) as Hg.
  rewrite Forall_forall in Hg.
  assert (Hn : forall g, @None string = Some g ->
                 Page.occurs ")"%char g = false
                 /\ Page.occurs "010"%char g = false)
    by (intros g Hg'; discriminate).
  destruct (Hg Hn ap Hap) as [H1 H2].
  now apply ssid_of_plain.
Qed.

Lemma report_initialize_ok (e : exn) (w : world) :
  match args0 e with
  | Some _ =>
      exists w', report_initialize e w = (Ok tt, w') /\ self w' = self w
  | None => report_initialize e w = (Raise no_args_error, w)
  end.
Proof.
  unfold report_initialize, show_message.
  destruct (args0 e) as [arg|]; [| reflexivity].
  destruct (String.eqb arg "Open Serial Error");
    eexists; split; reflexivity.
Qed.

Lemma scan_outcome (py_str : string -> string) (u : widget) (w : world) :
  match Page.scan py_str u w with
  | (Ok _, u', w') =>
      Forall Page.plain (list_ssid_items u')
      /\ (own_serial u <> QPort true -> own_serial u' <> QPort true)
  | (Raise e, u', w') =>
      list_ssid_items u' = []
      /\ ((is_IOError e = false
           /\ own_serial u' = QPort true
           /\ serial (self w') = NoneValue
           /\ exists b, fst (initialize w) = Ok b)
          \/ (e = no_args_error
              /\ own_serial u' = own_serial u
              /\ exists e0, fst (initialize w) = Raise e0 /\ args0 e0 = None))
  end.
Proof.
  unfold Page.scan, gbind at 1, setw at 1.
  unfold gbind at 1, gtry at 1, gbind at 1, target at 1.
  pose proof (initialize_cases w) as Hc.
  destruct (initialize w) as [[b|e] w1]; simpl in Hc.
  2:{ unfold gbind, target.
      pose proof (report_initialize_ok e w1) as Hrep.
      destruct (args0 e) as [arg|] eqn:Ha.
      - destruct Hrep as [w2 [-> _]]. simpl. split; [constructor | trivial].
      - rewrite Hrep. simpl. split; [reflexivity |]. right.
        split; [reflexivity |]. split; [reflexivity |]. now exists e. }
  assert (Hs : serial (self w1) = NoneValue).
  { destruct Hc as [[_ [Hs _]] | [E | [[E _] | [[E _] | [e [E _]]]]]];
      [exact Hs | | | |]; discriminate. }
  clear Hc. unfold gret at 1. cbn [negb]. cbv iota.
  destruct u as [os ? ? ? ? ? ? ? ?].
  destruct w1 as [a h inc rxb lg]. destruct a as [? ? ? ms ?].
  simpl in Hs. subst ms.
  unfold_page. run_monad.
  destruct (Locator.find_device (os_name h) valid_boards (available_ports h))
    as [[[p|] sn]|e]; simpl; try (split; [constructor | trivial; discriminate]).
  destruct (port_opens h); simpl; try (split; [constructor | discriminate]).
  destruct (dtr_effective h); simpl; try (split; [constructor | discriminate]).
  split_send; try (split; [constructor | discriminate]);
    try (split; [reflexivity |]; left; repeat split; now exists b).
  split; [apply scanned_items_plain | discriminate].
Qed.

(** X16. Whatever the board answers, every item [scan] leaves in the
    list of access points holds no quote, no backslash, no comma, no
    closing parenthesis and no line feed; when [scan] raises, the list
    is empty. *)
Theorem scan_items_are_plain (py_str : string -> string) (u : widget)
    (w : world) :
  Forall Page.plain (list_ssid_items (snd (fst (Page.scan py_str u w))))
  /\ forall e, fst (fst (Page.scan py_str u w)) = Raise e ->
               list_ssid_items (snd (fst (Page.scan py_str u w))) = [].
Proof.
  pose proof (scan_outcome py_str u w) as H.
  destruct (Page.scan py_str u w) as [[[[]|e] u'] w']; simpl.
  - split; [apply H | intros e He; discriminate].
  - destruct H as [H _]. rewrite H. split; [constructor | reflexivity].
Qed.

Lemma connect_outcome (checked : bool) (ssid pwd text : string)
    (u : widget) (w : world) :
  match Page.connect checked ssid pwd text u w with
  | (Ok _, u', w') =>
      (own_serial u <> QPort true -> own_serial u' <> QPort true)
      /\ serial (self w') = serial (self w)
      /\ (checked = true -> button_conn_enabled u' = true)
      /\ (button_conn_enabled u' = false ->
          checked = false
          /\ own_serial u' = NoneValue
          /\ button_conn_text u' = "Connect"
          /\ list_ssid_enabled u' = true
          /\ line_pwd_enabled u' = true
          /\ button_scan_enabled u' = true
          /\ groupbox_install_enabled u' = false)
  | (Raise e, u', w') =>
      is_IOError e = false
      /\ own_serial u' = QPort true
      /\ serial (self w') = serial (self w)
      /\ button_conn_enabled u' = false
  end.
Proof.
  destruct u as [os ? ? ? ? ? ? ? ?].
  destruct w as [a h inc rxb lg]. destruct a as [? ? ? ms ?].
  unfold_page. run_monad.
  destruct (Locator.find_device (os_name h) valid_boards (available_ports h))
    as [[[p|] sn]|e]; simpl.
  - destruct (port_opens h); simpl.
    + destruct (dtr_effective h); simpl.
      * destruct checked; simpl; split_send;
          try destruct (0 <? String.length (Page.strip text))%nat; simpl;
          repeat split; try discriminate; try reflexivity.
      * repeat split; discriminate.
    + repeat split; discriminate.
  - repeat split; discriminate.
  - repeat split; try discriminate. trivial.
Qed.







(** X18. The Connect button after [connect]: a normal return of
    [connect(True)] always leaves it enabled. Whenever [connect] returns
    with the button disabled, the call was a disconnect that went
    through: the link is closed, the button reads [Connect], the access
    point list, the password line and the scan button are enabled and
    the install group is disabled. When [connect] raises, the button is
    disabled. A disconnect on a host where every call succeeds ends in
    that way. *)
Theorem connect_button_states (checked : bool) (ssid pwd text : string)
    (u : widget) (w : world) :
  match Page.connect checked ssid pwd text u w with
  | (Ok _, u', _) =>
      (checked = true -> button_conn_enabled u' = true)
      /\ (button_conn_enabled u' = false ->
          checked = false
          /\ own_serial u' = NoneValue
          /\ button_conn_text u' = "Connect"
          /\ list_ssid_enabled u' = true
          /\ line_pwd_enabled u' = true
          /\ button_scan_enabled u' = true
          /\ groupbox_install_enabled u' = false)
  | (Raise _, u', _) => button_conn_enabled u' = false
  end
  /\ (let end_state :=
        Page.connect false ssid pwd text fresh (world_of idle good_host []) in
      fst (fst end_state) = Ok tt
      /\ button_conn_enabled (snd (fst end_state)) = false).
Proof.
  split; [| split; reflexivity].
  pose proof (connect_outcome checked ssid pwd text u w) as H.
  destruct (Page.connect checked ssid pwd text u w) as [[[[]|e] u'] w'].
  - destruct H as [_ [_ [H1 H2]]]. split; assumption.
  - apply H.
Qed.

Lemma split_on_all_empty (sep : ascii) (s : string) :
  forall cur,
    Forall (fun l => l = EmptyString) (split_on sep cur s) ->
    cur = EmptyString /\ forall c, Page.occurs c s = true -> c = sep.
Proof.
  induction s as [|a s IH]; intros cur H; simpl in H.
  - inversion H; subst. split; [reflexivity | intros c Hc; discriminate].
  - destruct (Ascii.eqb a sep) eqn:E.
    + inversion H as [|? ? Hcur Hrest]; subst.
      destruct (IH _ Hrest) as [_ Hs]. split; [reflexivity |].
      intros c Hc. simpl in Hc. apply orb_true_iff in Hc.
      destruct Hc as [Hc | Hc]; [| now apply Hs].
      apply Ascii.eqb_eq in Hc, E. congruence.
    + destruct (IH _ H) as [Hcur _]. destruct cur; discriminate.
Qed.

Lemma filter_nil_all {A} (f : A -> bool) (l : list A) :
  filter f l = [] -> Forall (fun x => f x = false) l.
Proof.
  induction l as [|x l IH]; simpl; [constructor |].
  destruct (f x) eqn:E; [discriminate |]. intros H. constructor; auto.
Qed.

Lemma lstrip_spaces (s : string) :
  (forall c, Page.occurs c s = true -> Page.isspace c = true) ->
  Page.lstrip s = EmptyString.
Proof.
  induction s as [|a s IH]; intros H; simpl; [reflexivity |].
  rewrite (H a) by (simpl; now rewrite Ascii.eqb_refl).
  apply IH. intros c Hc. apply H. simpl. rewrite Hc. apply orb_true_r.
Qed.

Lemma no_libraries_blank (text : string) :
  wanted_libs text = [] -> Page.strip text = EmptyString.
Proof.
  unfold wanted_libs. intros H. apply filter_nil_all in H.
  assert (Hl : Forall (fun l => l = EmptyString)
                 (split_on "010"%char EmptyString text)).
  { eapply Forall_impl; [| exact H]. intros l Hl. simpl in Hl.
    apply negb_false_iff, String.eqb_eq in Hl. exact Hl. }
  apply split_on_all_empty in Hl. destruct Hl as [_ Hc].
  unfold Page.strip. rewrite (@lstrip_spaces text); [reflexivity |].
  intros c Hin. now rewrite (Hc c Hin).
Qed.

(** X19. When [library_info_changed] leaves the Start button enabled,
    the text area holds a line that is not empty, so that [install] has
    a library to ask for. *)
Theorem start_button_means_a_library (text : string) (u : widget)
    (w : world) :
  button_inst_enabled (snd (fst (Page.library_info_changed text u w))) = true ->
  wanted_libs text <> [].
Proof.
  intros H Hn. apply no_libraries_blank in Hn.
  unfold Page.library_info_changed in H. rewrite Hn in H. discriminate.
Qed.

Lemma start_button_means_a_library_witness :
  wanted_libs ("micropython-artecrobo2.0" ++ LF
               ++ "micropython-studuinobit-iot" ++ LF) <> [].
Proof.
  apply (@start_button_means_a_library
           ("micropython-artecrobo2.0" ++ LF
            ++ "micropython-studuinobit-iot" ++ LF)
           fresh (world_of idle good_host [])).
  reflexivity.
Defined.

(** ** The package status dialog *)

Ltac dialog_fields :=
  unfold Packages.end_state, Packages.singleShot, Packages.append_data,
    Packages.with_pkg_dirs, Packages.with_ok_enabled, Packages.with_shots,
    Packages.with_running, Packages.with_process, Packages.with_to_add;
  cbn [Packages.to_remove Packages.to_add Packages.module_dir
       Packages.pkg_dirs Packages.process Packages.text_area
       Packages.ok_enabled Packages.shots Packages.running Packages.started
       fst snd].

Lemma finished_count_more (msg : string) (text : list string) :
  List.length (filter (String.eqb Packages.FINISHED) (text ++ [msg])) =
  (List.length (filter (String.eqb Packages.FINISHED) text)
   + if String.eqb Packages.FINISHED msg then 1 else 0)%nat.
Proof.
  rewrite filter_app, length_app. cbn [filter].
  destruct (String.eqb Packages.FINISHED msg); reflexivity.
Qed.

Lemma removed_is_not_finished (x : string) :
  String.eqb Packages.FINISHED ("Removed " ++ x) = false.
Proof. reflexivity. Qed.

Lemma unable_is_not_finished (x : string) :
  String.eqb Packages.FINISHED ("UNABLE TO REMOVE PACKAGE: " ++ x) = false.
Proof. reflexivity. Qed.

Ltac count_fields :=
  unfold Packages.finished_count; dialog_fields;
  rewrite ?finished_count_more, ?removed_is_not_finished,
    ?unable_is_not_finished, ?String.eqb_refl.

(** What one call of [remove_package] changes. *)
Lemma remove_package_effect (fs : Packages.disk) (d : Packages.dialog) :
  let d' := snd (Packages.remove_package fs d) in
  Packages.to_add d' = Packages.to_add d
  /\ Packages.process d' = Packages.process d
  /\ Packages.running d' = Packages.running d
  /\ Packages.started d' = Packages.started d
  /\ (Packages.shots d' <= S (Packages.shots d))%nat
  /\ (Packages.pkg_dirs d = [] -> Packages.pkg_dirs d' = []
                                  /\ Packages.shots d' = Packages.shots d)
  /\ ((Packages.ok_enabled d' = Packages.ok_enabled d
       /\ Packages.finished_count d' = Packages.finished_count d)
      \/ (Packages.pkg_dirs d = [] /\ Packages.to_add d = []
          /\ Packages.process d = None
          /\ Packages.ok_enabled d' = true
          /\ Packages.finished_count d' = S (Packages.finished_count d))).
Proof.
  cbv zeta. unfold Packages.remove_package, Packages.popitem.
  destruct (rev (Packages.pkg_dirs d)) as [|[package info] rest] eqn:Er.
  - assert (Hp : Packages.pkg_dirs d = []).
    { apply (f_equal (@rev _)) in Er. now rewrite rev_involutive in Er. }
    destruct (Packages.clean_up fs) as [[]|e].
    + destruct (Packages.to_add d) eqn:Ea;
        [destruct (Packages.process d) eqn:Ep |]; dialog_fields;
        rewrite ?Ea, ?Ep;
        (split; [reflexivity |]); (split; [reflexivity |]);
        (split; [reflexivity |]); (split; [reflexivity |]);
        (split; [lia |]); (split; [intros _; split; [exact Hp | reflexivity] |]);
        try (left; split; reflexivity).
      right. repeat (split; [reflexivity || assumption |]).
      count_fields. lia.
    + dialog_fields.
      (split; [reflexivity |]); (split; [reflexivity |]);
        (split; [reflexivity |]); (split; [reflexivity |]);
        (split; [lia |]); (split; [intros _; split; [exact Hp | reflexivity] |]).
      left; split; reflexivity.
  - assert (Hp : Packages.pkg_dirs d <> []).
    { intros E. rewrite E in Er. discriminate. }
    destruct (Packages.endswith info "dist-info");
      [destruct (Packages.delete_dist_info fs package info) as [[]|e]
      |destruct (Packages.delete_egg_info fs package info) as [[]|e]];
      dialog_fields;
      (split; [reflexivity |]); (split; [reflexivity |]);
      (split; [reflexivity |]); (split; [reflexivity |]);
      (split; [lia |]); (split; [intros E; contradiction |]);
      left; (split; [reflexivity |]); count_fields;
      rewrite <- ?append_assoc, ?removed_is_not_finished,
        ?unable_is_not_finished; try reflexivity; lia.
Qed.

Lemma rev_cons_last {A} (l : list A) (x : A) (rest : list A) :
  rev l = x :: rest -> l = (removelast l ++ [x])%list /\ removelast l = rev rest.
Proof.
  intros H. apply (f_equal (@rev _)) in H. rewrite rev_involutive in H.
  simpl in H. subst l. rewrite removelast_last. split; reflexivity.
Qed.

(** What [run_pip] changes when a package waits. *)
Lemma run_pip_effect (d : Packages.dialog) :
  Packages.to_add d <> [] ->
  exists package,
    Packages.to_add d = (removelast (Packages.to_add d) ++ [package])%list
    /\ Packages.run_pip d =
       (Ok tt,
        {| Packages.to_remove := Packages.to_remove d;
           Packages.to_add := removelast (Packages.to_add d);
           Packages.module_dir := Packages.module_dir d;
           Packages.pkg_dirs := Packages.pkg_dirs d;
           Packages.process := Some (List.length (Packages.started d));
           Packages.text_area := Packages.text_area d;
           Packages.ok_enabled := Packages.ok_enabled d;
           Packages.shots := Packages.shots d;
           Packages.running :=
             (Packages.running d ++ [List.length (Packages.started d)])%list;
           Packages.started := (Packages.started d ++ [package])%list |}).
Proof.
  intros Hn. unfold Packages.run_pip.
  destruct (rev (Packages.to_add d)) as [|package rest] eqn:Er.
  - exfalso. apply Hn. apply (f_equal (@rev _)) in Er.
    now rewrite rev_involutive in Er.
  - exists package. split; [| reflexivity].
    now destruct (rev_cons_last _ Er).
Qed.

Lemma settled_after_shot (fs : Packages.disk) (d : Packages.dialog) (n : nat) :
  Packages.settled d ->
  Packages.shots d = S n ->
  Packages.settled (snd (Packages.remove_package fs (Packages.with_shots n d))).
Proof.
  intros [I1 [I2 [I3 [I4 I5]]]] Hs.
  assert (n = 0)%nat by lia. subst n.
  destruct (remove_package_effect fs (Packages.with_shots 0 d))
    as [E1 [E2 [E3 [E4 [E5 [E6 E7]]]]]].
  revert E1 E2 E3 E4 E5 E6 E7.
  set (d' := snd (Packages.remove_package fs (Packages.with_shots 0 d))).
  dialog_fields. unfold Packages.finished_count. dialog_fields.
  fold (Packages.finished_count d). fold (Packages.finished_count d').
  intros E1 E2 E3 E4 E5 E6 E7.
  unfold Packages.settled. rewrite E2, E3.
  split; [exact E5 |]. split; [exact I2 |]. split; [exact I3 |].
  destruct E7 as [[Eo Ec] | [Hp [Ha [Hn [Eo Ec]]]]].
  - rewrite Eo, Ec, E1. split; [exact I4 |].
    intros Ho. destruct (I5 Ho) as [R [A [P S0]]].
    destruct (E6 P) as [P' S']. repeat (split; [assumption |]).
    right. destruct S0 as [S0 | S0]; [lia | exact S0].
  - rewrite Eo, Ec, E1.
    assert (Hr : Packages.running d = []).
    { destruct (Packages.running d) eqn:Er; [reflexivity |].
      exfalso. apply I3; [discriminate | exact Hn]. }
    assert (Ho : Packages.ok_enabled d = false).
    { destruct (Packages.ok_enabled d) eqn:Ho; [| reflexivity].
      destruct (I5 eq_refl) as [_ [_ [_ [S0 | S0]]]]; [lia | contradiction]. }
    rewrite Ho in I4. split; [now rewrite I4 |].
    intros _. destruct (E6 Hp) as [P' S']. repeat (split; [assumption |]).
    left. exact S'.
Qed.

Lemma settled_after_finished (d : Packages.dialog) (before after : list nat)
    (id : nat) :
  Packages.settled d ->
  Packages.running d = (before ++ id :: after)%list ->
  Packages.settled
    (snd (Packages.finished (Packages.with_running (before ++ after) d))).
Proof.
  intros [I1 [I2 [I3 [I4 I5]]]] Hr.
  assert (Hb : before = [] /\ after = []).
  { rewrite Hr, length_app in I2. simpl in I2.
    destruct before; destruct after; simpl in I2; try lia. now split. }
  destruct Hb as [-> ->]. simpl app.
  assert (Hn : Packages.process d <> None) by (apply I3; rewrite Hr; discriminate).
  assert (Ho : Packages.ok_enabled d = false).
  { destruct (Packages.ok_enabled d) eqn:Ho; [| reflexivity].
    destruct (I5 eq_refl) as [R _]. rewrite R in Hr. discriminate. }
  rewrite Ho in I4.
  unfold Packages.finished.
  change (Packages.to_add (Packages.with_running [] d))
    with (Packages.to_add d).
  change (Packages.pkg_dirs (Packages.with_running [] d))
    with (Packages.pkg_dirs d).
  destruct (Packages.to_add d) as [|p rest] eqn:Ea.
  - destruct (Packages.pkg_dirs d) as [|kv dirs] eqn:Ep.
    + unfold Packages.settled. count_fields. rewrite ?Ea, ?Ep.
      fold (Packages.finished_count d). rewrite I4.
      split; [exact I1 |]. split; [simpl; lia |].
      split; [intros H; now elim H |]. split; [reflexivity |].
      intros _. repeat (split; [reflexivity |]). now right.
    + unfold Packages.settled. count_fields. rewrite ?Ea, ?Ep, ?Ho.
      fold (Packages.finished_count d).
      split; [exact I1 |]. split; [simpl; lia |].
      split; [intros H; now elim H |]. split; [exact I4 |].
      intros H; discriminate.
  - destruct (@run_pip_effect
                (Packages.with_process None (Packages.with_running [] d)))
      as [package [_ ->]].
    { dialog_fields. rewrite Ea. discriminate. }
    unfold Packages.settled. count_fields. rewrite Ho.
    fold (Packages.finished_count d).
    split; [exact I1 |]. split; [simpl; lia |].
    split; [intros _; discriminate |]. split; [exact I4 |].
    intros H; discriminate.
Qed.

Lemma settled_after_remove_packages (fs : Packages.disk) (d : Packages.dialog) :
  Packages.settled d -> Packages.shots d = 0%nat ->
  Packages.ok_enabled d = false ->
  Packages.settled (snd (Packages.remove_packages fs d))
  /\ Packages.ok_enabled (snd (Packages.remove_packages fs d)) = false
  /\ Packages.to_add (snd (Packages.remove_packages fs d)) = Packages.to_add d
  /\ Packages.started (snd (Packages.remove_packages fs d)) = Packages.started d
  /\ Packages.running (snd (Packages.remove_packages fs d)) = Packages.running d.
Proof.
  intros [I1 [I2 [I3 [I4 I5]]]] Hs Ho. unfold Packages.remove_packages.
  destruct (Packages.listdir fs) as [names|e].
  2:{ dialog_fields. repeat split; try assumption; try reflexivity.
      - apply I5; assumption.
      - apply I5; assumption.
      - apply I5; assumption.
      - apply I5; assumption. }
  dialog_fields.
  destruct (Packages.matched (Packages.disk_os fs) (Packages.to_remove d)
              (Packages.info_dirs (Packages.disk_os fs)
                 (Packages.module_dir d) names)) eqn:Em;
    unfold Packages.settled; count_fields; rewrite ?Hs, ?Ho;
    fold (Packages.finished_count d); rewrite Ho in I4;
    (split; [| repeat split; reflexivity]);
    (split; [lia |]); (split; [exact I2 |]); (split; [exact I3 |]);
    (split; [exact I4 |]); intros H; discriminate.
Qed.

Lemma settled_after_setup (fs : Packages.disk) (to_remove to_add : list string)
    (module_dir : string) :
  Packages.settled (snd (Packages.setup fs to_remove to_add module_dir))
  /\ Packages.ok_enabled (snd (Packages.setup fs to_remove to_add module_dir))
     = false.
Proof.
  unfold Packages.setup.
  set (d0 := {| Packages.to_remove := to_remove; Packages.to_add := to_add;
                Packages.module_dir := module_dir; Packages.pkg_dirs := [];
                Packages.process := None; Packages.text_area := [];
                Packages.ok_enabled := false; Packages.shots := 0;
                Packages.running := []; Packages.started := [] |}).
  assert (H0 : Packages.settled d0).
  { unfold Packages.settled, Packages.finished_count. simpl.
    repeat split; try lia; try discriminate. intros H; now elim H. }
  assert (H1 : exists r d1,
             match to_remove with
             | [] => (Ok tt, d0)
             | _ :: _ => Packages.remove_packages fs d0
             end = (r, d1)
             /\ Packages.settled d1 /\ Packages.ok_enabled d1 = false
             /\ Packages.to_add d1 = to_add /\ Packages.running d1 = []).
  { destruct to_remove as [|pkg pkgs].
    - exists (Ok tt), d0. split; [reflexivity |]. split; [exact H0 |].
      split; [reflexivity |]. split; reflexivity.
    - destruct (@settled_after_remove_packages fs d0 H0 eq_refl eq_refl)
        as [S1 [O1 [A1 [_ R1]]]].
      destruct (Packages.remove_packages fs d0) as [r d1].
      exists r, d1. split; [reflexivity |]. split; [exact S1 |].
      split; [exact O1 |]. split; [exact A1 | exact R1]. }
  destruct H1 as [r [d1 [-> [S1 [O1 [A1 R1]]]]]].
  destruct r as [[]|e]; [| split; assumption].
  destruct to_add as [|p ps]; [split; assumption |].
  destruct (@run_pip_effect d1) as [package [_ ->]];
    [rewrite A1; discriminate |].
  destruct S1 as [I1 [I2 [I3 [I4 I5]]]].
  unfold Packages.settled. count_fields. rewrite O1, R1.
  fold (Packages.finished_count d1). rewrite O1 in I4.
  split; [| reflexivity].
  split; [exact I1 |]. split; [simpl; lia |].
  split; [intros _; discriminate |]. split; [exact I4 |].
  intros H; discriminate.
Qed.

Lemma settled_step (fs : Packages.disk) (d d' : Packages.dialog) :
  Packages.settled d -> Packages.step fs d d' -> Packages.settled d'.
Proof.
  intros H S. destruct S as [d n Hs | d before after id Hr].
  - now apply settled_after_shot.
  - now apply settled_after_finished with (id := id).
Qed.

Lemma settled_steps (fs : Packages.disk) (d d' : Packages.dialog) :
  Packages.steps fs d d' -> Packages.settled d -> Packages.settled d'.
Proof.
  induction 1 as [d | d d1 d2 S _ IH]; intros H; [exact H |].
  apply IH. now apply settled_step with (fs := fs) (d := d).
Qed.

(** X20. However the single shots and the ends of the pip processes
    interleave, and whatever the disk answers, [end_state] runs at most
    once: [FINISHED] is written once when the OK button is enabled and
    not at all otherwise. When the button is enabled, no package waits
    for pip, no process runs and no package is left to remove. At most
    one single shot is armed and at most one process runs at a time. *)
Theorem finished_is_written_once (fs : Packages.disk)
    (to_remove to_add : list string) (module_dir : string)
    (d : Packages.dialog) :
  Packages.steps fs (snd (Packages.setup fs to_remove to_add module_dir)) d ->
  Packages.finished_count d = (if Packages.ok_enabled d then 1 else 0)%nat
  /\ (Packages.ok_enabled d = true ->
      Packages.to_add d = [] /\ Packages.running d = []
      /\ Packages.pkg_dirs d = [])
  /\ (Packages.shots d <= 1)%nat
  /\ (List.length (Packages.running d) <= 1)%nat.
Proof.
  intros H.
  destruct (settled_steps H
              (proj1 (settled_after_setup fs to_remove to_add module_dir)))
    as [I1 [I2 [I3 [I4 I5]]]].
  split; [exact I4 |]. split; [| split; assumption].
  intros Ho. destruct (I5 Ho) as [R [A [P _]]]. now repeat split.
Qed.

Lemma finished_is_written_once_witness :
  let fs := Packages.tidy_disk ["foo-1.0.dist-info"] in
  let d0 := snd (Packages.setup fs ["foo"] [] "/lib") in
  let d1 := snd (Packages.remove_package fs (Packages.with_shots 0 d0)) in
  let d2 := snd (Packages.remove_package fs (Packages.with_shots 0 d1)) in
  Packages.ok_enabled d2 = true /\ Packages.finished_count d2 = 1%nat.
Proof.
  intros fs d0 d1 d2.
  assert (H : Packages.steps fs d0 d2).
  { apply Packages.steps_more with (d1 := d1).
    - apply (@Packages.step_shot fs d0 0). reflexivity.
    - apply Packages.steps_more with (d1 := d2).
      + apply (@Packages.step_shot fs d1 0). reflexivity.
      + apply Packages.steps_none. }
  pose proof (proj1 (@finished_is_written_once fs ["foo"] [] "/lib" d2 H)) as Hc.
  assert (Ho : Packages.ok_enabled d2 = true) by reflexivity.
  split; [exact Ho |]. rewrite Hc, Ho. reflexivity.
Defined.

Lemma at_rest_no_step (fs : Packages.disk) (d d' : Packages.dialog) :
  Packages.at_rest d -> Packages.step fs d d' -> False.
Proof.
  intros [Hs Hr] S. destruct S as [d n Hn | d before after id Hb].
  - rewrite Hs in Hn. discriminate.
  - rewrite Hr in Hb. destruct before; discriminate.
Qed.

Lemma at_rest_steps (fs : Packages.disk) (d d' : Packages.dialog) :
  Packages.steps fs d d' -> Packages.at_rest d -> d' = d.
Proof.
  induction 1 as [d | d d1 d2 S _ _]; intros H; [reflexivity |].
  exfalso. now apply (at_rest_no_step H S).
Qed.

(** Once a process was made, none runs and none waits: the removals
    that are left cannot end the dialog. *)
Lemma after_pip_no_end (fs : Packages.disk) (d d' : Packages.dialog) :
  Packages.steps fs d d' ->
  Packages.process d <> None -> Packages.running d = [] ->
  Packages.to_add d = [] -> Packages.ok_enabled d = false ->
  Packages.ok_enabled d' = false /\ Packages.running d' = [].
Proof.
  induction 1 as [d | d d1 d2 S _ IH]; intros Hp Hr Ha Ho; [now split |].
  destruct S as [d n Hn | d before after id Hb].
  - destruct (remove_package_effect fs (Packages.with_shots n d))
      as [E1 [E2 [E3 [_ [_ [_ E7]]]]]].
    revert E1 E2 E3 E7.
    set (d1 := snd (Packages.remove_package fs (Packages.with_shots n d))) in *.
    dialog_fields. intros E1 E2 E3 E7.
    apply IH.
    + rewrite E2. exact Hp.
    + rewrite E3. exact Hr.
    + rewrite E1. exact Ha.
    + destruct E7 as [[Eo _] | [_ [_ [Hn' _]]]];
        [rewrite Eo; exact Ho | contradiction].
  - rewrite Hr in Hb. destruct before; discriminate.
Qed.

(** X21. When the last pip process ends while packages are still waiting
    to be removed, the dialog never reaches its end state: [finished]
    leaves it to [remove_package], and [remove_package] ends the dialog
    only when [self.process] is [None], which it no longer is. The OK
    button stays disabled whatever happens afterwards. *)
Theorem pip_before_removals_never_ends (fs : Packages.disk)
    (to_remove to_add : list string) (module_dir : string)
    (d d' : Packages.dialog) (id : nat) :
  Packages.steps fs (snd (Packages.setup fs to_remove to_add module_dir)) d ->
  Packages.running d = [id] ->
  Packages.to_add d = [] ->
  Packages.pkg_dirs d <> [] ->
  Packages.steps fs (snd (Packages.finished (Packages.with_running [] d))) d' ->
  Packages.ok_enabled d' = false /\ Packages.running d' = [].
Proof.
  intros H Hr Ha Hp H'.
  destruct (settled_steps H
              (proj1 (settled_after_setup fs to_remove to_add module_dir)))
    as [_ [_ [I3 [_ I5]]]].
  assert (Hn : Packages.process d <> None) by (apply I3; rewrite Hr; discriminate).
  assert (Ho : Packages.ok_enabled d = false).
  { destruct (Packages.ok_enabled d) eqn:Ho; [| reflexivity].
    destruct (I5 eq_refl) as [R _]. rewrite R in Hr. discriminate. }
  revert H'. unfold Packages.finished.
  change (Packages.to_add (Packages.with_running [] d))
    with (Packages.to_add d).
  change (Packages.pkg_dirs (Packages.with_running [] d))
    with (Packages.pkg_dirs d).
  rewrite Ha. destruct (Packages.pkg_dirs d) as [|kv dirs]; [now elim Hp |].
  cbn [snd]. intros H'.
  apply (after_pip_no_end H'); assumption || reflexivity.
Qed.

Lemma pip_before_removals_never_ends_witness :
  let fs := Packages.tidy_disk ["foo-1.0.dist-info"] in
  let d0 := snd (Packages.setup fs ["foo"] ["bar"] "/lib") in
  let d1 := snd (Packages.finished (Packages.with_running [] d0)) in
  let d2 := snd (Packages.remove_package fs (Packages.with_shots 0 d1)) in
  let d3 := snd (Packages.remove_package fs (Packages.with_shots 0 d2)) in
  Packages.at_rest d3 /\ Packages.pkg_dirs d3 = []
  /\ Packages.started d3 = ["bar"] /\ Packages.ok_enabled d3 = false.
Proof.
  intros fs d0 d1 d2 d3.
  split; [split; reflexivity |]. split; [reflexivity |].
  split; [reflexivity |].
  refine (proj1 (@pip_before_removals_never_ends fs ["foo"] ["bar"] "/lib"
                   d0 d3 0 _ _ _ _ _)).
  - apply Packages.steps_none.
  - reflexivity.
  - reflexivity.
  - discriminate.
  - apply Packages.steps_more with (d1 := d2).
    + apply (@Packages.step_shot fs d1 0). reflexivity.
    + apply Packages.steps_more with (d1 := d3).
      * apply (@Packages.step_shot fs d2 0). reflexivity.
      * apply Packages.steps_none.
Defined.

(** X22. A dialog set up with nothing to add and no directory matching
    a package to remove is at rest from the start: no slot is ever
    called, the OK button stays disabled and nothing is written. *)
Theorem nothing_matched_never_ends (fs : Packages.disk)
    (to_remove : list string) (module_dir : string) (d' : Packages.dialog) :
  Packages.pkg_dirs (snd (Packages.setup fs to_remove [] module_dir)) = [] ->
  Packages.steps fs (snd (Packages.setup fs to_remove [] module_dir)) d' ->
  d' = snd (Packages.setup fs to_remove [] module_dir)
  /\ Packages.at_rest d'
  /\ Packages.ok_enabled d' = false
  /\ Packages.text_area d' = [].
Proof.
  intros Hp H.
  assert (Hr : Packages.at_rest (snd (Packages.setup fs to_remove [] module_dir))
               /\ Packages.ok_enabled
                    (snd (Packages.setup fs to_remove [] module_dir)) = false
               /\ Packages.text_area
                    (snd (Packages.setup fs to_remove [] module_dir)) = []).
  { revert Hp. unfold Packages.setup, Packages.remove_packages, Packages.at_rest.
    destruct to_remove as [|pkg pkgs]; [intros _; repeat split |].
    destruct (Packages.listdir fs) as [names|e]; [| intros _; repeat split].
    dialog_fields.
    destruct (Packages.matched (Packages.disk_os fs) (pkg :: pkgs)
                (Packages.info_dirs (Packages.disk_os fs) module_dir names));
      [intros _; repeat split | discriminate]. }
  rewrite (at_rest_steps H (proj1 Hr)). split; [reflexivity | exact Hr].
Qed.

Lemma nothing_matched_never_ends_witness :
  let fs := Packages.tidy_disk ["foobar-1.0.dist-info"; "foo-1.0.data"] in
  Packages.at_rest (snd (Packages.setup fs ["foo"] [] "/lib"))
  /\ Packages.ok_enabled (snd (Packages.setup fs ["foo"] [] "/lib")) = false.
Proof.
  intros fs.
  destruct (@nothing_matched_never_ends fs ["foo"] "/lib"
              (snd (Packages.setup fs ["foo"] [] "/lib")) eq_refl
              (Packages.steps_none fs _)) as [_ [H1 [H2 _]]].
  split; assumption.
Defined.

Lemma pip_progress_after_run_pip (add : list string)
    (d : Packages.dialog) :
  (Packages.started d ++ rev (Packages.to_add d))%list = rev add ->
  Packages.to_add d <> [] ->
  Packages.pip_progress add (snd (Packages.run_pip d))
  /\ fst (Packages.run_pip d) = Ok tt.
Proof.
  intros H Hn. destruct (@run_pip_effect d Hn) as [package [Ea ->]].
  split; [| reflexivity]. unfold Packages.pip_progress. dialog_fields. split.
  - rewrite <- H. rewrite Ea at 2. rewrite rev_app_distr. simpl.
    now rewrite <- app_assoc.
  - intros _. destruct (Packages.running d); discriminate.
Qed.

Lemma pip_progress_step (fs : Packages.disk) (add : list string)
    (d d' : Packages.dialog) :
  Packages.pip_progress add d -> Packages.step fs d d' ->
  Packages.pip_progress add d'.
Proof.
  intros [P1 P2] S. destruct S as [d n Hn | d before after id Hb].
  - destruct (remove_package_effect fs (Packages.with_shots n d))
      as [E1 [_ [E3 [E4 _]]]].
    revert E1 E3 E4.
    set (d1 := snd (Packages.remove_package fs (Packages.with_shots n d))).
    dialog_fields. intros E1 E3 E4.
    unfold Packages.pip_progress. rewrite E1, E3, E4. now split.
  - unfold Packages.finished.
    change (Packages.to_add (Packages.with_running (before ++ after) d))
      with (Packages.to_add d).
    change (Packages.pkg_dirs (Packages.with_running (before ++ after) d))
      with (Packages.pkg_dirs d).
    destruct (Packages.to_add d) as [|p rest] eqn:Ea.
    + destruct (Packages.pkg_dirs d); unfold Packages.pip_progress;
        dialog_fields; rewrite ?Ea; (split; [exact P1 |]);
        intros H; now elim H.
    + apply pip_progress_after_run_pip.
      * dialog_fields. now rewrite Ea.
      * dialog_fields. rewrite Ea. discriminate.
Qed.

Lemma pip_progress_steps (fs : Packages.disk) (add : list string)
    (d d' : Packages.dialog) :
  Packages.steps fs d d' -> Packages.pip_progress add d ->
  Packages.pip_progress add d'.
Proof.
  induction 1 as [d | d d1 d2 S _ IH]; intros H; [exact H |].
  apply IH. now apply pip_progress_step with (fs := fs) (d := d).
Qed.

Lemma pip_progress_after_setup (fs : Packages.disk)
    (to_remove to_add : list string) (module_dir : string) :
  fst (Packages.setup fs to_remove to_add module_dir) = Ok tt ->
  Packages.pip_progress to_add
    (snd (Packages.setup fs to_remove to_add module_dir)).
Proof.
  unfold Packages.setup.
  set (d0 := {| Packages.to_remove := to_remove; Packages.to_add := to_add;
                Packages.module_dir := module_dir; Packages.pkg_dirs := [];
                Packages.process := None; Packages.text_area := [];
                Packages.ok_enabled := false; Packages.shots := 0;
                Packages.running := []; Packages.started := [] |}).
  assert (H1 : exists r d1,
             match to_remove with
             | [] => (Ok tt, d0)
             | _ :: _ => Packages.remove_packages fs d0
             end = (r, d1)
             /\ Packages.to_add d1 = to_add /\ Packages.started d1 = []).
  { destruct to_remove as [|pkg pkgs].
    - exists (Ok tt), d0. repeat split.
    - unfold Packages.remove_packages. subst d0.
      destruct (Packages.listdir fs) as [names|e];
        [| eexists _, _; repeat split].
      dialog_fields.
      destruct (Packages.matched (Packages.disk_os fs) (pkg :: pkgs)
                  (Packages.info_dirs (Packages.disk_os fs) module_dir names));
        eexists _, _; repeat split. }
  destruct H1 as [r [d1 [-> [A1 S1]]]].
  destruct r as [[]|e]; [| discriminate].
  destruct to_add as [|p ps].
  - intros _. cbn [snd]. unfold Packages.pip_progress. rewrite A1, S1.
    split; [reflexivity | intros H; now elim H].
  - intros _. apply pip_progress_after_run_pip.
    + now rewrite A1, S1.
    + rewrite A1. discriminate.
Qed.

(** X23. When [setup] returns, every package to add is handed to pip
    exactly once, the last one first, one process at a time: at any
    moment the packages handed over and the ones still waiting make up
    the list given to [setup], and when no process runs none is
    waiting. *)
Theorem pip_runs_every_package (fs : Packages.disk)
    (to_remove to_add : list string) (module_dir : string)
    (d : Packages.dialog) :
  fst (Packages.setup fs to_remove to_add module_dir) = Ok tt ->
  Packages.steps fs (snd (Packages.setup fs to_remove to_add module_dir)) d ->
  (Packages.started d ++ rev (Packages.to_add d))%list = rev to_add
  /\ (Packages.running d = [] ->
      Packages.to_add d = [] /\ Packages.started d = rev to_add).
Proof.
  intros Hs H.
  destruct (pip_progress_steps H (pip_progress_after_setup _ _ _ _ Hs))
    as [P1 P2].
  split; [exact P1 |]. intros Hr.
  assert (Ha : Packages.to_add d = []).
  { destruct (Packages.to_add d) eqn:Ea; [reflexivity |].
    exfalso. apply P2; [discriminate | exact Hr]. }
  split; [exact Ha |]. rewrite Ha in P1. simpl in P1.
  now rewrite app_nil_r in P1.
Qed.

Lemma pip_runs_every_package_witness :
  let fs := Packages.tidy_disk [] in
  let d0 := snd (Packages.setup fs [] ["numpy"; "arrow"] "/lib") in
  let d1 := snd (Packages.finished (Packages.with_running [] d0)) in
  let d2 := snd (Packages.finished (Packages.with_running [] d1)) in
  Packages.started d2 = ["arrow"; "numpy"]
  /\ Packages.ok_enabled d2 = true.
Proof.
  intros fs d0 d1 d2. split; [| reflexivity].
  refine (proj2 (proj2 (@pip_runs_every_package fs [] ["numpy"; "arrow"] "/lib"
                          d2 eq_refl _) eq_refl)).
  apply Packages.steps_more with (d1 := d1).
  - apply (@Packages.step_finished fs d0 [] [] 0). reflexivity.
  - apply Packages.steps_more with (d1 := d2).
    + apply (@Packages.step_finished fs d1 [] [] 1). reflexivity.
    + apply Packages.steps_none.
Defined.

Lemma dict_update_twice (key v1 v2 : string) (d : list (string * string)) :
  dict_update key v2 (dict_update key v1 d) = dict_update key v2 d.
Proof.
  induction d as [|[k v] d IH]; simpl.
  - now rewrite String.eqb_refl.
  - destruct (String.eqb k key) eqn:E; simpl; rewrite E; [reflexivity |].
    now rewrite IH.
Qed.

Lemma in_keys (k v : string) (d : list (string * string)) :
  In (k, v) d -> In k (map fst d).
Proof. intros H. apply in_map_iff. now exists (k, v). Qed.

Lemma dict_update_in (key value : string) (d : list (string * string))
    (k v : string) :
  NoDup (map fst d) ->
  In (k, v) (dict_update key value d) <->
  (k = key /\ v = value) \/ (k <> key /\ In (k, v) d).
Proof.
  induction d as [|[k0 v0] d IH]; simpl; intros Hn.
  - split.
    + intros [H | []]. injection H as <- <-. now left.
    + intros [[-> ->] | [_ []]]. now left.
  - inversion Hn as [|? ? Hk Hd]; subst.
    destruct (String.eqb k0 key) eqn:E.
    + apply String.eqb_eq in E. subst k0. simpl. split.
      * intros [H | H]; [injection H as <- <-; now left |].
        right. split; [| now right].
        intros ->. apply Hk. now apply in_keys with (v := v).
      * intros [[-> ->] | [Hne [H | H]]]; [now left | | now right].
        injection H as <- _. now elim Hne.
    + apply String.eqb_neq in E. simpl. rewrite (IH Hd). split.
      * intros [H | [[-> ->] | [Hne H]]].
        -- injection H as <- <-. right. split; [exact E | now left].
        -- now left.
        -- right. split; [exact Hne | now right].
      * intros [[-> ->] | [Hne [H | H]]].
        -- right. now left.
        -- now left.
        -- right. right. now split.
Qed.

Lemma dict_update_keys_nodup (key value : string) (d : list (string * string)) :
  NoDup (map fst d) -> NoDup (map fst (dict_update key value d)).
Proof.
  intros Hn. rewrite map_fst_dict_update.
  destruct (existsb (String.eqb key) (map fst d)) eqn:E; [exact Hn |].
  apply NoDup_app; [exact Hn | repeat constructor; intros [] |].
  intros k Hk [<- | []].
  assert (Ht : existsb (String.eqb key) (map fst d) = true).
  { apply existsb_exists. exists key. split; [exact Hk | apply String.eqb_refl]. }
  rewrite Ht in E. discriminate.
Qed.

(** The inner loop of [remove_packages]: the last directory that matches
    is the one kept. *)
Lemma matched_inner (os pkg : string) (dirs : list string) :
  forall acc,
    fold_left
      (fun acc d =>
         if Packages.dir_matches os pkg d then dict_update pkg d acc else acc)
      dirs acc
    = match find (Packages.dir_matches os pkg) (rev dirs) with
      | Some d => dict_update pkg d acc
      | None => acc
      end.
Proof.
  induction dirs as [|d dirs IH] using rev_ind; intros acc; [reflexivity |].
  rewrite fold_left_app, rev_app_distr. simpl.
  destruct (Packages.dir_matches os pkg d); [| apply IH].
  rewrite IH.
  destruct (find (Packages.dir_matches os pkg) (rev dirs)); [| reflexivity].
  apply dict_update_twice.
Qed.

Lemma matched_outer (os : string) (dirs : list string) (pkgs : list string) :
  forall (acc : list (string * string)) (seen : list string),
    NoDup (map fst acc) ->
    (forall k v, In (k, v) acc <->
                 In k seen
                 /\ find (Packages.dir_matches os k) (rev dirs) = Some v) ->
    let final :=
      fold_left
        (fun acc pkg =>
           fold_left
             (fun acc d =>
                if Packages.dir_matches os pkg d then dict_update pkg d acc
                else acc)
             dirs acc)
        pkgs acc in
    NoDup (map fst final)
    /\ forall k v, In (k, v) final <->
                   In k (seen ++ pkgs)
                   /\ find (Packages.dir_matches os k) (rev dirs) = Some v.
Proof.
  induction pkgs as [|pkg pkgs IH]; intros acc seen Hn Hin; cbv zeta.
  - simpl. rewrite app_nil_r. now split.
  - cbn [fold_left]. rewrite matched_inner.
    replace (seen ++ pkg :: pkgs)%list with ((seen ++ [pkg]) ++ pkgs)%list
      by (now rewrite <- app_assoc).
    apply IH.
    + destruct (find (Packages.dir_matches os pkg) (rev dirs));
        [now apply dict_update_keys_nodup | exact Hn].
    + intros k v. rewrite in_app_iff. simpl.
      destruct (find (Packages.dir_matches os pkg) (rev dirs)) as [d|] eqn:Ef.
      * rewrite (@dict_update_in pkg d acc k v Hn), Hin. split.
        -- intros [[-> ->] | [Hne [Hs Hf]]].
           ++ split; [right; now left | exact Ef].
           ++ split; [now left | exact Hf].
        -- intros [[Hs | [<- | []]] Hf].
           ++ destruct (string_dec k pkg) as [-> | Hne].
              ** left. split; [reflexivity | congruence].
              ** right. now repeat split.
           ++ left. split; [reflexivity | congruence].
      * rewrite Hin. split.
        -- intros [Hs Hf]. split; [now left | exact Hf].
        -- intros [[Hs | [<- | []]] Hf]; [now split | congruence].
Qed.

(** X24. The directories [remove_packages] schedules for removal: a
    package has an entry exactly when it is to be removed and some
    directory matches its normalised name, the entry is the last such
    directory of the listing, and no package has two entries. *)
Theorem matched_by_last_directory (os : string) (pkgs dirs : list string) :
  NoDup (map fst (Packages.matched os pkgs dirs))
  /\ forall pkg d,
       In (pkg, d) (Packages.matched os pkgs dirs) <->
       In pkg pkgs /\ find (Packages.dir_matches os pkg) (rev dirs) = Some d.
Proof.
  unfold Packages.matched.
  apply (@matched_outer os dirs pkgs [] []).
  - constructor.
  - intros k v. simpl. split; [intros [] | intros [[] _]].
Qed.
